(** * AutoAssess dashboard: the submission state/view engine

    A shallow embedding of [frontend/js/dashboard.js]: the module-level
    store ([submissions], [statistics], [monitoringActive], [sortColumn],
    [sortDirection]), the API gateway ([apiCall]), the refresh
    ([loadDashboardData]), the filter ([filterSubmissions]), the sort
    ([sortTable]), the monitoring toggle ([startMonitoring]) and the detail
    projection ([generateDetailsHTML]).

    Conventions.
    - A JavaScript property that may be [undefined] is an [option]; the
      truthiness test of the source ([x && ...], [x || d]) is written out.
    - Strings are sequences of 8-bit characters; case mapping is the ASCII
      one (characters outside [A-Z]/[a-z] are left alone).
    - Numbers are finite and exact (rationals); [NaN] is [None] where the
      source can produce it.
    - Built-ins whose behaviour belongs to the browser (collation, date
      parsing and formatting, number/string coercions) are fields of the
      class [Host].
    - A function that awaits the network takes the server's answers as an
      argument and runs to completion; interleavings at [await] points are
      outside this model. *)

From Stdlib Require Import List String Ascii ZArith QArith Qabs Qround Bool Lia.
From Stdlib Require Import Permutation Sorted OrdersEx Lqa.
Import ListNotations.

Open Scope string_scope.
Open Scope Z_scope.

(* ===================================================================== *)
(** ** JavaScript strings *)
(* ===================================================================== *)

Module JsString.

Definition lowerChar (c : ascii) : ascii :=
  let n := nat_of_ascii c in
  if (Nat.leb 65 n && Nat.leb n 90)%bool then ascii_of_nat (n + 32) else c.

Definition upperChar (c : ascii) : ascii :=
  let n := nat_of_ascii c in
  if (Nat.leb 97 n && Nat.leb n 122)%bool then ascii_of_nat (n - 32) else c.

Fixpoint mapChars (f : ascii -> ascii) (s : string) : string :=
  match s with
  | EmptyString => EmptyString
  | String c r => String (f c) (mapChars f r)
  end.

(** [String.prototype.toLowerCase] / [toUpperCase]. *)
Definition toLowerCase : string -> string := mapChars lowerChar.
Definition toUpperCase : string -> string := mapChars upperChar.

(** [s.startsWith(t)]. *)
Fixpoint startsWith (s t : string) : bool :=
  match t, s with
  | EmptyString, _ => true
  | String _ _, EmptyString => false
  | String b t', String a s' => (Ascii.eqb a b && startsWith s' t')%bool
  end.

(** [s.includes(t)]: [t] occurs somewhere in [s]. *)
Fixpoint includes (s t : string) : bool :=
  match s with
  | EmptyString => startsWith EmptyString t
  | String _ s' => (startsWith s t || includes s' t)%bool
  end.

(** [s.charAt(0)]: the empty string when [s] is empty. *)
Definition charAt0 (s : string) : string :=
  match s with
  | EmptyString => EmptyString
  | String c _ => String c EmptyString
  end.

(** Truthiness of a string value. *)
Definition truthy (s : string) : bool :=
  match s with EmptyString => false | _ => true end.

End JsString.

(** Truthiness of an optional string property: [undefined] and [''] are
    falsy. *)
Definition truthyStr (o : option string) : bool :=
  match o with
  | Some s => JsString.truthy s
  | None => false
  end.

(** [o || d] for an optional string property. *)
Definition orStr (o : option string) (d : string) : string :=
  match o with
  | Some s => if JsString.truthy s then s else d
  | None => d
  end.

(** [a === b] where [a] may be [undefined] and [b] is a string. *)
Definition strictEqStr (a : option string) (b : string) : bool :=
  match a with
  | Some s => String.eqb s b
  | None => false
  end.

(* ===================================================================== *)
(** ** Data model *)
(* ===================================================================== *)

Record BreakdownEntry := {
  score : option Q;
  max_score : option Q;
  percentage : option Q
}.

Record Assessment := {
  total_score : option Q;
  grade : option string;
  breakdown : option (list (string * BreakdownEntry));
  strengths : option (list string);
  improvements : option (list string);
  recommendations : option (list string)
}.

Record Submission := {
  _id : string;
  student_id : option string;
  student_name : option string;
  file_name : option string;
  submitted_at : option string;
  status : option string;
  assessment : option Assessment
}.

Record Statistics := {
  total_submissions : option Q;
  evaluated : option Q;
  pending : option Q;
  average_score : option Q;
  pass_rate : option Q
}.

(** The literal [{}] that initialises [statistics]. *)
Definition emptyStatistics : Statistics :=
  {| total_submissions := None; evaluated := None; pending := None;
     average_score := None; pass_rate := None |}.

(** The literal [{}] that stands in for a missing assessment. *)
Definition emptyAssessment : Assessment :=
  {| total_score := None; grade := None; breakdown := None;
     strengths := None; improvements := None; recommendations := None |}.

(* ===================================================================== *)
(** ** The filter predicate of [filterSubmissions] *)
(* ===================================================================== *)

(** [field && field.toLowerCase().includes(searchTerm)]. *)
Definition fieldMatches (field : option string) (searchTerm : string) : bool :=
  match field with
  | Some s =>
      (JsString.truthy s
       && JsString.includes (JsString.toLowerCase s) searchTerm)%bool
  | None => false
  end.

Definition matchesSearch (searchTerm : string) (submission : Submission) : bool :=
  (fieldMatches (student_id submission) searchTerm
   || fieldMatches (student_name submission) searchTerm
   || fieldMatches (file_name submission) searchTerm)%bool.

(** [!statusFilter || submission.status === statusFilter]. *)
Definition matchesStatus (statusFilter : string) (submission : Submission) : bool :=
  (negb (JsString.truthy statusFilter)
   || strictEqStr (status submission) statusFilter)%bool.

(** The callback given to [submissions.filter]; [searchInputValue] is the
    raw text of the search box, lowered before use. *)
Definition filterPredicate (searchInputValue statusFilter : string)
    (submission : Submission) : bool :=
  let searchTerm := JsString.toLowerCase searchInputValue in
  (matchesSearch searchTerm submission && matchesStatus statusFilter submission)%bool.

Definition filtered (searchInputValue statusFilter : string)
    (subs : list Submission) : list Submission :=
  List.filter (filterPredicate searchInputValue statusFilter) subs.

(* ===================================================================== *)
(** ** Host built-ins *)
(* ===================================================================== *)

(** What the browser supplies.  [localeCompare a b] is
    [a.localeCompare(b, undefined, {numeric: true, sensitivity: 'base'})];
    [Date_parse s] is the time value of [new Date(s)], [None] for an
    invalid date; [Date_toLocaleString s] is
    [new Date(s).toLocaleString('en-US', {...})] with the options of
    [formatDate]; [ToNumber] and [NumberToString] are the coercions of the
    language, [None] standing for [NaN]. *)
Class Host := {
  localeCompare : string -> string -> Z;
  Date_parse : string -> option Z;
  Date_toLocaleString : string -> string;
  ToNumber : string -> option Q;
  NumberToString : Q -> string
}.

(** A collation is a consistent comparator: swapping the arguments flips
    the sign, and "not after" is transitive. *)
Record HostLaws (H : Host) : Prop := {
  localeCompare_antisym :
    forall a b, Z.sgn (localeCompare b a) = - Z.sgn (localeCompare a b);
  localeCompare_trans :
    forall a b c, localeCompare a b <= 0 -> localeCompare b c <= 0 ->
                  localeCompare a c <= 0
}.

(** Decimal numerals. *)
Fixpoint digitsOfPos (fuel : nat) (n : Z) (acc : string) : string :=
  match fuel with
  | O => acc
  | S fuel' =>
      let d := ascii_of_nat (48 + Z.to_nat (n mod 10)) in
      if n <? 10 then String d acc
      else digitsOfPos fuel' (n / 10) (String d acc)
  end.

(** The decimal numeral of a non-negative integer. *)
Definition natToString (n : Z) : string :=
  digitsOfPos (S (Z.to_nat (Z.log2 n))) n EmptyString.

Fixpoint zeros (k : nat) : string :=
  match k with
  | O => EmptyString
  | S k' => String "0" (zeros k')
  end.

(** [x.toFixed(f)] for a finite [x] below [1e21]: the integer [n] nearest
    to [x * 10^f] (the larger one on a tie), printed with [f] decimals. *)
Definition toFixed (f : nat) (x : Q) : string :=
  let scaled := (Qabs x * inject_Z (10 ^ Z.of_nat f) + (1 # 2))%Q in
  let n := Qfloor scaled in
  let m := natToString n in
  let m := if Nat.leb (String.length m) f
           then zeros (f + 1 - String.length m) ++ m else m in
  let k := (String.length m - f)%nat in
  let body := match f with
              | O => m
              | _ => String.substring 0 k m ++ "." ++ String.substring k f m
              end in
  match (x ?= 0)%Q with
  | Lt => "-" ++ body
  | _ => body
  end.

(* ===================================================================== *)
(** ** The network *)
(* ===================================================================== *)

(** A parsed JSON envelope.  Every field may be missing. *)
Record Envelope := {
  env_success : option bool;
  env_error : option string;
  env_message : option string;
  env_submissions : option (list Submission);
  env_statistics : option Statistics;
  env_submission : option Submission;
  env_monitoring_active : option bool;
  env_download_url : option string
}.

(** The result of [response.json()] when it resolves: JSON [null], on
    which a property read throws, or an object. *)
Inductive Data :=
| JNull
| JObject (e : Envelope).

Record Error := { err_message : string }.

Record Response := {
  resp_status : Z;
  resp_content_type : option string;   (* headers.get('content-type') *)
  resp_text : string;                  (* what response.text() resolves to *)
  resp_json : Data + Error             (* response.json(): value or rejection *)
}.

(** [response.ok]. *)
Definition resp_ok (r : Response) : bool :=
  ((200 <=? resp_status r) && (resp_status r <=? 299))%bool.

(** What [fetch] settles to: a rejection (transport failure) or a
    response. *)
Inductive FetchOutcome :=
| Rejected (e : Error)
| Resolved (r : Response).

(** The server as seen during one operation, indexed by endpoint and
    method (the URL is [API_BASE_URL] followed by the endpoint). *)
Definition Network := string -> string -> FetchOutcome.

(* ===================================================================== *)
(** ** Page state: the module-level variables and the DOM they drive *)
(* ===================================================================== *)

(** A JavaScript value that is a number or a string. *)
Inductive JsValue :=
| VNum (q : Q)
| VStr (s : string).

(** The keys and types of the [sortableColumns] table. *)
Inductive ColumnKey :=
| K_student_id | K_student_name | K_file_name | K_submitted_at
| K_status | K_score | K_grade.

Inductive ColumnType := T_string | T_date | T_number.

Definition sortableColumns : list (ColumnKey * ColumnType) :=
  [ (K_student_id, T_string); (K_student_name, T_string);
    (K_file_name, T_string); (K_submitted_at, T_date);
    (K_status, T_string); (K_score, T_number); (K_grade, T_string) ].

Definition ColumnKey_eqb (a b : ColumnKey) : bool :=
  match a, b with
  | K_student_id, K_student_id | K_student_name, K_student_name
  | K_file_name, K_file_name | K_submitted_at, K_submitted_at
  | K_status, K_status | K_score, K_score | K_grade, K_grade => true
  | _, _ => false
  end.

(** [sortDirection]: ['asc'] or ['desc']. *)
Inductive Direction := asc | desc.

(** One [<tr>] of the table body, cell by cell. *)
Record Row := {
  row_student_id : string;
  row_student_name : string;
  row_file_name : string;
  row_submitted_at : string;
  row_status_class : string;
  row_status_text : string;
  row_score : string;
  row_grade_class : string;
  row_grade_text : string;
  row_details_id : string;
  row_report_id : option string
}.

(** One element appended to the document body by [showNotification]. *)
Record Notification := {
  notif_type : string;
  notif_text : string
}.

(** The part of the document the script reads and writes. *)
Record Dom := {
  searchInput : string;                 (* elements.searchInput.value *)
  statusFilter : string;                (* elements.statusFilter.value *)
  submissionCount : string;
  emptyState_display : string;
  submissionsBody : list Row;
  loadingIndicator_display : string;
  totalSubmissions : JsValue;
  evaluatedCell : JsValue;
  pendingCell : JsValue;
  avgScore : string;
  passRate : string;
  statusDot_classList : list string;
  statusText : string;
  startMonitoringBtn_disabled : bool;
  stopMonitoringBtn_disabled : bool;
  sortIndicator : option (ColumnKey * Direction);  (* header carrying an arrow *)
  notifications : list Notification     (* in order of creation *)
}.

Record State := {
  submissions : list Submission;
  statistics : Statistics;
  monitoringActive : bool;
  sortColumn : option ColumnKey;
  sortDirection : Direction;
  dom : Dom
}.

Definition set_submissions (v : list Submission) (st : State) : State :=
  {| submissions := v; statistics := statistics st;
     monitoringActive := monitoringActive st; sortColumn := sortColumn st;
     sortDirection := sortDirection st; dom := dom st |}.

Definition set_statistics (v : Statistics) (st : State) : State :=
  {| submissions := submissions st; statistics := v;
     monitoringActive := monitoringActive st; sortColumn := sortColumn st;
     sortDirection := sortDirection st; dom := dom st |}.

Definition set_monitoringActive (v : bool) (st : State) : State :=
  {| submissions := submissions st; statistics := statistics st;
     monitoringActive := v; sortColumn := sortColumn st;
     sortDirection := sortDirection st; dom := dom st |}.

Definition set_sort (c : option ColumnKey) (d : Direction) (st : State) : State :=
  {| submissions := submissions st; statistics := statistics st;
     monitoringActive := monitoringActive st; sortColumn := c;
     sortDirection := d; dom := dom st |}.

Definition set_dom (v : Dom) (st : State) : State :=
  {| submissions := submissions st; statistics := statistics st;
     monitoringActive := monitoringActive st; sortColumn := sortColumn st;
     sortDirection := sortDirection st; dom := v |}.

(* ===================================================================== *)
(** ** Computations: state and exceptions *)
(* ===================================================================== *)

(** How a statement list completes. *)
Inductive Completion (A : Type) : Type :=
| Normal (a : A)
| Throw (e : Error).

Arguments Normal {A} a.
Arguments Throw {A} e.

(** A piece of script: it runs on the page state and completes normally or
    by throwing; the state changes made before a throw stay. *)
Definition JS (A : Type) : Type := State -> Completion A * State.

Definition ret {A : Type} (a : A) : JS A := fun st => (Normal a, st).

Definition throw {A : Type} (e : Error) : JS A := fun st => (Throw e, st).

Definition bind {A B : Type} (m : JS A) (k : A -> JS B) : JS B :=
  fun st =>
    match m st with
    | (Normal a, st') => k a st'
    | (Throw e, st') => (Throw e, st')
    end.

Definition modify (f : State -> State) : JS unit :=
  fun st => (Normal tt, f st).

Definition gets {A : Type} (f : State -> A) : JS A :=
  fun st => (Normal (f st), st).

(** [try { body } catch (error) { handler }]. *)
Definition tryCatch {A : Type} (body : JS A) (handler : Error -> JS A) : JS A :=
  fun st =>
    match body st with
    | (Normal a, st') => (Normal a, st')
    | (Throw e, st') => handler e st'
    end.

(** [try { body } finally { final }]. *)
Definition tryFinally {A : Type} (body : JS A) (final : JS unit) : JS A :=
  fun st =>
    match body st with
    | (c, st') =>
        match final st' with
        | (Normal _, st'') => (c, st'')
        | (Throw e, st'') => (Throw e, st'')
        end
    end.

Declare Scope js_scope.
Delimit Scope js_scope with js.
Notation "x <- m ;; k" := (bind m (fun x => k))
  (at level 61, m at next level, right associativity) : js_scope.
Notation "m ;; k" := (bind m (fun _ => k))
  (at level 61, right associativity) : js_scope.

Definition modifyDom (f : Dom -> Dom) : JS unit :=
  modify (fun st => set_dom (f (dom st)) st).

(** The message of the [TypeError] raised by reading property [p] of
    [undefined] or [null] (the engine's wording). *)
Definition TypeError_read (of_what p : string) : Error :=
  {| err_message :=
       "Cannot read properties of " ++ of_what ++ " (reading '" ++ p ++ "')" |}.

(* ===================================================================== *)
(** ** Utility functions *)
(* ===================================================================== *)

Definition formatDate {H : Host} (dateString : option string) : string :=
  match dateString with
  | Some s => if JsString.truthy s then Date_toLocaleString s else "N/A"
  | None => "N/A"
  end.

Definition getGradeClass (grade : option string) : string :=
  match grade with
  | Some g =>
      if JsString.truthy g
      then JsString.toLowerCase (JsString.charAt0 g)
      else "f"
  | None => "f"
  end.

Definition with_loading (v : string) (d : Dom) : Dom :=
  {| searchInput := searchInput d; statusFilter := statusFilter d;
     submissionCount := submissionCount d;
     emptyState_display := emptyState_display d;
     submissionsBody := submissionsBody d;
     loadingIndicator_display := v;
     totalSubmissions := totalSubmissions d; evaluatedCell := evaluatedCell d;
     pendingCell := pendingCell d; avgScore := avgScore d;
     passRate := passRate d; statusDot_classList := statusDot_classList d;
     statusText := statusText d;
     startMonitoringBtn_disabled := startMonitoringBtn_disabled d;
     stopMonitoringBtn_disabled := stopMonitoringBtn_disabled d;
     sortIndicator := sortIndicator d;
     notifications := notifications d |}.

Definition with_notification (n : Notification) (d : Dom) : Dom :=
  {| searchInput := searchInput d; statusFilter := statusFilter d;
     submissionCount := submissionCount d;
     emptyState_display := emptyState_display d;
     submissionsBody := submissionsBody d;
     loadingIndicator_display := loadingIndicator_display d;
     totalSubmissions := totalSubmissions d; evaluatedCell := evaluatedCell d;
     pendingCell := pendingCell d; avgScore := avgScore d;
     passRate := passRate d; statusDot_classList := statusDot_classList d;
     statusText := statusText d;
     startMonitoringBtn_disabled := startMonitoringBtn_disabled d;
     stopMonitoringBtn_disabled := stopMonitoringBtn_disabled d;
     sortIndicator := sortIndicator d;
     notifications := notifications d ++ [n] |}.

Definition with_statistics (t e p : JsValue) (a r : string) (d : Dom) : Dom :=
  {| searchInput := searchInput d; statusFilter := statusFilter d;
     submissionCount := submissionCount d;
     emptyState_display := emptyState_display d;
     submissionsBody := submissionsBody d;
     loadingIndicator_display := loadingIndicator_display d;
     totalSubmissions := t; evaluatedCell := e;
     pendingCell := p; avgScore := a;
     passRate := r; statusDot_classList := statusDot_classList d;
     statusText := statusText d;
     startMonitoringBtn_disabled := startMonitoringBtn_disabled d;
     stopMonitoringBtn_disabled := stopMonitoringBtn_disabled d;
     sortIndicator := sortIndicator d;
     notifications := notifications d |}.

Definition with_count (c : string) (d : Dom) : Dom :=
  {| searchInput := searchInput d; statusFilter := statusFilter d;
     submissionCount := c;
     emptyState_display := emptyState_display d;
     submissionsBody := submissionsBody d;
     loadingIndicator_display := loadingIndicator_display d;
     totalSubmissions := totalSubmissions d; evaluatedCell := evaluatedCell d;
     pendingCell := pendingCell d; avgScore := avgScore d;
     passRate := passRate d; statusDot_classList := statusDot_classList d;
     statusText := statusText d;
     startMonitoringBtn_disabled := startMonitoringBtn_disabled d;
     stopMonitoringBtn_disabled := stopMonitoringBtn_disabled d;
     sortIndicator := sortIndicator d;
     notifications := notifications d |}.

Definition with_emptyState (v : string) (d : Dom) : Dom :=
  {| searchInput := searchInput d; statusFilter := statusFilter d;
     submissionCount := submissionCount d;
     emptyState_display := v;
     submissionsBody := submissionsBody d;
     loadingIndicator_display := loadingIndicator_display d;
     totalSubmissions := totalSubmissions d; evaluatedCell := evaluatedCell d;
     pendingCell := pendingCell d; avgScore := avgScore d;
     passRate := passRate d; statusDot_classList := statusDot_classList d;
     statusText := statusText d;
     startMonitoringBtn_disabled := startMonitoringBtn_disabled d;
     stopMonitoringBtn_disabled := stopMonitoringBtn_disabled d;
     sortIndicator := sortIndicator d;
     notifications := notifications d |}.

Definition with_body (rows : list Row) (d : Dom) : Dom :=
  {| searchInput := searchInput d; statusFilter := statusFilter d;
     submissionCount := submissionCount d;
     emptyState_display := emptyState_display d;
     submissionsBody := rows;
     loadingIndicator_display := loadingIndicator_display d;
     totalSubmissions := totalSubmissions d; evaluatedCell := evaluatedCell d;
     pendingCell := pendingCell d; avgScore := avgScore d;
     passRate := passRate d; statusDot_classList := statusDot_classList d;
     statusText := statusText d;
     startMonitoringBtn_disabled := startMonitoringBtn_disabled d;
     stopMonitoringBtn_disabled := stopMonitoringBtn_disabled d;
     sortIndicator := sortIndicator d;
     notifications := notifications d |}.

Definition with_monitoring (cl : list string) (txt : string)
    (startDisabled stopDisabled : bool) (d : Dom) : Dom :=
  {| searchInput := searchInput d; statusFilter := statusFilter d;
     submissionCount := submissionCount d;
     emptyState_display := emptyState_display d;
     submissionsBody := submissionsBody d;
     loadingIndicator_display := loadingIndicator_display d;
     totalSubmissions := totalSubmissions d; evaluatedCell := evaluatedCell d;
     pendingCell := pendingCell d; avgScore := avgScore d;
     passRate := passRate d; statusDot_classList := cl;
     statusText := txt;
     startMonitoringBtn_disabled := startDisabled;
     stopMonitoringBtn_disabled := stopDisabled;
     sortIndicator := sortIndicator d;
     notifications := notifications d |}.

Definition showLoading (show : bool) : JS unit :=
  modifyDom (with_loading (if show then "block" else "none")).

(** [showNotification(message, type)]: one element is appended to the
    document body (its timed removal is not part of the model). *)
Definition showNotification (message type : string) : JS unit :=
  modifyDom (with_notification {| notif_type := type; notif_text := message |}).

(** [classList.remove] and [classList.add]. *)
Definition classList_remove (c : string) (l : list string) : list string :=
  List.filter (fun x => negb (String.eqb x c)) l.

Definition classList_add (c : string) (l : list string) : list string :=
  if List.existsb (String.eqb c) l then l else l ++ [c].

Definition updateMonitoringUI : JS unit :=
  modify (fun st =>
    let d := dom st in
    set_dom
      (if monitoringActive st
       then with_monitoring
              (classList_add "active"
                 (classList_remove "inactive" (statusDot_classList d)))
              "Active" true false d
       else with_monitoring
              (classList_add "inactive"
                 (classList_remove "active" (statusDot_classList d)))
              "Inactive" false true d)
      st).

(** [x || 0] for an optional number. *)
Definition orZero (o : option Q) : JsValue :=
  match o with
  | Some q => if Qeq_bool q 0 then VNum 0 else VNum q
  | None => VNum 0
  end.

(** Truthiness of an optional number. *)
Definition truthyNum (o : option Q) : bool :=
  match o with
  | Some q => negb (Qeq_bool q 0)
  | None => false
  end.

Definition updateStatistics : JS unit :=
  modify (fun st =>
    let s := statistics st in
    set_dom
      (with_statistics
         (orZero (total_submissions s))
         (orZero (evaluated s))
         (orZero (pending s))
         (match average_score s with
          | Some q => if truthyNum (Some q) then toFixed 2 q else "0"
          | None => "0"
          end)
         (match pass_rate s with
          | Some q => if truthyNum (Some q) then toFixed 1 q ++ "%" else "0%"
          | None => "0%"
          end)
         (dom st))
      st).

(* ===================================================================== *)
(** ** Rendering the table *)
(* ===================================================================== *)

(** The template of one table row.  Evaluating it throws when [status] is
    undefined ([submission.status.toUpperCase()]) or when an assessment has
    no [total_score] ([total_score.toFixed(2)]), in this order. *)
Definition renderRow {H : Host} (submission : Submission) : Row + Error :=
  match status submission with
  | None => inr (TypeError_read "undefined" "toUpperCase")
  | Some st =>
      let scoreCell :=
        match assessment submission with
        | Some a =>
            match total_score a with
            | Some q => inl (toFixed 2 q)
            | None => inr (TypeError_read "undefined" "toFixed")
            end
        | None => inl "-"
        end in
      match scoreCell with
      | inr e => inr e
      | inl sc =>
          let g := match assessment submission with
                   | Some a => grade a
                   | None => None
                   end in
          inl {| row_student_id := orStr (student_id submission) "N/A";
                 row_student_name := orStr (student_name submission) "N/A";
                 row_file_name := orStr (file_name submission) "N/A";
                 row_submitted_at := formatDate (submitted_at submission);
                 row_status_class := "status-" ++ st;
                 row_status_text := JsString.toUpperCase st;
                 row_score := sc;
                 row_grade_class := "grade-" ++ getGradeClass g;
                 row_grade_text := orStr g "-";
                 row_details_id := _id submission;
                 row_report_id :=
                   if String.eqb st "evaluated"
                   then Some (_id submission) else None |}
      end
  end.

(** [dataToRender.map(row template)]: the first throwing row aborts. *)
Fixpoint renderRows {H : Host} (l : list Submission) : list Row + Error :=
  match l with
  | [] => inl []
  | s :: l' =>
      match renderRow s with
      | inr e => inr e
      | inl r =>
          match renderRows l' with
          | inr e => inr e
          | inl rs => inl (r :: rs)
          end
      end
  end.

(** [renderSubmissions(filteredSubmissions = null)].  An array is always
    truthy, so the argument is used whenever one is given. *)
Definition renderSubmissions {H : Host}
    (filteredSubmissions : option (list Submission)) : JS unit :=
  (dataToRender <- gets (fun st =>
       match filteredSubmissions with
       | Some l => l
       | None => submissions st
       end) ;;
   let n := List.length dataToRender in
   modifyDom (with_count
     (natToString (Z.of_nat n) ++ " submission"
        ++ (if Nat.eqb n 1 then "" else "s"))) ;;
   if Nat.eqb n 0
   then modifyDom (with_emptyState "block") ;;
        modifyDom (with_body [])
   else modifyDom (with_emptyState "none") ;;
        match renderRows dataToRender with
        | inl rows => modifyDom (with_body rows)
        | inr e => throw e
        end)%js.

Definition filterSubmissions {H : Host} : JS unit :=
  (searchValue <- gets (fun st => searchInput (dom st)) ;;
   statusValue <- gets (fun st => statusFilter (dom st)) ;;
   subs <- gets submissions ;;
   renderSubmissions (Some (filtered searchValue statusValue subs)))%js.

(* ===================================================================== *)
(** ** API functions *)
(* ===================================================================== *)

(** [data.success] and the like: reading a property of [null] throws. *)
Definition readProp {A : Type} (name : string) (f : Envelope -> option A)
    (data : Data) : JS (option A) :=
  match data with
  | JNull => throw (TypeError_read "null" name)
  | JObject e => ret (f e)
  end.

(** [data?.error] and the like. *)
Definition readPropOpt {A : Type} (f : Envelope -> option A) (data : Data)
    : option A :=
  match data with
  | JNull => None
  | JObject e => f e
  end.

Definition truthyBool (o : option bool) : bool :=
  match o with
  | Some b => b
  | None => false
  end.

(** The body of the [try] block of [apiCall]. *)
Definition apiCall_try (net : Network) (endpoint method : string) : JS Data :=
  (response <- match net endpoint method with
               | Rejected e => throw e
               | Resolved r => ret r
               end ;;
   let contentType := orStr (resp_content_type response) "" in
   data <- (if JsString.includes contentType "application/json"
            then match resp_json response with
                 | inl d => ret d
                 | inr e => throw e
                 end
            else
              let text := resp_text response in
              throw {| err_message :=
                         if JsString.truthy text then text
                         else "Unexpected response format (status "
                                ++ natToString (resp_status response) ++ ")" |}) ;;
   failed <- (if negb (resp_ok response) then ret true
              else s <- readProp "success" env_success data ;;
                   ret (negb (truthyBool s))) ;;
   if (failed : bool)
   then
     let message :=
       orStr (readPropOpt env_error data)
         (orStr (readPropOpt env_message data)
            ("Request failed with status " ++ natToString (resp_status response))) in
     throw {| err_message := message |}
   else ret data)%js.

(** [apiCall(endpoint, method)]: every failure is notified, then rethrown.
    The request body only travels to the server, whose answer is given by
    [net]. *)
Definition apiCall (net : Network) (endpoint method : string) : JS Data :=
  tryCatch (apiCall_try net endpoint method)
    (fun error =>
       (showNotification ("Error: " ++ err_message error) "error" ;;
        throw error)%js).

Definition orList {A : Type} (o : option (list A)) : list A :=
  match o with
  | Some l => l
  | None => []
  end.

Definition orEmptyStatistics (o : option Statistics) : Statistics :=
  match o with
  | Some s => s
  | None => emptyStatistics
  end.

Definition loadDashboardData {H : Host} (net : Network) : JS unit :=
  (showLoading true ;;
   tryFinally
     (tryCatch
        (submissionsData <- apiCall net "/api/submissions" "GET" ;;
         subs <- readProp "submissions" env_submissions submissionsData ;;
         modify (set_submissions (orList subs)) ;;
         statsData <- apiCall net "/api/stats/overview" "GET" ;;
         stats <- readProp "statistics" env_statistics statsData ;;
         modify (set_statistics (orEmptyStatistics stats)) ;;
         updateStatistics ;;
         renderSubmissions None ;;
         showNotification "Data refreshed successfully" "success")
        (fun error => ret tt))
     (showLoading false))%js.

(* ===================================================================== *)
(** ** Monitoring functions *)
(* ===================================================================== *)

Definition startMonitoring (net : Network) : JS unit :=
  tryCatch
    (apiCall net "/api/monitor/start" "POST" ;;
     modify (set_monitoringActive true) ;;
     updateMonitoringUI ;;
     showNotification "Monitoring started successfully" "success")%js
    (fun error => ret tt).

Definition stopMonitoring (net : Network) : JS unit :=
  tryCatch
    (apiCall net "/api/monitor/stop" "POST" ;;
     modify (set_monitoringActive false) ;;
     updateMonitoringUI ;;
     showNotification "Monitoring stopped" "info")%js
    (fun error => ret tt).

(** [monitoringActive = data.monitoring_active]; only the truthiness of the
    variable is ever observed. *)
Definition checkMonitoringStatus (net : Network) : JS unit :=
  tryCatch
    (data <- apiCall net "/api/monitor/status" "GET" ;;
     flag <- readProp "monitoring_active" env_monitoring_active data ;;
     modify (set_monitoringActive (truthyBool flag)) ;;
     updateMonitoringUI)%js
    (fun error => ret tt).

(* ===================================================================== *)
(** ** Sorting functions *)
(* ===================================================================== *)

(** [Array.prototype.sort(comparefn)].  A comparator result that is [NaN]
    counts as [+0]; [x] stays before [y] unless the comparator puts it
    strictly after.  The sort is stable, as the language requires; for a
    consistent comparator this determines the result.  For an inconsistent
    one the language only promises a permutation, and this function is one
    admissible behaviour. *)
Definition notAfter {A : Type} (comparefn : A -> A -> option Q) (x y : A) : bool :=
  match comparefn x y with
  | Some v => Qle_bool v 0
  | None => true
  end.

Fixpoint sortInsert {A : Type} (comparefn : A -> A -> option Q) (x : A)
    (l : list A) : list A :=
  match l with
  | [] => [x]
  | y :: l' =>
      if notAfter comparefn x y then x :: y :: l'
      else y :: sortInsert comparefn x l'
  end.

Fixpoint Array_sort {A : Type} (comparefn : A -> A -> option Q) (l : list A)
    : list A :=
  match l with
  | [] => []
  | x :: l' => sortInsert comparefn x (Array_sort comparefn l')
  end.

(** [a[column]] for the columns read as plain properties. *)
Definition getColumn (column : ColumnKey) (a : Submission) : option string :=
  match column with
  | K_student_id => student_id a
  | K_student_name => student_name a
  | K_file_name => file_name a
  | K_submitted_at => submitted_at a
  | K_status => status a
  | K_score | K_grade => None
  end.

(** [a.assessment?.total_score] and [a.assessment?.grade]. *)
Definition assessment_total_score (a : Submission) : option Q :=
  match assessment a with
  | Some x => total_score x
  | None => None
  end.

Definition assessment_grade (a : Submission) : option string :=
  match assessment a with
  | Some x => grade x
  | None => None
  end.

(** The value extracted from a submission for a column. *)
Definition sortValue (column : ColumnKey) (a : Submission) : JsValue :=
  match column with
  | K_score =>
      match assessment_total_score a with
      | Some q => VNum q
      | None => VNum (-1 # 1)
      end
  | K_grade => VStr (orStr (assessment_grade a) "Z")
  | _ => VStr (orStr (getColumn column a) "")
  end.

Definition asNumber {H : Host} (v : JsValue) : option Q :=
  match v with
  | VNum q => Some q
  | VStr s => ToNumber s
  end.

Definition asString {H : Host} (v : JsValue) : string :=
  match v with
  | VNum q => NumberToString q
  | VStr s => s
  end.

(** The time value of [new Date(v)]. *)
Definition dateValue {H : Host} (v : JsValue) : option Z :=
  match v with
  | VStr s => Date_parse s
  | VNum q =>
      let t := if Qle_bool 0 q then Qfloor q else Qceiling q in
      if Z.abs t <=? 8640000000000000 then Some t else None
  end.

(** The [comparison] computed by the callback for a column type. *)
Definition comparison {H : Host} (type : ColumnType) (valueA valueB : JsValue)
    : option Q :=
  match type with
  | T_number =>
      match asNumber valueA, asNumber valueB with
      | Some x, Some y => Some (x - y)%Q
      | _, _ => None
      end
  | T_date =>
      match dateValue valueA, dateValue valueB with
      | Some x, Some y => Some (inject_Z (x - y))
      | _, _ => None
      end
  | T_string =>
      Some (inject_Z (localeCompare (asString valueA) (asString valueB)))
  end.

(** The callback given to [submissions.sort]. *)
Definition compareFn {H : Host} (direction : Direction) (column : ColumnKey)
    (type : ColumnType) (a b : Submission) : option Q :=
  let c := comparison type (sortValue column a) (sortValue column b) in
  match direction with
  | asc => c
  | desc => option_map Qopp c
  end.

Definition with_sortIndicator (v : option (ColumnKey * Direction)) (d : Dom) : Dom :=
  {| searchInput := searchInput d; statusFilter := statusFilter d;
     submissionCount := submissionCount d;
     emptyState_display := emptyState_display d;
     submissionsBody := submissionsBody d;
     loadingIndicator_display := loadingIndicator_display d;
     totalSubmissions := totalSubmissions d; evaluatedCell := evaluatedCell d;
     pendingCell := pendingCell d; avgScore := avgScore d;
     passRate := passRate d; statusDot_classList := statusDot_classList d;
     statusText := statusText d;
     startMonitoringBtn_disabled := startMonitoringBtn_disabled d;
     stopMonitoringBtn_disabled := stopMonitoringBtn_disabled d;
     sortIndicator := v;
     notifications := notifications d |}.

(** Every header gets its label back; the header of [sortColumn], if any,
    gets the arrow of [sortDirection]. *)
Definition updateSortIndicators : JS unit :=
  modify (fun st =>
    set_dom
      (with_sortIndicator
         (option_map (fun c => (c, sortDirection st)) (sortColumn st))
         (dom st))
      st).

(** [sortColumn === column]. *)
Definition sameColumn (current : option ColumnKey) (column : ColumnKey) : bool :=
  match current with
  | Some c => ColumnKey_eqb c column
  | None => false
  end.

(** The first statement of [sortTable]: the new sort view-state. *)
Definition nextSort (current : option ColumnKey) (direction : Direction)
    (column : ColumnKey) : option ColumnKey * Direction :=
  if sameColumn current column
  then (current, match direction with asc => desc | desc => asc end)
  else (Some column, asc).

Definition sortTable {H : Host} (column : ColumnKey) (type : ColumnType)
    : JS unit :=
  (modify (fun st =>
     let '(c, d) := nextSort (sortColumn st) (sortDirection st) column in
     set_sort c d st) ;;
   modify (fun st =>
     set_submissions
       (Array_sort (compareFn (sortDirection st) column type) (submissions st))
       st) ;;
   updateSortIndicators ;;
   filterSubmissions)%js.

(* ===================================================================== *)
(** ** The detail projection *)
(* ===================================================================== *)

(** Markup produced by a template literal: literal text, interpolated
    values (inserted as they are, unescaped) and elements.  White space
    between elements is not represented. *)
#[local] Set Warnings "-register-all".
Inductive Html :=
| Text (s : string)
| Interp (v : JsValue)
| El (tag : string) (attrs : list (string * string)) (children : list Html).

Definition div (class : string) (children : list Html) : Html :=
  El "div" [("class", class)] children.

Definition detailGroup (label : string) (value : list Html) : Html :=
  div "detail-group"
    [ div "detail-label" [Text label]; div "detail-value" value ].

(** [category.replace(/_/g, ' ')]. *)
Definition underscoresToSpaces (s : string) : string :=
  JsString.mapChars (fun c => if Ascii.eqb c "_" then " "%char else c) s.

(** [x?.toFixed(f) || 0]. *)
Definition toFixedOrZero (f : nat) (o : option Q) : JsValue :=
  match o with
  | Some q => VStr (toFixed f q)
  | None => VNum 0
  end.

Definition scoreItem (entry : string * BreakdownEntry) : Html :=
  let '(category, data) := entry in
  div "score-item"
    [ El "span" [] [Interp (VStr (JsString.toUpperCase (underscoresToSpaces category)))];
      El "span" []
        [ El "strong" [] [Interp (toFixedOrZero 2 (score data))];
          Text " / "; Interp (orZero (max_score data));
          Text " ("; Interp (toFixedOrZero 1 (percentage data)); Text "%)" ] ].

(** [items && items.length > 0 ? section : '']. *)
Definition feedbackSection (items : option (list string)) (color title : string)
    : list Html :=
  match items with
  | Some (i :: l) =>
      [ div "feedback-section"
          [ El "h4" [("style", "color: var(--" ++ color ++ ");")] [Text title];
            El "ul" [("class", "feedback-list")]
              (List.map (fun item => El "li" [] [Interp (VStr item)]) (i :: l)) ] ]
  | _ => []
  end.

(** The block appended when [submission.status === 'evaluated']. *)
Definition assessmentResults (assessment : Assessment)
    (breakdown : list (string * BreakdownEntry)) : list Html :=
  [ El "hr" [("style", "margin: 25px 0; border: none; border-top: 2px solid #eee;")] [];
    El "h3" [("style", "color: var(--primary-color); margin-bottom: 20px;")]
      [Text "Assessment Results"];
    detailGroup "Total Score"
      [ El "span"
          [("style", "font-size: 1.5rem; font-weight: bold; color: var(--primary-color);")]
          [ Interp (VStr (match total_score assessment with
                          | Some q => toFixed 2 q
                          | None => "0"
                          end));
            Text "/100" ];
        El "span"
          [("class", "grade grade-" ++ getGradeClass (grade assessment));
           ("style", "margin-left: 15px; font-size: 1.3rem;")]
          [Interp (VStr (orStr (grade assessment) "-"))] ];
    div "score-breakdown"
      (El "h4" [("style", "margin-bottom: 15px;")] [Text "Score Breakdown"]
       :: List.map scoreItem breakdown) ]
  ++ feedbackSection (strengths assessment) "success-color" "✓ Strengths"
  ++ feedbackSection (improvements assessment) "warning-color" "○ Areas for Improvement"
  ++ feedbackSection (recommendations assessment) "primary-color" "→ Recommendations".

(** The five groups shown for every submission; [st] is its status. *)
Definition identityGroups {H : Host} (submission : Submission) (st : string)
    : list Html :=
  [ detailGroup "Student ID" [Interp (VStr (orStr (student_id submission) "N/A"))];
    detailGroup "Student Name" [Interp (VStr (orStr (student_name submission) "N/A"))];
    detailGroup "File Name" [Interp (VStr (orStr (file_name submission) "N/A"))];
    detailGroup "Submission Date" [Interp (VStr (formatDate (submitted_at submission)))];
    detailGroup "Status"
      [ El "span" [("class", "status-badge status-" ++ st)]
          [Interp (VStr (JsString.toUpperCase st))] ] ].

(** [generateDetailsHTML(submission)].  The first template throws when
    [status] is undefined ([submission.status.toUpperCase()]). *)
Definition generateDetailsHTML {H : Host} (submission : Submission)
    : list Html + Error :=
  let assessment :=
    match assessment submission with
    | Some a => a
    | None => emptyAssessment
    end in
  let breakdown := orList (breakdown assessment) in
  match status submission with
  | None => inr (TypeError_read "undefined" "toUpperCase")
  | Some st =>
      let html := identityGroups submission st in
      inl (if String.eqb st "evaluated"
           then (html ++ assessmentResults assessment breakdown)%list
           else html)
  end.

(* ===================================================================== *)
(** ** A concrete host *)
(* ===================================================================== *)

(** A small host on which the model runs: collation compares the
    lower-cased strings character by character, which is what a
    base-sensitivity collation does on strings of ASCII letters; dates are
    written as decimal millisecond counts; numbers print as their integer
    part. *)
Fixpoint parseDigits (s : string) (acc : Z) : option Z :=
  match s with
  | EmptyString => Some acc
  | String c r =>
      let n := nat_of_ascii c in
      if (Nat.leb 48 n && Nat.leb n 57)%bool
      then parseDigits r (10 * acc + Z.of_nat (n - 48))
      else None
  end.

Definition parseMillis (s : string) : option Z :=
  match s with
  | EmptyString => None
  | _ => parseDigits s 0
  end.

Definition asciiCompare (a b : string) : Z :=
  match String_as_OT.compare (JsString.toLowerCase a) (JsString.toLowerCase b) with
  | Lt => -1
  | Eq => 0
  | Gt => 1
  end.

Definition asciiHost : Host :=
  {| localeCompare := asciiCompare;
     Date_parse := parseMillis;
     Date_toLocaleString := fun s => s;
     ToNumber := fun s => option_map inject_Z (parseDigits s 0);
     NumberToString := fun q =>
       if Qle_bool 0 q then natToString (Qfloor q)
       else "-" ++ natToString (- Qceiling q) |}.

(* ===================================================================== *)
(** ** Initial state and sample data *)
(* ===================================================================== *)

(** A page before the script has written anything to it. *)
Definition emptyDom : Dom :=
  {| searchInput := ""; statusFilter := ""; submissionCount := "";
     emptyState_display := ""; submissionsBody := [];
     loadingIndicator_display := "";
     totalSubmissions := VStr ""; evaluatedCell := VStr "";
     pendingCell := VStr ""; avgScore := ""; passRate := "";
     statusDot_classList := []; statusText := "";
     startMonitoringBtn_disabled := false;
     stopMonitoringBtn_disabled := false;
     sortIndicator := None; notifications := [] |}.

(** The values the module-level variables are initialised with. *)
Definition initialState : State :=
  {| submissions := []; statistics := emptyStatistics;
     monitoringActive := false; sortColumn := None; sortDirection := asc;
     dom := emptyDom |}.

Definition emptyEnvelope : Envelope :=
  {| env_success := None; env_error := None; env_message := None;
     env_submissions := None; env_statistics := None; env_submission := None;
     env_monitoring_active := None; env_download_url := None |}.

(** A JSON response with the given status and body. *)
Definition jsonResponse (code : Z) (e : Envelope) : FetchOutcome :=
  Resolved {| resp_status := code;
              resp_content_type := Some "application/json";
              resp_text := "";
              resp_json := inl (JObject e) |}.

(** A server that cannot be reached. *)
Definition offline : Network :=
  fun _ _ => Rejected {| err_message := "Failed to fetch" |}.

(** The two submissions of the specification's example:
    [{id:"A", status:"pending"}] and
    [{id:"B", status:"evaluated", assessment:{totalScore:88}}]. *)
Definition submissionA : Submission :=
  {| _id := "A"; student_id := None; student_name := None; file_name := None;
     submitted_at := None; status := Some "pending"; assessment := None |}.

Definition submissionB : Submission :=
  {| _id := "B"; student_id := None; student_name := None; file_name := None;
     submitted_at := None; status := Some "evaluated";
     assessment :=
       Some {| total_score := Some (88 # 1); grade := None; breakdown := None;
               strengths := None; improvements := None;
               recommendations := None |} |}.

(** An evaluated submission whose total score is 0. *)
Definition submissionZero : Submission :=
  {| _id := "C"; student_id := None; student_name := None; file_name := None;
     submitted_at := None; status := Some "evaluated";
     assessment :=
       Some {| total_score := Some (0 # 1); grade := Some "F"; breakdown := None;
               strengths := None; improvements := None;
               recommendations := None |} |}.

(** An evaluated submission with the given grade. *)
Definition graded (i g : string) : Submission :=
  {| _id := i; student_id := None; student_name := None; file_name := None;
     submitted_at := None; status := Some "evaluated";
     assessment :=
       Some {| total_score := Some (50 # 1); grade := Some g;
               breakdown := None; strengths := None; improvements := None;
               recommendations := None |} |}.

(** A submission marked evaluated whose assessment is missing. *)
Definition evaluatedWithoutAssessment : Submission :=
  {| _id := "D"; student_id := Some "S001"; student_name := Some "John Smith";
     file_name := Some "a1.pdf"; submitted_at := None;
     status := Some "evaluated"; assessment := None |}.

(** A record that came without a status. *)
Definition submissionNoStatus : Submission :=
  {| _id := "E"; student_id := Some "S002"; student_name := Some "Jane Doe";
     file_name := Some "a2.pdf"; submitted_at := None;
     status := None; assessment := None |}.

(** An envelope with [success: true] and the given payload. *)
Definition okEnvelope (subs : option (list Submission))
    (stats : option Statistics) : Envelope :=
  {| env_success := Some true; env_error := None; env_message := None;
     env_submissions := subs; env_statistics := stats;
     env_submission := None; env_monitoring_active := None;
     env_download_url := None |}.

(** A server that answers every request with status 200 and the same
    envelope. *)
Definition always (e : Envelope) : Network := fun _ _ => jsonResponse 200 e.

(** A server whose submission list has grown to [A, B] but whose
    statistics endpoint is unreachable. *)
Definition statsDown : Network :=
  fun endpoint _ =>
    if String.eqb endpoint "/api/submissions"
    then jsonResponse 200
           {| env_success := Some true; env_error := None; env_message := None;
              env_submissions := Some [submissionA; submissionB];
              env_statistics := None; env_submission := None;
              env_monitoring_active := None; env_download_url := None |}
    else Rejected {| err_message := "Failed to fetch" |}.

(** A page holding and showing the single submission [A]. *)
Definition showingA : State :=
  snd (renderSubmissions (H := asciiHost) None
         (set_submissions [submissionA] initialState)).

(** The state left by a refresh or a monitoring action whose request
    failed with [e]: one more notification, nothing else. *)
Definition notifyError (e : Error) (st : State) : State :=
  set_dom
    (with_notification
       {| notif_type := "error"; notif_text := "Error: " ++ err_message e |}
       (dom st))
    st.

(** The number by which the score column orders a submission. *)
Definition scoreKey (a : Submission) : Q :=
  match assessment_total_score a with
  | Some q => q
  | None => -1 # 1
  end.

(** The string by which the grade column orders a submission. *)
Definition gradeKey (a : Submission) : string :=
  orStr (assessment_grade a) "Z".

(** [l1] is [l2] with some elements left out, the others in place. *)
Inductive Subsequence {A : Type} : list A -> list A -> Prop :=
| Subsequence_nil : Subsequence [] []
| Subsequence_keep (x : A) (l1 l2 : list A) :
    Subsequence l1 l2 -> Subsequence (x :: l1) (x :: l2)
| Subsequence_drop (x : A) (l1 l2 : list A) :
    Subsequence l1 l2 -> Subsequence l1 (x :: l2).

(* ===================================================================== *)
(** ** Configuration: [API_BASE_URL] *)
(* ===================================================================== *)

(** White space removed by [String.prototype.trim], within ASCII. *)
Definition isWhiteSpace (c : ascii) : bool :=
  let n := nat_of_ascii c in
  ((Nat.leb 9 n && Nat.leb n 13) || Nat.eqb n 32)%bool.

Fixpoint trimStart (s : string) : string :=
  match s with
  | EmptyString => EmptyString
  | String c r => if isWhiteSpace c then trimStart r else s
  end.

Fixpoint trimEnd (s : string) : string :=
  match s with
  | EmptyString => EmptyString
  | String c r =>
      match trimEnd r with
      | EmptyString => if isWhiteSpace c then EmptyString else String c EmptyString
      | r' => String c r'
      end
  end.

(** [s.trim()]. *)
Definition trim (s : string) : string := trimEnd (trimStart s).

(** [url.replace(/\/$/, '')]: one slash at the very end is removed. *)
Fixpoint sanitize (url : string) : string :=
  match url with
  | EmptyString => EmptyString
  | String c EmptyString => if Ascii.eqb c "/" then EmptyString else url
  | String c r => String c (sanitize r)
  end.

(** What the initialiser of [API_BASE_URL] reads: the [content] of the
    [meta[name="api-base-url"]] tag when there is one, the global
    [AUTOASSESS_API_BASE_URL] when defined, and the location. *)
Record Environment := {
  metaTag : option string;
  globalOverride : option JsValue;
  location_origin : string;
  location_protocol : string
}.

Definition API_BASE_URL (env : Environment) : string :=
  let fromLocation :=
    if (negb (JsString.truthy (location_origin env))
        || String.eqb (location_origin env) "null"
        || String.eqb (location_protocol env) "file:")%bool
    then "http://localhost:5000"
    else location_origin env in
  let fromGlobal :=
    match globalOverride env with
    | Some (VStr g) =>
        if (JsString.truthy g && JsString.truthy (trim g))%bool
        then sanitize (trim g)
        else fromLocation
    | _ => fromLocation
    end in
  match metaTag env with
  | Some content =>
      if JsString.truthy (trim content)
      then sanitize (trim content)
      else fromGlobal
  | None => fromGlobal
  end.

(* ===================================================================== *)
(** ** The modal and the windows *)
(* ===================================================================== *)

(** The page together with the detail modal and the windows opened by
    the download functions. *)
Record Page := {
  page_state : State;
  modalBody : list Html;                  (* elements.modalBody.innerHTML *)
  detailsModal_classList : list string;
  openedWindows : list (string * string)  (* window.open(url, target), in order *)
}.

Definition set_page_state (v : State) (p : Page) : Page :=
  {| page_state := v; modalBody := modalBody p;
     detailsModal_classList := detailsModal_classList p;
     openedWindows := openedWindows p |}.

Definition set_modalBody (v : list Html) (p : Page) : Page :=
  {| page_state := page_state p; modalBody := v;
     detailsModal_classList := detailsModal_classList p;
     openedWindows := openedWindows p |}.

Definition set_detailsModal_classList (v : list string) (p : Page) : Page :=
  {| page_state := page_state p; modalBody := modalBody p;
     detailsModal_classList := v;
     openedWindows := openedWindows p |}.

Definition window_open (url target : string) (p : Page) : Page :=
  {| page_state := page_state p; modalBody := modalBody p;
     detailsModal_classList := detailsModal_classList p;
     openedWindows := (openedWindows p ++ [(url, target)])%list |}.

(** Script that also reaches the modal and [window]. *)
Definition JSP (A : Type) : Type := Page -> Completion A * Page.

Definition retP {A : Type} (a : A) : JSP A := fun p => (Normal a, p).

Definition throwP {A : Type} (e : Error) : JSP A := fun p => (Throw e, p).

Definition bindP {A B : Type} (m : JSP A) (k : A -> JSP B) : JSP B :=
  fun p =>
    match m p with
    | (Normal a, p') => k a p'
    | (Throw e, p') => (Throw e, p')
    end.

Definition modifyP (f : Page -> Page) : JSP unit :=
  fun p => (Normal tt, f p).

Definition tryCatchP {A : Type} (body : JSP A) (handler : Error -> JSP A)
    : JSP A :=
  fun p =>
    match body p with
    | (Normal a, p') => (Normal a, p')
    | (Throw e, p') => handler e p'
    end.

(** A piece of script that only touches the page state. *)
Definition liftJS {A : Type} (m : JS A) : JSP A :=
  fun p =>
    match m (page_state p) with
    | (c, st') => (c, set_page_state st' p)
    end.

Declare Scope jsp_scope.
Delimit Scope jsp_scope with jsp.
Notation "x <- m ;; k" := (bindP m (fun x => k))
  (at level 61, m at next level, right associativity) : jsp_scope.
Notation "m ;; k" := (bindP m (fun _ => k))
  (at level 61, right associativity) : jsp_scope.

Definition viewDetails {H : Host} (net : Network) (submissionId : string)
    : JSP unit :=
  tryCatchP
    (data <- liftJS (apiCall net ("/api/submissions/" ++ submissionId) "GET") ;;
     submission <- liftJS (readProp "submission" env_submission data) ;;
     match submission with
     | None => throwP {| err_message := "Submission not found" |}
     | Some submission =>
         match generateDetailsHTML submission with
         | inr e => throwP e
         | inl modalContent =>
             modifyP (set_modalBody modalContent) ;;
             modifyP (fun p =>
               set_detailsModal_classList
                 (classList_add "active" (detailsModal_classList p)) p)
         end
     end)%jsp
    (fun error => retP tt).

Definition closeModal : JSP unit :=
  modifyP (fun p =>
    set_detailsModal_classList
      (classList_remove "active" (detailsModal_classList p)) p).

(** [downloadReport(submissionId, format)]; [base] is [API_BASE_URL]. *)
Definition downloadReport (base : string) (net : Network)
    (submissionId format : string) : JSP unit :=
  tryCatchP
    (liftJS (showNotification
               ("Generating " ++ JsString.toUpperCase format ++ " report...")
               "info") ;;
     data <- liftJS (apiCall net
                       ("/api/reports/individual/" ++ submissionId
                          ++ "?format=" ++ format) "GET") ;;
     url <- liftJS (readProp "download_url" env_download_url data) ;;
     if truthyStr url
     then modifyP (window_open (base ++ orStr url "") "_blank") ;;
          liftJS (showNotification
                    (JsString.toUpperCase format
                       ++ " report downloaded successfully") "success")
     else retP tt)%jsp
    (fun error => retP tt).

Definition downloadSpreadsheet (base : string) (net : Network) : JSP unit :=
  tryCatchP
    (liftJS (showNotification "Generating spreadsheet..." "info") ;;
     data <- liftJS (apiCall net "/api/reports/spreadsheet" "GET") ;;
     url <- liftJS (readProp "download_url" env_download_url data) ;;
     if truthyStr url
     then modifyP (window_open (base ++ orStr url "") "_blank") ;;
          liftJS (showNotification "Spreadsheet downloaded successfully"
                    "success")
     else retP tt)%jsp
    (fun error => retP tt).

(** A page whose modal is closed and empty. *)
Definition initialPage : Page :=
  {| page_state := initialState; modalBody := [];
     detailsModal_classList := ["modal"]; openedWindows := [] |}.

(** The text written to the submission counter for [n] rows. *)
Definition countText (n : nat) : string :=
  natToString (Z.of_nat n) ++ " submission" ++ (if Nat.eqb n 1 then "" else "s").

(** The page after a table render that found [n] submissions and, when
    the row template did not throw, produced [rows]. *)
Definition renderedDom (n : nat) (rows : option (list Row)) (d : Dom) : Dom :=
  let d1 := with_emptyState (if Nat.eqb n 0 then "block" else "none")
              (with_count (countText n) d) in
  match rows with
  | Some r => with_body r d1
  | None => d1
  end.

(** The monitoring display agrees with [monitoringActive]: the start
    button is disabled exactly while monitoring is active, the stop button
    exactly while it is not, and the status dot and text say the same. *)
Definition monitoringConsistent (st : State) : Prop :=
  startMonitoringBtn_disabled (dom st) = monitoringActive st
  /\ stopMonitoringBtn_disabled (dom st) = negb (monitoringActive st)
  /\ statusText (dom st) = (if monitoringActive st then "Active" else "Inactive")
  /\ (In "active" (statusDot_classList (dom st)) <-> monitoringActive st = true)
  /\ (In "inactive" (statusDot_classList (dom st)) <-> monitoringActive st = false).

(** What the monitoring display is made of. *)
Definition monitoringView (st : State)
    : bool * (list string * string * bool * bool) :=
  (monitoringActive st,
   (statusDot_classList (dom st), statusText (dom st),
    startMonitoringBtn_disabled (dom st), stopMonitoringBtn_disabled (dom st))).

(** The view state: what the operator has typed and selected. *)
Definition viewState (st : State)
    : string * string * option ColumnKey * Direction :=
  (searchInput (dom st), statusFilter (dom st), sortColumn st, sortDirection st).

(** A piece of script leaves an observation of the state alone, however
    it completes. *)
Definition preserves {A X : Type} (f : State -> X) (m : JS A) : Prop :=
  forall st, f (snd (m st)) = f st.

(** The string by which a column of type ['string'] orders a submission. *)
Definition stringKey {H : Host} (column : ColumnKey) (a : Submission) : string :=
  asString (sortValue column a).

(** The time value by which the date column orders a submission; [None]
    when the date is missing or does not parse. *)
Definition submittedTime {H : Host} (a : Submission) : option Z :=
  dateValue (sortValue K_submitted_at a).

(** 1 for a feedback list that is present and non-empty, 0 otherwise. *)
Definition hasItems (items : option (list string)) : nat :=
  match items with
  | Some (_ :: _) => 1
  | _ => 0
  end.

(** The notifications on a page. *)
Definition pageNotifications (p : Page) : list Notification :=
  notifications (dom (page_state p)).

(** Some identifying field ([student_id], [student_name], [file_name]) is
    present and non-empty. *)
Definition named (s : Submission) : bool :=
  (truthyStr (student_id s) || truthyStr (student_name s)
   || truthyStr (file_name s))%bool.

(** The filter predicate in the words of the specification (section 4.2),
    to be compared with [filterPredicate]: a submission matches when the
    search term is empty or found, ignoring case, as a substring in
    [studentId], [studentName] or [fileName] (absent fields never match),
    and the status filter is empty or equals the submission's status. *)
Definition specFieldContains (field : option string) (searchTerm : string)
    : bool :=
  match field with
  | Some s =>
      JsString.includes (JsString.toLowerCase s) (JsString.toLowerCase searchTerm)
  | None => false
  end.

Definition specFilterPredicate (searchTerm statusFilter : string)
    (s : Submission) : bool :=
  ((String.eqb searchTerm ""
    || specFieldContains (student_id s) searchTerm
    || specFieldContains (student_name s) searchTerm
    || specFieldContains (file_name s) searchTerm)
   && (String.eqb statusFilter ""
       || strictEqStr (status s) statusFilter))%bool.

(* ===================================================================== *)
(** * Properties *)
(* ===================================================================== *)

(* --------------------------------------------------------------------- *)
(** ** The API gateway *)
(* --------------------------------------------------------------------- *)

(** The [try] block of [apiCall] does not touch the page. *)
Lemma apiCall_try_state (net : Network) (endpoint method : string) (st : State) :
  snd (apiCall_try net endpoint method st) = st.
Proof.
  unfold apiCall_try, bind, ret, throw, readProp.
  destruct (net endpoint method) as [e | r]; simpl; [reflexivity |].
  destruct (JsString.includes _ _); simpl; [| reflexivity].
  destruct (resp_json r) as [d | e]; simpl; [| reflexivity].
  destruct (negb (resp_ok r)); simpl; [reflexivity |].
  destruct d as [| env]; simpl; [reflexivity |].
  destruct (negb (truthyBool (env_success env))); reflexivity.
Qed.

(** Its completion depends on the server only. *)
Lemma apiCall_try_indep (net : Network) (endpoint method : string)
    (st st' : State) :
  fst (apiCall_try net endpoint method st)
  = fst (apiCall_try net endpoint method st').
Proof.
  unfold apiCall_try, bind, ret, throw, readProp.
  destruct (net endpoint method) as [e | r]; simpl; [reflexivity |].
  destruct (JsString.includes _ _); simpl; [| reflexivity].
  destruct (resp_json r) as [d | e]; simpl; [| reflexivity].
  destruct (negb (resp_ok r)); simpl; [reflexivity |].
  destruct d as [| env]; simpl; [reflexivity |].
  destruct (negb (truthyBool (env_success env))); reflexivity.
Qed.

(** [apiCall] either returns the data and leaves the page alone, or throws
    after adding exactly one error notification. *)
Lemma apiCall_run (net : Network) (endpoint method : string) (st : State) :
  apiCall net endpoint method st
  = match fst (apiCall_try net endpoint method st) with
    | Normal d => (Normal d, st)
    | Throw e => (Throw e, notifyError e st)
    end.
Proof.
  unfold apiCall, tryCatch.
  pose proof (apiCall_try_state net endpoint method st) as Hs.
  destruct (apiCall_try net endpoint method st) as [[d | e] st'];
    simpl in *; subst; reflexivity.
Qed.

Lemma apiCall_fst_indep (net : Network) (endpoint method : string)
    (st st' : State) :
  fst (apiCall net endpoint method st) = fst (apiCall net endpoint method st').
Proof.
  rewrite !apiCall_run.
  rewrite (apiCall_try_indep net endpoint method st st').
  destruct (fst (apiCall_try net endpoint method st')); reflexivity.
Qed.

Lemma apiCall_throw (net : Network) (endpoint method : string)
    (st : State) (e : Error) :
  fst (apiCall net endpoint method st) = Throw e ->
  apiCall net endpoint method st = (Throw e, notifyError e st).
Proof.
  rewrite apiCall_run.
  destruct (fst (apiCall_try net endpoint method st)); simpl; intros E;
    inversion E; subst; reflexivity.
Qed.

Lemma apiCall_normal (net : Network) (endpoint method : string)
    (st : State) (d : Data) :
  fst (apiCall net endpoint method st) = Normal d ->
  apiCall net endpoint method st = (Normal d, st).
Proof.
  rewrite apiCall_run.
  destruct (fst (apiCall_try net endpoint method st)); simpl; intros E;
    inversion E; subst; reflexivity.
Qed.

(** A transport failure is a failed call. *)
Lemma apiCall_rejected (net : Network) (endpoint method : string)
    (st : State) (e : Error) :
  net endpoint method = Rejected e ->
  apiCall net endpoint method st = (Throw e, notifyError e st).
Proof.
  intros E. rewrite apiCall_run. unfold apiCall_try, bind, throw.
  rewrite E. reflexivity.
Qed.

Lemma apiCall_fst (net : Network) (endpoint method : string) (st : State) :
  fst (apiCall net endpoint method st) = fst (apiCall_try net endpoint method st).
Proof.
  rewrite apiCall_run.
  destruct (fst (apiCall_try net endpoint method st)); reflexivity.
Qed.

(** A call that returns has returned an object: on [null] the test of
    [data.success] throws. *)
Lemma apiCall_normal_object (net : Network) (endpoint method : string)
    (st : State) (d : Data) :
  fst (apiCall net endpoint method st) = Normal d ->
  exists env, d = JObject env /\ truthyBool (env_success env) = true.
Proof.
  rewrite apiCall_fst.
  unfold apiCall_try, bind, ret, throw, readProp.
  destruct (net endpoint method) as [e | r]; simpl; [discriminate |].
  destruct (JsString.includes _ _); simpl; [| discriminate].
  destruct (resp_json r) as [d' | e]; simpl; [| discriminate].
  destruct (negb (resp_ok r)); simpl; [discriminate |].
  destruct d' as [| env]; simpl; [discriminate |].
  destruct (truthyBool (env_success env)) eqn:S; simpl; [| discriminate].
  intros E; inversion E; subst. exists env; auto.
Qed.

(** C8 (as amended).  For a JSON response that is not [ok], or whose
    envelope has a falsy [success], [apiCall] throws (and notifies) an
    error whose message is the envelope's [error] field when that field is
    present and non-empty, otherwise its [message] field when that one is
    present and non-empty, otherwise ["Request failed with status N"]. *)
Theorem apiCall_error_message_priority
    (net : Network) (endpoint method : string) (st : State)
    (r : Response) (env : Envelope) :
  net endpoint method = Resolved r ->
  JsString.includes (orStr (resp_content_type r) "") "application/json" = true ->
  resp_json r = inl (JObject env) ->
  resp_ok r = false \/ truthyBool (env_success env) = false ->
  exists msg,
    apiCall net endpoint method st
    = (Throw {| err_message := msg |}, notifyError {| err_message := msg |} st)
    /\ (forall s, env_error env = Some s -> s <> "" -> msg = s)
    /\ (forall m, truthyStr (env_error env) = false ->
                  env_message env = Some m -> m <> "" -> msg = m)
    /\ (truthyStr (env_error env) = false ->
        truthyStr (env_message env) = false ->
        msg = "Request failed with status " ++ natToString (resp_status r)).
Proof.
  intros Hnet Hct Hjson Hfail.
  exists (orStr (env_error env)
            (orStr (env_message env)
               ("Request failed with status " ++ natToString (resp_status r)))).
  split.
  - rewrite apiCall_run.
    assert (E : fst (apiCall_try net endpoint method st)
                = Throw {| err_message :=
                     orStr (env_error env)
                       (orStr (env_message env)
                          ("Request failed with status "
                             ++ natToString (resp_status r))) |}).
    { unfold apiCall_try, bind, ret, throw, readProp.
      rewrite Hnet; simpl. rewrite Hct; simpl. rewrite Hjson; simpl.
      destruct (resp_ok r) eqn:Hok; simpl; [| reflexivity].
      destruct Hfail as [Hf | Hf]; [discriminate |].
      rewrite Hf; reflexivity. }
    rewrite E. reflexivity.
  - repeat split.
    + intros s Hs Hne. rewrite Hs. simpl.
      destruct s; [contradiction | reflexivity].
    + intros m He Hm Hne. unfold truthyStr in He.
      assert (E : forall d, orStr (env_error env) d = d).
      { intros d. unfold orStr. destruct (env_error env); [| reflexivity].
        rewrite He. reflexivity. }
      rewrite E, Hm. simpl. destruct m; [contradiction | reflexivity].
    + intros He Hm. unfold truthyStr in He, Hm. unfold orStr.
      destruct (env_error env); [rewrite He |];
        (destruct (env_message env); [rewrite Hm |]); reflexivity.
Qed.

(** A server error that carries only a [message]. *)
Lemma apiCall_error_message_priority_witness :
  exists msg,
    apiCall
      (fun _ _ =>
         jsonResponse 500
           {| env_success := Some false; env_error := None;
              env_message := Some "Disk full";
              env_submissions := None; env_statistics := None;
              env_submission := None; env_monitoring_active := None;
              env_download_url := None |})
      "/api/submissions" "GET" initialState
    = (Throw {| err_message := msg |},
       notifyError {| err_message := msg |} initialState)
    /\ msg = "Disk full".
Proof.
  destruct (apiCall_error_message_priority
              (fun _ _ =>
                 jsonResponse 500
                   {| env_success := Some false; env_error := None;
                      env_message := Some "Disk full";
                      env_submissions := None; env_statistics := None;
                      env_submission := None; env_monitoring_active := None;
                      env_download_url := None |})
              "/api/submissions" "GET" initialState _ _
              eq_refl eq_refl eq_refl (or_introl eq_refl))
    as [msg [Hrun [_ [Hm _]]]].
  exists msg. split; [exact Hrun |].
  apply Hm; [reflexivity | reflexivity | discriminate].
Defined.

(** C8 (as stated) fails: an envelope whose [error] field is present but
    empty yields the [message] field, not the (empty) [error] field. *)
Lemma apiCall_error_field_present_but_empty :
  let env := {| env_success := Some false; env_error := Some "";
                env_message := Some "Disk full";
                env_submissions := None; env_statistics := None;
                env_submission := None; env_monitoring_active := None;
                env_download_url := None |} in
  env_error env = Some ""
  /\ fst (apiCall (fun _ _ => jsonResponse 500 env)
            "/api/submissions" "GET" initialState)
     = Throw {| err_message := "Disk full" |}
  /\ fst (apiCall (fun _ _ => jsonResponse 500 env)
            "/api/submissions" "GET" initialState)
     <> Throw {| err_message := "" |}.
Proof.
  cbv zeta. split; [reflexivity |]. split; [reflexivity |].
  vm_compute. discriminate.
Qed.

(* --------------------------------------------------------------------- *)
(** ** The monitoring toggle *)
(* --------------------------------------------------------------------- *)

(** C7.  When the [monitor/start] request fails, [startMonitoring] leaves
    [monitoringActive] and its display as they were and the page gains
    exactly one notification, of type [error]; when it succeeds,
    [monitoringActive] becomes [true] and the page gains the success
    notification.  In both cases the handler itself completes normally. *)
Theorem startMonitoring_no_optimistic_update (net : Network) (st : State) :
  let st' := snd (startMonitoring net st) in
  fst (startMonitoring net st) = Normal tt
  /\ match fst (apiCall net "/api/monitor/start" "POST" st) with
     | Throw e =>
         monitoringActive st' = monitoringActive st
         /\ statusText (dom st') = statusText (dom st)
         /\ startMonitoringBtn_disabled (dom st')
            = startMonitoringBtn_disabled (dom st)
         /\ stopMonitoringBtn_disabled (dom st')
            = stopMonitoringBtn_disabled (dom st)
         /\ notifications (dom st')
            = (notifications (dom st)
               ++ [ {| notif_type := "error";
                       notif_text := "Error: " ++ err_message e |} ])%list
     | Normal _ =>
         monitoringActive st' = true
         /\ statusText (dom st') = "Active"
         /\ startMonitoringBtn_disabled (dom st') = true
         /\ stopMonitoringBtn_disabled (dom st') = false
         /\ notifications (dom st')
            = (notifications (dom st)
               ++ [ {| notif_type := "success";
                       notif_text := "Monitoring started successfully" |} ])%list
     end.
Proof.
  cbv zeta. unfold startMonitoring, tryCatch, bind.
  rewrite apiCall_fst, apiCall_run.
  destruct (fst (apiCall_try net "/api/monitor/start" "POST" st)) as [d | e];
    simpl; repeat split; reflexivity.
Qed.

(** The request fails with a network error while monitoring is inactive:
    it stays inactive and there is one error notification. *)
Lemma startMonitoring_no_optimistic_update_witness :
  monitoringActive (snd (startMonitoring offline initialState)) = false
  /\ notifications (dom (snd (startMonitoring offline initialState)))
     = [ {| notif_type := "error"; notif_text := "Error: Failed to fetch" |} ].
Proof.
  pose proof (startMonitoring_no_optimistic_update offline initialState) as P.
  cbv zeta in P. destruct P as [_ P].
  change (fst (apiCall offline "/api/monitor/start" "POST" initialState))
    with (@Throw Data {| err_message := "Failed to fetch" |}) in P.
  destruct P as [Ha [_ [_ [_ Hn]]]].
  split; [exact Ha | exact Hn].
Defined.

(* --------------------------------------------------------------------- *)
(** ** The refresh *)
(* --------------------------------------------------------------------- *)

(** What [loadDashboardData] leaves when the first request fails. *)
Lemma loadDashboardData_first_fails {H : Host} (net : Network) (st : State)
    (e : Error) :
  fst (apiCall net "/api/submissions" "GET" st) = Throw e ->
  loadDashboardData net st
  = (Normal tt,
     set_dom (with_loading "none"
                (dom (notifyError e (set_dom (with_loading "block" (dom st)) st))))
       (notifyError e (set_dom (with_loading "block" (dom st)) st))).
Proof.
  intros E.
  unfold loadDashboardData, tryFinally, tryCatch, bind, showLoading,
    modifyDom, modify.
  rewrite apiCall_run.
  rewrite apiCall_fst in E.
  rewrite (apiCall_try_indep net _ _ _ st), E. reflexivity.
Qed.

(** What it leaves when the first request succeeds and the second fails:
    [submissions] has already been assigned. *)
Lemma loadDashboardData_second_fails {H : Host} (net : Network) (st : State)
    (env : Envelope) (e : Error) :
  fst (apiCall net "/api/submissions" "GET" st) = Normal (JObject env) ->
  fst (apiCall net "/api/stats/overview" "GET" st) = Throw e ->
  let st1 := set_submissions (orList (env_submissions env))
               (set_dom (with_loading "block" (dom st)) st) in
  loadDashboardData net st
  = (Normal tt, set_dom (with_loading "none" (dom (notifyError e st1)))
                  (notifyError e st1)).
Proof.
  intros E1 E2. cbv zeta.
  unfold loadDashboardData, tryFinally, tryCatch, bind, showLoading,
    modifyDom, modify.
  rewrite apiCall_run.
  rewrite apiCall_fst in E1, E2.
  rewrite (apiCall_try_indep net _ _ _ st), E1. simpl.
  rewrite apiCall_run.
  rewrite (apiCall_try_indep net _ _ _ st), E2. reflexivity.
Qed.

(** C1 (as amended).  In a refresh in which an API call fails, the table
    on the page and the displayed statistics stay as they were,
    [statistics] is not replaced, and the page gains exactly one
    notification, of type [error].  [submissions] is never patched: it
    keeps its value when the submissions request fails, and it is the
    whole newly fetched list when only the statistics request fails. *)
Theorem loadDashboardData_failed_refresh {H : Host} (net : Network) (st : State) :
  let st' := snd (loadDashboardData net st) in
  let unchanged (e : Error) :=
    statistics st' = statistics st
    /\ submissionsBody (dom st') = submissionsBody (dom st)
    /\ submissionCount (dom st') = submissionCount (dom st)
    /\ emptyState_display (dom st') = emptyState_display (dom st)
    /\ notifications (dom st')
       = (notifications (dom st)
          ++ [ {| notif_type := "error";
                  notif_text := "Error: " ++ err_message e |} ])%list in
  match fst (apiCall net "/api/submissions" "GET" st) with
  | Throw e => submissions st' = submissions st /\ unchanged e
  | Normal d =>
      match fst (apiCall net "/api/stats/overview" "GET" st) with
      | Throw e =>
          submissions st' = orList (readPropOpt env_submissions d)
          /\ unchanged e
      | Normal _ => True
      end
  end.
Proof.
  cbv zeta.
  destruct (fst (apiCall net "/api/submissions" "GET" st)) as [d | e] eqn:E1.
  - destruct (fst (apiCall net "/api/stats/overview" "GET" st)) as [d2 | e]
      eqn:E2; [exact I |].
    destruct (apiCall_normal_object _ _ _ _ _ E1) as [env [-> _]].
    rewrite (loadDashboardData_second_fails net st env e E1 E2).
    simpl. repeat split; reflexivity.
  - rewrite (loadDashboardData_first_fails net st e E1).
    simpl. repeat split; reflexivity.
Qed.

(** The server is unreachable: nothing of the store or the table changes
    and there is one error notification. *)
Lemma loadDashboardData_failed_refresh_witness :
  submissions (snd (loadDashboardData (H := asciiHost) offline showingA))
  = [submissionA]
  /\ notifications
       (dom (snd (loadDashboardData (H := asciiHost) offline showingA)))
     = [ {| notif_type := "error"; notif_text := "Error: Failed to fetch" |} ].
Proof.
  pose proof (loadDashboardData_failed_refresh (H := asciiHost) offline showingA)
    as P.
  cbv zeta in P.
  change (fst (apiCall offline "/api/submissions" "GET" showingA))
    with (@Throw Data {| err_message := "Failed to fetch" |}) in P.
  destruct P as [Hs [_ [_ [_ [_ Hn]]]]].
  split; [exact Hs | exact Hn].
Defined.

(** C1 (as stated) fails: when the submissions request succeeds and the
    statistics request fails, the refresh has failed, yet [submissions]
    holds the new list next to the old [statistics] and the old table. *)
Lemma loadDashboardData_partial_failure_replaces_submissions :
  let st' := snd (loadDashboardData (H := asciiHost) statsDown showingA) in
  fst (apiCall statsDown "/api/stats/overview" "GET" showingA)
  = Throw {| err_message := "Failed to fetch" |}
  /\ submissions showingA = [submissionA]
  /\ submissions st' = [submissionA; submissionB]
  /\ submissions st' <> submissions showingA
  /\ statistics st' = statistics showingA
  /\ submissionsBody (dom st') = submissionsBody (dom showingA).
Proof.
  cbv zeta. repeat split; try reflexivity.
  vm_compute. discriminate.
Qed.

(* --------------------------------------------------------------------- *)
(** ** The filter *)
(* --------------------------------------------------------------------- *)

Lemma startsWith_spec (s t : string) :
  JsString.startsWith s t = true <-> exists b, s = t ++ b.
Proof.
  revert s. induction t as [| c t IH]; intros s; simpl.
  - split; [intros _; exists s; reflexivity | destruct s; reflexivity].
  - destruct s as [| a s]; simpl.
    + split; [discriminate | intros [b Hb]; discriminate].
    + rewrite andb_true_iff, IH. split.
      * intros [Hc [b ->]]. apply Ascii.eqb_eq in Hc. subst.
        exists b; reflexivity.
      * intros [b Hb]. inversion Hb; subst. split.
        -- apply Ascii.eqb_refl.
        -- exists b; reflexivity.
Qed.

(** [includes] is the substring test. *)
Lemma includes_spec (s t : string) :
  JsString.includes s t = true <-> exists a b, s = a ++ t ++ b.
Proof.
  induction s as [| c s IH].
  - change (JsString.includes "" t) with (JsString.startsWith "" t).
    rewrite startsWith_spec. split.
    + intros [b Hb]. exists "", b. exact Hb.
    + intros [a [b Hab]]. destruct a; [exists b; exact Hab | discriminate].
  - change (JsString.includes (String c s) t)
      with (JsString.startsWith (String c s) t || JsString.includes s t)%bool.
    rewrite orb_true_iff, IH, startsWith_spec. split.
    + intros [[b Hb] | [a [b Hab]]].
      * exists "", b. exact Hb.
      * exists (String c a), b. simpl. rewrite Hab. reflexivity.
    + intros [a [b Hab]]. destruct a as [| c' a].
      * left. exists b. exact Hab.
      * right. simpl in Hab. inversion Hab; subst. exists a, b. reflexivity.
Qed.

Lemma includes_empty (s : string) : JsString.includes s "" = true.
Proof. apply includes_spec. exists "", s. reflexivity. Qed.

(** Lower-casing changes nothing in a string that is already lower-case. *)
Lemma lowerChar_idem (c : ascii) :
  JsString.lowerChar (JsString.lowerChar c) = JsString.lowerChar c.
Proof.
  destruct c as [[] [] [] [] [] [] [] []]; reflexivity.
Qed.

Lemma toLowerCase_idem (s : string) :
  JsString.toLowerCase (JsString.toLowerCase s) = JsString.toLowerCase s.
Proof.
  induction s as [| c s IH]; simpl; [reflexivity |].
  unfold JsString.toLowerCase in *. simpl. rewrite lowerChar_idem, IH.
  reflexivity.
Qed.

(** A field matches when it is present, non-empty, and contains the term
    once lower-cased. *)
Lemma fieldMatches_spec (field : option string) (term : string) :
  fieldMatches field term = true
  <-> exists s, field = Some s /\ s <> ""
                /\ exists a b, JsString.toLowerCase s = a ++ term ++ b.
Proof.
  unfold fieldMatches. destruct field as [s |].
  - rewrite andb_true_iff, includes_spec. split.
    + intros [Ht Hi]. exists s. repeat split; [| exact Hi].
      intros ->. discriminate.
    + intros [s' [E [Hne Hi]]]. inversion E; subst. split; [| exact Hi].
      destruct s'; [contradiction | reflexivity].
  - split; [discriminate | intros [s [E _]]; discriminate].
Qed.

(** What the filter admits: the lowered search text occurs in the lowered
    text of a present, non-empty field, and the status filter is empty or
    equal to the status. *)
Lemma filterPredicate_spec (search statusF : string) (s : Submission) :
  filterPredicate search statusF s = true
  <-> (exists f,
         (student_id s = Some f \/ student_name s = Some f
          \/ file_name s = Some f)
         /\ f <> ""
         /\ exists a b,
              JsString.toLowerCase f = a ++ JsString.toLowerCase search ++ b)
      /\ (statusF = "" \/ status s = Some statusF).
Proof.
  unfold filterPredicate, matchesSearch, matchesStatus.
  rewrite andb_true_iff, !orb_true_iff, !fieldMatches_spec.
  assert (Conj : forall A B C D : Prop,
             (A <-> B) -> (C <-> D) -> (A /\ C <-> B /\ D)) by tauto.
  apply Conj.
  - split.
    + intros [[[f [E R]] | [f [E R]]] | [f [E R]]]; exists f; tauto.
    + intros [f [[E | [E | E]] R]]; [left; left | left; right | right];
        exists f; tauto.
  - rewrite negb_true_iff. unfold strictEqStr. split.
    + intros [Hs | Hs].
      * left. destruct statusF; [reflexivity | discriminate].
      * right. destruct (status s); [| discriminate].
        apply String.eqb_eq in Hs. subst; reflexivity.
    + intros [-> | ->]; [left; reflexivity | right; apply String.eqb_refl].
Qed.

(** With an empty search text, a submission with some identifying field
    is admitted exactly when its status passes. *)
Lemma filterPredicate_empty_search (statusF : string) (s : Submission) :
  (truthyStr (student_id s) || truthyStr (student_name s)
   || truthyStr (file_name s))%bool = true ->
  filterPredicate "" statusF s = matchesStatus statusF s.
Proof.
  unfold filterPredicate, matchesSearch, fieldMatches, truthyStr. simpl.
  intros Hf.
  assert (E : forall o : option string,
             match o with
             | Some x =>
                 (JsString.truthy x
                  && JsString.includes (JsString.toLowerCase x) "")%bool
             | None => false
             end
             = match o with Some x => JsString.truthy x | None => false end).
  { intros [x |]; [| reflexivity]. rewrite includes_empty, andb_true_r.
    reflexivity. }
  rewrite !E, Hf. reflexivity.
Qed.

(** The specification's example: ["smith"] finds "John Smith" and not
    "Jane Doe", whatever the case of the search text. *)
Lemma filterPredicate_smith (st : option string) (i : string) :
  filterPredicate "smith" ""
    {| _id := i; student_id := None; student_name := Some "John Smith";
       file_name := None; submitted_at := None; status := st;
       assessment := None |} = true
  /\ filterPredicate "SMITH" ""
       {| _id := i; student_id := None; student_name := Some "John Smith";
          file_name := None; submitted_at := None; status := st;
          assessment := None |} = true
  /\ filterPredicate "smith" ""
       {| _id := i; student_id := None; student_name := Some "Jane Doe";
          file_name := None; submitted_at := None; status := st;
          assessment := None |} = false.
Proof. repeat split; reflexivity. Qed.

(** C2.  The code at a submission with no [student_id], [student_name] or
    [file_name]: the unfiltered render shows it, but the filter with an
    empty search text and an empty status filter rejects it, and
    [filterSubmissions] empties the table. *)
Theorem filterSubmissions_empty_search_hides_unnamed :
  searchInput (dom showingA) = ""
  /\ statusFilter (dom showingA) = ""
  /\ List.length (submissionsBody (dom showingA)) = 1%nat
  /\ filterPredicate "" "" submissionA = false
  /\ filtered "" "" (submissions showingA) = []
  /\ submissionsBody (dom (snd (filterSubmissions (H := asciiHost) showingA)))
     = [].
Proof. repeat split; reflexivity. Qed.

(* --------------------------------------------------------------------- *)
(** ** [Array.prototype.sort] *)
(* --------------------------------------------------------------------- *)

Section SortFacts.

Context {A : Type} (comparefn : A -> A -> option Q).

Let le (x y : A) : Prop := notAfter comparefn x y = true.

Lemma sortInsert_perm (x : A) (l : list A) :
  Permutation (sortInsert comparefn x l) (x :: l).
Proof.
  induction l as [| y l IH]; simpl.
  - apply Permutation_refl.
  - destruct (notAfter comparefn x y).
    + apply Permutation_refl.
    + eapply Permutation_trans; [apply perm_skip, IH | apply perm_swap].
Qed.

(** Whatever the comparator, sorting rearranges and nothing else. *)
Lemma Array_sort_perm (l : list A) : Permutation (Array_sort comparefn l) l.
Proof.
  induction l as [| x l IH]; simpl.
  - apply perm_nil.
  - eapply Permutation_trans; [apply sortInsert_perm | apply perm_skip, IH].
Qed.

(** A consistent comparator: any two elements are ordered one way or the
    other, and the order is transitive. *)
Hypothesis notAfter_total :
  forall x y, notAfter comparefn x y = false -> notAfter comparefn y x = true.
Hypothesis notAfter_trans :
  forall x y z, notAfter comparefn x y = true -> notAfter comparefn y z = true ->
                notAfter comparefn x z = true.

Lemma sortInsert_sorted (x : A) (l : list A) :
  StronglySorted le l -> StronglySorted le (sortInsert comparefn x l).
Proof.
  induction 1 as [| y l Hs IH Hy]; simpl.
  - constructor; [constructor | constructor].
  - destruct (notAfter comparefn x y) eqn:E.
    + constructor; [constructor; assumption |].
      constructor; [exact E |].
      eapply Forall_impl; [| exact Hy].
      intros z Hz. eapply notAfter_trans; [exact E | exact Hz].
    + constructor; [exact IH |].
      apply Forall_forall. intros u Hu.
      apply (Permutation_in _ (sortInsert_perm x l)) in Hu.
      destruct Hu as [<- | Hu].
      * apply notAfter_total; exact E.
      * rewrite Forall_forall in Hy. apply Hy, Hu.
Qed.

(** With a consistent comparator the result is in order. *)
Lemma Array_sort_sorted (l : list A) :
  StronglySorted le (Array_sort comparefn l).
Proof.
  induction l as [| x l IH]; simpl.
  - constructor.
  - apply sortInsert_sorted, IH.
Qed.

Lemma sorted_nth_le (l : list A) :
  StronglySorted le l ->
  forall (i j : nat) (x y : A),
    nth_error l i = Some x -> nth_error l j = Some y -> (i < j)%nat -> le x y.
Proof.
  induction 1 as [| z l Hs IH Hz]; intros i j x y Hi Hj Hij.
  - destruct i; discriminate.
  - destruct j as [| j]; [lia |].
    simpl in Hj. destruct i as [| i].
    + simpl in Hi. inversion Hi; subst.
      rewrite Forall_forall in Hz. apply Hz.
      eapply nth_error_In; exact Hj.
    + simpl in Hi. apply (IH i j); [assumption | assumption | lia].
Qed.

(** In the sorted array, an element the comparator puts strictly before
    another one is found at a smaller index. *)
Lemma Array_sort_strictly_before (l : list A) (i j : nat) (x y : A) :
  nth_error (Array_sort comparefn l) i = Some x ->
  nth_error (Array_sort comparefn l) j = Some y ->
  notAfter comparefn y x = false ->
  (i < j)%nat.
Proof.
  intros Hi Hj Hyx.
  destruct (Nat.lt_trichotomy i j) as [Hlt | [Heq | Hgt]].
  - exact Hlt.
  - subst. rewrite Hi in Hj. inversion Hj; subst.
    pose proof (notAfter_total _ _ Hyx) as C. congruence.
  - pose proof (sorted_nth_le _ (Array_sort_sorted l) j i y x Hj Hi Hgt) as C.
    unfold le in C. congruence.
Qed.

(** The sort is stable: elements that the comparator does not separate
    from [z] keep the order they had. *)
Lemma sortInsert_stable (z x : A) (l : list A) :
  let tied (u : A) := (notAfter comparefn z u && notAfter comparefn u z)%bool in
  List.filter tied (sortInsert comparefn x l) = List.filter tied (x :: l).
Proof.
  cbv zeta. induction l as [| y l IH]; [reflexivity |].
  cbn [sortInsert]. destruct (notAfter comparefn x y) eqn:E; [reflexivity |].
  cbn [List.filter] in *. rewrite IH.
  destruct (notAfter comparefn z x && notAfter comparefn x z)%bool eqn:Tx;
    [| reflexivity].
  destruct (notAfter comparefn z y && notAfter comparefn y z)%bool eqn:Ty;
    [| reflexivity].
  apply andb_true_iff in Tx, Ty. destruct Tx as [_ Hxz], Ty as [Hzy _].
  rewrite (notAfter_trans x z y Hxz Hzy) in E. discriminate.
Qed.

Lemma Array_sort_stable (z : A) (l : list A) :
  let tied (u : A) := (notAfter comparefn z u && notAfter comparefn u z)%bool in
  List.filter tied (Array_sort comparefn l) = List.filter tied l.
Proof.
  cbv zeta. induction l as [| x l IH]; [reflexivity |].
  cbn [Array_sort]. rewrite (sortInsert_stable z x). cbn [List.filter].
  rewrite IH. reflexivity.
Qed.

(** Order, content and stability pin the result down: any array that is
    in order, has the same elements and keeps tied elements in their
    original order is the one computed here.  This is why one stable
    algorithm stands for every conforming engine. *)
Lemma sorted_stable_unique (l1 l2 : list A) :
  StronglySorted le l1 -> StronglySorted le l2 ->
  Permutation l1 l2 ->
  (forall z,
     List.filter (fun u => (notAfter comparefn z u && notAfter comparefn u z)%bool) l1
     = List.filter (fun u => (notAfter comparefn z u && notAfter comparefn u z)%bool) l2) ->
  l1 = l2.
Proof.
  intros S1. revert l2.
  induction S1 as [| x l1 S1 IH F1]; intros l2 S2 P T.
  - apply Permutation_nil in P. subst; reflexivity.
  - destruct l2 as [| y l2].
    + apply Permutation_sym, Permutation_nil in P. discriminate.
    + inversion S2 as [| y' l2' S2' F2]; subst.
      assert (Rx : notAfter comparefn x x = true).
      { destruct (notAfter comparefn x x) eqn:E; [reflexivity |].
        pose proof (notAfter_total _ _ E) as E'. congruence. }
      assert (Hxy : notAfter comparefn x y = true).
      { assert (I : In y (x :: l1))
          by (eapply Permutation_in; [apply Permutation_sym; exact P | left; reflexivity]).
        destruct I as [<- | I]; [exact Rx |].
        rewrite Forall_forall in F1. apply F1, I. }
      assert (Hyx : notAfter comparefn y x = true).
      { assert (I : In x (y :: l2))
          by (eapply Permutation_in; [exact P | left; reflexivity]).
        destruct I as [<- | I]; [exact Rx |].
        rewrite Forall_forall in F2. apply F2, I. }
      pose proof (T x) as Tx. cbn [List.filter] in Tx.
      rewrite Rx, Hxy, Hyx in Tx. cbn [andb] in Tx.
      inversion Tx; subst y.
      f_equal. apply IH; [exact S2' | eapply Permutation_cons_inv; exact P |].
      intros z. pose proof (T z) as Tz. cbn [List.filter] in Tz.
      destruct (notAfter comparefn z x && notAfter comparefn x z)%bool;
        [inversion Tz; reflexivity | exact Tz].
Qed.

Lemma Array_sort_unique (l l' : list A) :
  StronglySorted le l' ->
  Permutation l' l ->
  (forall z,
     List.filter (fun u => (notAfter comparefn z u && notAfter comparefn u z)%bool) l'
     = List.filter (fun u => (notAfter comparefn z u && notAfter comparefn u z)%bool) l) ->
  l' = Array_sort comparefn l.
Proof.
  intros S P T. apply sorted_stable_unique.
  - exact S.
  - apply Array_sort_sorted.
  - eapply Permutation_trans; [exact P | apply Permutation_sym, Array_sort_perm].
  - intros z. rewrite (T z). symmetry. apply (Array_sort_stable z l).
Qed.

End SortFacts.

(* --------------------------------------------------------------------- *)
(** ** [sortTable]: what it does to the store *)
(* --------------------------------------------------------------------- *)

(** Rendering writes to the page only, also when it throws. *)
Lemma renderSubmissions_store {H : Host} (o : option (list Submission))
    (st : State) :
  exists d, snd (renderSubmissions o st) = set_dom d st.
Proof.
  unfold renderSubmissions, bind, gets, modifyDom, modify, throw. simpl.
  destruct (Nat.eqb _ 0); simpl.
  - eexists; reflexivity.
  - destruct (renderRows _); simpl; eexists; reflexivity.
Qed.

Lemma filterSubmissions_store {H : Host} (st : State) :
  exists d, snd (filterSubmissions st) = set_dom d st.
Proof.
  unfold filterSubmissions, bind, gets. simpl.
  apply renderSubmissions_store.
Qed.

(** The store after [sortTable]: the new view-state, and [submissions]
    sorted with the callback of the new direction. *)
Lemma sortTable_store {H : Host} (column : ColumnKey) (type : ColumnType)
    (st : State) :
  let st' := snd (sortTable column type st) in
  let view := nextSort (sortColumn st) (sortDirection st) column in
  sortColumn st' = fst view
  /\ sortDirection st' = snd view
  /\ submissions st'
     = Array_sort (compareFn (snd view) column type) (submissions st).
Proof.
  cbv zeta. unfold sortTable, bind, modify, updateSortIndicators. simpl.
  match goal with
  | |- context [filterSubmissions ?s] =>
      destruct (filterSubmissions_store s) as [d Hd];
      destruct (filterSubmissions s) as [[u | e] st2] eqn:F
  end; simpl in *; subst st2;
    destruct (nextSort (sortColumn st) (sortDirection st) column) as [c dir];
    simpl; repeat split; reflexivity.
Qed.

(** C5.  [sortTable] invoked with the currently selected key keeps the
    key and flips the direction; invoked with any other key (or when no
    key is selected yet) it selects that key with direction [asc]. *)
Theorem sortTable_toggles_direction {H : Host} (column : ColumnKey)
    (type : ColumnType) (st : State) :
  let st' := snd (sortTable column type st) in
  (sortColumn st = Some column ->
     sortColumn st' = Some column
     /\ sortDirection st'
        = match sortDirection st with asc => desc | desc => asc end)
  /\ (sortColumn st <> Some column ->
        sortColumn st' = Some column /\ sortDirection st' = asc).
Proof.
  cbv zeta.
  destruct (sortTable_store column type st) as [Hc [Hd _]].
  rewrite Hc, Hd. unfold nextSort, sameColumn. split.
  - intros E. rewrite E.
    replace (ColumnKey_eqb column column) with true
      by (destruct column; reflexivity).
    split; reflexivity.
  - intros NE. destruct (sortColumn st) as [c |]; [| split; reflexivity].
    destruct (ColumnKey_eqb c column) eqn:E; [| split; reflexivity].
    exfalso. apply NE. destruct c, column; try discriminate; reflexivity.
Qed.

(** Three clicks from the initial state: score, score again, then grade. *)
Lemma sortTable_toggles_direction_witness :
  let s1 := snd (sortTable (H := asciiHost) K_score T_number initialState) in
  let s2 := snd (sortTable (H := asciiHost) K_score T_number s1) in
  let s3 := snd (sortTable (H := asciiHost) K_grade T_string s2) in
  (sortColumn s1 = Some K_score /\ sortDirection s1 = asc)
  /\ (sortColumn s2 = Some K_score /\ sortDirection s2 = desc)
  /\ (sortColumn s3 = Some K_grade /\ sortDirection s3 = asc).
Proof.
  cbv zeta. split; [| split].
  - apply (sortTable_toggles_direction (H := asciiHost) K_score T_number
             initialState).
    simpl. discriminate.
  - apply (sortTable_toggles_direction (H := asciiHost) K_score T_number
             (snd (sortTable (H := asciiHost) K_score T_number initialState))).
    reflexivity.
  - apply (sortTable_toggles_direction (H := asciiHost) K_grade T_string
             (snd (sortTable (H := asciiHost) K_score T_number
                (snd (sortTable (H := asciiHost) K_score T_number
                        initialState))))).
    simpl. discriminate.
Defined.

(* --------------------------------------------------------------------- *)
(** ** Sorting by score *)
(* --------------------------------------------------------------------- *)

Lemma sortValue_score (a : Submission) :
  sortValue K_score a = VNum (scoreKey a).
Proof.
  unfold sortValue, scoreKey. destruct (assessment_total_score a); reflexivity.
Qed.

(** The score callback orders by [scoreKey], upwards or downwards. *)
Lemma notAfter_score {H : Host} (dir : Direction) (x y : Submission) :
  notAfter (compareFn dir K_score T_number) x y = true
  <-> match dir with
      | asc => (scoreKey x <= scoreKey y)%Q
      | desc => (scoreKey y <= scoreKey x)%Q
      end.
Proof.
  unfold notAfter, compareFn. rewrite !sortValue_score.
  destruct dir; simpl; rewrite Qle_bool_iff; split; intros L; lra.
Qed.

Lemma notAfter_score_total {H : Host} (dir : Direction) (x y : Submission) :
  notAfter (compareFn dir K_score T_number) x y = false ->
  notAfter (compareFn dir K_score T_number) y x = true.
Proof.
  intros E. apply notAfter_score.
  assert (N : ~ notAfter (compareFn dir K_score T_number) x y = true)
    by congruence.
  rewrite notAfter_score in N. destruct dir; lra.
Qed.

Lemma notAfter_score_trans {H : Host} (dir : Direction) (x y z : Submission) :
  notAfter (compareFn dir K_score T_number) x y = true ->
  notAfter (compareFn dir K_score T_number) y z = true ->
  notAfter (compareFn dir K_score T_number) x z = true.
Proof.
  rewrite !notAfter_score. destruct dir; lra.
Qed.

(** After a sort by score, a submission with a strictly smaller key comes
    first when ascending and last when descending. *)
Lemma score_sort_positions {H : Host} (dir : Direction) (l : list Submission)
    (i j : nat) (a b : Submission) :
  nth_error (Array_sort (compareFn dir K_score T_number) l) i = Some a ->
  nth_error (Array_sort (compareFn dir K_score T_number) l) j = Some b ->
  (scoreKey a < scoreKey b)%Q ->
  match dir with
  | asc => (i < j)%nat
  | desc => (j < i)%nat
  end.
Proof.
  intros Hi Hj Hlt.
  assert (Strict : forall u v,
             ~ notAfter (compareFn dir K_score T_number) u v = true ->
             notAfter (compareFn dir K_score T_number) u v = false).
  { intros u v N. destruct (notAfter _ u v); [exfalso; auto | reflexivity]. }
  destruct dir.
  - apply (Array_sort_strictly_before _ (notAfter_score_total asc)
             (notAfter_score_trans asc) l i j a b Hi Hj).
    apply Strict. rewrite notAfter_score. lra.
  - apply (Array_sort_strictly_before _ (notAfter_score_total desc)
             (notAfter_score_trans desc) l j i b a Hj Hi).
    apply Strict. rewrite notAfter_score. lra.
Qed.

(** C3.  After [sortTable] on the score column, a submission without an
    assessment ranks below every submission whose [total_score] is a score
    of the data model (0 to 100), in both directions: it has the smaller
    index when the direction is ascending and the larger one when it is
    descending. *)
Theorem sortTable_score_missing_ranks_lowest {H : Host} (st : State)
    (i j : nat) (a b : Submission) (q : Q) :
  let st' := snd (sortTable K_score T_number st) in
  nth_error (submissions st') i = Some a ->
  nth_error (submissions st') j = Some b ->
  assessment a = None ->
  assessment_total_score b = Some q ->
  (0 <= q <= 100)%Q ->
  match sortDirection st' with
  | asc => (i < j)%nat
  | desc => (j < i)%nat
  end.
Proof.
  cbv zeta. destruct (sortTable_store K_score T_number st) as [_ [Hd Hs]].
  rewrite Hs, Hd. intros Hi Hj Ha Hb Hq.
  apply (score_sort_positions _ _ i j a b Hi Hj).
  unfold scoreKey, assessment_total_score in *. rewrite Ha.
  destruct (assessment b); [| discriminate]. rewrite Hb. simpl. lra.
Qed.

(** The specification's example: the store [B, A] sorted by score
    ascending is [A, B]. *)
Lemma sortTable_score_missing_ranks_lowest_witness :
  let st := set_submissions [submissionB; submissionA] initialState in
  let st' := snd (sortTable (H := asciiHost) K_score T_number st) in
  submissions st' = [submissionA; submissionB]
  /\ sortDirection st' = asc
  /\ (0 < 1)%nat.
Proof.
  cbv zeta. split; [reflexivity |]. split; [reflexivity |].
  apply (sortTable_score_missing_ranks_lowest (H := asciiHost)
           (set_submissions [submissionB; submissionA] initialState)
           0 1 submissionA submissionB (88 # 1)).
  - reflexivity.
  - reflexivity.
  - reflexivity.
  - reflexivity.
  - split; discriminate.
Defined.

(** The example of the specification, on the store [A, B]: sorting by
    score ascending gives [A, B], descending [B, A].  Neither record has
    an identifying field, so the filter rejects [B] even for the status
    ["evaluated"] and an empty search text. *)
Lemma example_sort_then_filter :
  Array_sort (compareFn (H := asciiHost) asc K_score T_number)
    [submissionA; submissionB] = [submissionA; submissionB]
  /\ Array_sort (compareFn (H := asciiHost) desc K_score T_number)
       [submissionA; submissionB] = [submissionB; submissionA]
  /\ filterPredicate "" "evaluated" submissionB = false.
Proof. repeat split; reflexivity. Qed.

(** C10.  The score extraction keeps a [total_score] of 0 as 0 and gives
    -1 to a submission without an assessment; the callback puts the
    latter strictly before the former, and so does an ascending sort by
    score. *)
Theorem sortTable_score_zero_is_not_missing {H : Host} (st : State)
    (i j : nat) (a b : Submission) :
  let st' := snd (sortTable K_score T_number st) in
  assessment a = None ->
  assessment_total_score b = Some (0 # 1) ->
  sortValue K_score b = VNum (0 # 1)
  /\ sortValue K_score a = VNum (-1 # 1)
  /\ (exists c, compareFn asc K_score T_number a b = Some c /\ (c < 0)%Q)
  /\ (sortDirection st' = asc ->
      nth_error (submissions st') i = Some a ->
      nth_error (submissions st') j = Some b ->
      (i < j)%nat).
Proof.
  cbv zeta. intros Ha Hb.
  assert (Ka : scoreKey a = -1 # 1).
  { unfold scoreKey, assessment_total_score. rewrite Ha. reflexivity. }
  assert (Kb : scoreKey b = 0 # 1).
  { unfold scoreKey. rewrite Hb. reflexivity. }
  split; [rewrite sortValue_score, Kb; reflexivity |].
  split; [rewrite sortValue_score, Ka; reflexivity |].
  split.
  - unfold compareFn. rewrite !sortValue_score, Ka, Kb. simpl.
    eexists; split; [reflexivity | reflexivity].
  - destruct (sortTable_store K_score T_number st) as [_ [Hd Hs]].
    rewrite Hs. intros Hdir Hi Hj. rewrite Hd in Hdir. rewrite Hdir in *.
    apply (score_sort_positions asc _ i j a b Hi Hj).
    rewrite Ka, Kb. reflexivity.
Qed.

(** The store [zero-scored, A] sorted by score ascending is
    [A, zero-scored]. *)
Lemma sortTable_score_zero_is_not_missing_witness :
  let st := set_submissions [submissionZero; submissionA] initialState in
  let st' := snd (sortTable (H := asciiHost) K_score T_number st) in
  submissions st' = [submissionA; submissionZero]
  /\ sortValue K_score submissionZero = VNum (0 # 1)
  /\ sortValue K_score submissionA = VNum (-1 # 1)
  /\ (0 < 1)%nat.
Proof.
  cbv zeta.
  destruct (sortTable_score_zero_is_not_missing (H := asciiHost)
              (set_submissions [submissionZero; submissionA] initialState)
              0 1 submissionA submissionZero eq_refl eq_refl)
    as [Hz [Hm [_ Hpos]]].
  split; [reflexivity |]. split; [exact Hz |]. split; [exact Hm |].
  apply Hpos; reflexivity.
Defined.

(* --------------------------------------------------------------------- *)
(** ** Sorting by grade *)
(* --------------------------------------------------------------------- *)

Lemma Qle_bool_inject_Z (z : Z) : Qle_bool (inject_Z z) 0 = true <-> z <= 0.
Proof.
  rewrite Qle_bool_iff. unfold Qle, inject_Z. simpl. lia.
Qed.

(** The grade callback, ascending, orders by the collation of [gradeKey]. *)
Lemma notAfter_grade {H : Host} (x y : Submission) :
  notAfter (compareFn asc K_grade T_string) x y = true
  <-> localeCompare (gradeKey x) (gradeKey y) <= 0.
Proof.
  unfold notAfter, compareFn, comparison, sortValue, asString, gradeKey.
  apply Qle_bool_inject_Z.
Qed.

Section GradeOrder.

Context {H : Host} (laws : HostLaws H).

Lemma notAfter_grade_total (x y : Submission) :
  notAfter (compareFn asc K_grade T_string) x y = false ->
  notAfter (compareFn asc K_grade T_string) y x = true.
Proof.
  intros E. apply notAfter_grade.
  assert (N : ~ notAfter (compareFn asc K_grade T_string) x y = true)
    by congruence.
  rewrite notAfter_grade in N.
  pose proof (localeCompare_antisym H laws (gradeKey x) (gradeKey y)) as S.
  lia.
Qed.

Lemma notAfter_grade_trans (x y z : Submission) :
  notAfter (compareFn asc K_grade T_string) x y = true ->
  notAfter (compareFn asc K_grade T_string) y z = true ->
  notAfter (compareFn asc K_grade T_string) x z = true.
Proof.
  rewrite !notAfter_grade. apply (localeCompare_trans H laws).
Qed.

(** After an ascending sort by grade, a submission whose key collates
    strictly before another's has the smaller index. *)
Lemma grade_sort_positions (l : list Submission) (i j : nat)
    (a b : Submission) :
  nth_error (Array_sort (compareFn asc K_grade T_string) l) i = Some a ->
  nth_error (Array_sort (compareFn asc K_grade T_string) l) j = Some b ->
  localeCompare (gradeKey a) (gradeKey b) < 0 ->
  (i < j)%nat.
Proof.
  intros Hi Hj Hlt.
  apply (Array_sort_strictly_before _ notAfter_grade_total
           notAfter_grade_trans l i j a b Hi Hj).
  destruct (notAfter (compareFn asc K_grade T_string) b a) eqn:E;
    [| reflexivity].
  apply notAfter_grade in E.
  pose proof (localeCompare_antisym H laws (gradeKey a) (gradeKey b)) as S.
  lia.
Qed.

End GradeOrder.

(** The concrete host is a consistent collation. *)
Ltac string_order_absurd Irr Tr :=
  unfold String_as_OT.eq in *; subst;
  solve [ eapply Irr; eassumption
        | eapply Irr; eapply Tr; eassumption
        | eapply Irr; eapply Tr; [eapply Tr |]; eassumption ].

Lemma String_compare_opp (x y : string) :
  String_as_OT.compare y x = CompOpp (String_as_OT.compare x y).
Proof.
  pose proof (@StrictOrder_Irreflexive _ _ String_as_OT.lt_strorder) as Irr.
  pose proof (@StrictOrder_Transitive _ _ String_as_OT.lt_strorder) as Tr.
  destruct (String_as_OT.compare_spec x y) as [E | L | L];
    destruct (String_as_OT.compare_spec y x) as [E' | L' | L'];
    simpl; try reflexivity; exfalso; string_order_absurd Irr Tr.
Qed.

Lemma String_compare_le_trans (x y z : string) :
  String_as_OT.compare x y <> Gt -> String_as_OT.compare y z <> Gt ->
  String_as_OT.compare x z <> Gt.
Proof.
  pose proof (@StrictOrder_Irreflexive _ _ String_as_OT.lt_strorder) as Irr.
  pose proof (@StrictOrder_Transitive _ _ String_as_OT.lt_strorder) as Tr.
  destruct (String_as_OT.compare_spec x y) as [E | L | L];
    destruct (String_as_OT.compare_spec y z) as [E' | L' | L'];
    destruct (String_as_OT.compare_spec x z) as [E2 | L2 | L2];
    intros; try congruence; exfalso; string_order_absurd Irr Tr.
Qed.

Lemma asciiHost_laws : HostLaws asciiHost.
Proof.
  split; simpl; unfold asciiCompare.
  - intros a b.
    rewrite (String_compare_opp (JsString.toLowerCase a) (JsString.toLowerCase b)).
    destruct (String_as_OT.compare _ _); reflexivity.
  - intros a b c Hab Hbc.
    pose proof (String_compare_le_trans (JsString.toLowerCase a)
                  (JsString.toLowerCase b) (JsString.toLowerCase c)) as T.
    destruct (String_as_OT.compare (JsString.toLowerCase a) (JsString.toLowerCase b));
      destruct (String_as_OT.compare (JsString.toLowerCase b) (JsString.toLowerCase c));
      destruct (String_as_OT.compare (JsString.toLowerCase a) (JsString.toLowerCase c));
      try lia; exfalso; apply T; congruence.
Qed.

(** Submissions without a grade are ordered by the sentinel. *)
Lemma gradeKey_missing (a : Submission) :
  truthyStr (assessment_grade a) = false -> gradeKey a = "Z".
Proof.
  unfold gradeKey, orStr, truthyStr. intros Ha.
  destruct (assessment_grade a); [rewrite Ha |]; reflexivity.
Qed.

Lemma gradeKey_present (b : Submission) (g : string) :
  assessment_grade b = Some g -> g <> "" -> gradeKey b = g.
Proof.
  unfold gradeKey. intros -> Hg. simpl.
  destruct g; [contradiction | reflexivity].
Qed.

(** C6 (as amended).  On a host whose collation is consistent, after
    [sortTable] on the grade column has left the direction ascending:
    a submission without a grade (absent or empty) has a larger index
    than every submission whose grade collates strictly before the
    sentinel ["Z"], and a smaller index than every submission whose grade
    collates strictly after it; and the submissions whose key collates
    equal to ["Z"] (the ungraded ones and those whose grade ties with
    ["Z"]) keep the relative order they had in the store. *)
Theorem sortTable_grade_missing_after_graded {H : Host} (st : State) :
  HostLaws H ->
  let st' := snd (sortTable K_grade T_string st) in
  sortDirection st' = asc ->
  (forall (i j : nat) (a b : Submission) (g : string),
     nth_error (submissions st') i = Some a ->
     nth_error (submissions st') j = Some b ->
     truthyStr (assessment_grade a) = false ->
     assessment_grade b = Some g ->
     g <> "" ->
     (localeCompare g "Z" < 0 -> (j < i)%nat)
     /\ (0 < localeCompare g "Z" -> (i < j)%nat))
  /\ List.filter (fun u => localeCompare (gradeKey u) "Z" =? 0)
       (submissions st')
     = List.filter (fun u => localeCompare (gradeKey u) "Z" =? 0)
         (submissions st).
Proof.
  intros laws. cbv zeta.
  destruct (sortTable_store K_grade T_string st) as [_ [Hd Hs]].
  rewrite Hs, Hd. intros Hdir. rewrite Hdir. split.
  - intros i j a b g Hi Hj Ha Hb Hg.
    pose proof (gradeKey_missing a Ha) as Ka.
    pose proof (gradeKey_present b g Hb Hg) as Kb.
    pose proof (localeCompare_antisym H laws g "Z") as S.
    split; intros Hlt.
    + apply (grade_sort_positions laws _ j i b a Hj Hi).
      rewrite Ka, Kb. exact Hlt.
    + apply (grade_sort_positions laws _ i j a b Hi Hj).
      rewrite Ka, Kb. lia.
  - assert (E : forall u,
               (localeCompare (gradeKey u) "Z" =? 0)
               = (notAfter (compareFn asc K_grade T_string) submissionA u
                  && notAfter (compareFn asc K_grade T_string) u submissionA)%bool).
    { intros u. apply eq_true_iff_eq.
      rewrite andb_true_iff, !notAfter_grade, Z.eqb_eq.
      change (gradeKey submissionA) with "Z".
      pose proof (localeCompare_antisym H laws (gradeKey u) "Z") as S.
      lia. }
    rewrite (filter_ext _ _ E (Array_sort _ _)),
      (filter_ext _ _ E (submissions st)).
    apply (Array_sort_stable _ (notAfter_grade_trans laws) submissionA).
Qed.

(** The store [ungraded A, graded "B+"] sorted by grade: the ungraded
    submission goes last. *)
Lemma sortTable_grade_missing_after_graded_witness :
  let st := set_submissions [submissionA; graded "G" "B+"] initialState in
  let st' := snd (sortTable (H := asciiHost) K_grade T_string st) in
  submissions st' = [graded "G" "B+"; submissionA] /\ (0 < 1)%nat.
Proof.
  cbv zeta. split; [reflexivity |].
  destruct (sortTable_grade_missing_after_graded (H := asciiHost)
              (set_submissions [submissionA; graded "G" "B+"] initialState)
              asciiHost_laws eq_refl) as [Pos _].
  apply (Pos 1%nat 0%nat submissionA (graded "G" "B+") "B+");
    [reflexivity | reflexivity | reflexivity | reflexivity | discriminate
    | reflexivity].
Defined.

(** C6 (as stated) fails: a graded submission whose grade is ["Z"] ties
    with the sentinel and stays behind an ungraded submission that
    preceded it; one whose grade collates after ["Z"] is always placed
    behind the ungraded ones. *)
Lemma sortTable_grade_Z_not_before_missing :
  let tie := set_submissions [submissionA; graded "G" "Z"] initialState in
  let after := set_submissions [graded "G" "ZZ"; submissionA] initialState in
  assessment_grade submissionA = None
  /\ assessment_grade (graded "G" "Z") = Some "Z"
  /\ sortDirection (snd (sortTable (H := asciiHost) K_grade T_string tie)) = asc
  /\ submissions (snd (sortTable (H := asciiHost) K_grade T_string tie))
     = [submissionA; graded "G" "Z"]
  /\ sortDirection (snd (sortTable (H := asciiHost) K_grade T_string after)) = asc
  /\ submissions (snd (sortTable (H := asciiHost) K_grade T_string after))
     = [submissionA; graded "G" "ZZ"].
Proof. cbv zeta. repeat split; reflexivity. Qed.

(* --------------------------------------------------------------------- *)
(** ** Filtering a sorted store *)
(* --------------------------------------------------------------------- *)

Lemma filter_Subsequence {A : Type} (p : A -> bool) (l : list A) :
  Subsequence (List.filter p l) l.
Proof.
  induction l as [| x l IH]; simpl.
  - constructor.
  - destruct (p x); constructor; exact IH.
Qed.

Lemma filter_Permutation {A : Type} (p : A -> bool) (l l' : list A) :
  Permutation l l' -> Permutation (List.filter p l) (List.filter p l').
Proof.
  induction 1 as [| x l l' _ IH | x y l | l l' l'' _ IH1 _ IH2]; simpl.
  - constructor.
  - destruct (p x); [constructor |]; exact IH.
  - destruct (p x), (p y); try apply Permutation_refl. apply perm_swap.
  - eapply Permutation_trans; eassumption.
Qed.

(** A subsequence keeps the relative order: elements found at increasing
    positions of the shorter list are found at increasing positions of the
    longer one. *)
Lemma Subsequence_nth {A : Type} (l1 l2 : list A) :
  Subsequence l1 l2 ->
  forall (k : nat) (v : A),
    nth_error l1 k = Some v -> exists k', nth_error l2 k' = Some v.
Proof.
  induction 1 as [| z l1 l2 _ IH | z l1 l2 _ IH]; intros k v Hk.
  - destruct k; discriminate.
  - destruct k as [| k]; [exists 0%nat; exact Hk |].
    destruct (IH k v Hk) as [k' Hk']. exists (S k'); exact Hk'.
  - destruct (IH k v Hk) as [k' Hk']. exists (S k'); exact Hk'.
Qed.

Lemma Subsequence_order {A : Type} (l1 l2 : list A) :
  Subsequence l1 l2 ->
  forall (i j : nat) (x y : A),
    (i < j)%nat -> nth_error l1 i = Some x -> nth_error l1 j = Some y ->
    exists i' j', (i' < j')%nat /\ nth_error l2 i' = Some x
                  /\ nth_error l2 j' = Some y.
Proof.
  induction 1 as [| z l1 l2 Hsub IH | z l1 l2 Hsub IH];
    intros i j x y Hij Hi Hj.
  - destruct i; discriminate.
  - destruct j as [| j]; [lia |]. simpl in Hj. destruct i as [| i].
    + simpl in Hi. inversion Hi; subst.
      destruct (Subsequence_nth _ _ Hsub j y Hj) as [j' Hj'].
      exists 0%nat, (S j'). repeat split; [lia | exact Hj'].
    + simpl in Hi.
      assert (Hij' : (i < j)%nat) by lia.
      destruct (IH i j x y Hij' Hi Hj) as [i' [j' [L [Hi' Hj']]]].
      exists (S i'), (S j'). repeat split; [lia | exact Hi' | exact Hj'].
  - destruct (IH i j x y Hij Hi Hj) as [i' [j' [L [Hi' Hj']]]].
    exists (S i'), (S j'). repeat split; [lia | exact Hi' | exact Hj'].
Qed.

(** Filtering never reorders and commutes with the sort: the list
    obtained by applying the callback of [filterSubmissions] to the sorted
    store holds the submissions of the store that the callback admits
    (with their multiplicities), in the relative order of the sort. *)
Lemma filter_of_sorted_store {H : Host} (L : list Submission)
    (column : ColumnKey) (type : ColumnType) (dir : Direction)
    (search statusF : string) :
  let sorted := Array_sort (compareFn dir column type) L in
  let shown := filtered search statusF sorted in
  (forall x, In x shown
             <-> In x L /\ filterPredicate search statusF x = true)
  /\ Permutation shown (filtered search statusF L)
  /\ Subsequence shown sorted
  /\ (forall (i j : nat) (x y : Submission),
        (i < j)%nat -> nth_error shown i = Some x -> nth_error shown j = Some y ->
        exists i' j', (i' < j')%nat /\ nth_error sorted i' = Some x
                      /\ nth_error sorted j' = Some y).
Proof.
  cbv zeta. unfold filtered.
  pose proof (Array_sort_perm (compareFn dir column type) L) as P.
  split; [| split; [| split]].
  - intros x. rewrite filter_In. split; intros [Hin Hp]; split; try exact Hp.
    + eapply Permutation_in; [exact P | exact Hin].
    + eapply Permutation_in; [apply Permutation_sym; exact P | exact Hin].
  - apply filter_Permutation, P.
  - apply filter_Subsequence.
  - apply Subsequence_order, filter_Subsequence.
Qed.

(** What [filterSubmissions] puts on the page: the rows of the filtered
    store, whenever the row template does not throw. *)
Lemma filterSubmissions_displays {H : Host} (st : State) (rows : list Row) :
  renderRows (filtered (searchInput (dom st)) (statusFilter (dom st))
                (submissions st)) = inl rows ->
  submissionsBody (dom (snd (filterSubmissions st))) = rows.
Proof.
  intros R.
  unfold filterSubmissions, renderSubmissions, gets, modifyDom, modify, throw,
    bind.
  cbn [fst snd].
  destruct (filtered (searchInput (dom st)) (statusFilter (dom st))
              (submissions st)) as [| x l] eqn:F.
  - simpl in R. inversion R; subst. reflexivity.
  - cbn [List.length Nat.eqb]. cbn [fst snd]. rewrite R. reflexivity.
Qed.

(** So [sortTable] shows the rows of the filtered sorted store. *)
Lemma sortTable_displays {H : Host} (column : ColumnKey) (type : ColumnType)
    (st : State) (rows : list Row) :
  let st' := snd (sortTable column type st) in
  renderRows (filtered (searchInput (dom st)) (statusFilter (dom st))
                (submissions st')) = inl rows ->
  submissionsBody (dom st') = rows.
Proof.
  cbv zeta.
  destruct (sortTable_store column type st) as [_ [_ Hs]]. rewrite Hs.
  intros R.
  unfold sortTable, updateSortIndicators, bind, modify.
  destruct (nextSort (sortColumn st) (sortDirection st) column) as [c d].
  cbn [fst snd] in *. cbv beta iota.
  match goal with
  | |- context [filterSubmissions ?s] =>
      assert (E : filtered (searchInput (dom s)) (statusFilter (dom s))
                    (submissions s)
                  = filtered (searchInput (dom st)) (statusFilter (dom st))
                      (Array_sort (compareFn d column type) (submissions st)))
        by reflexivity
  end.
  rewrite <- E in R.
  match goal with
  | |- context [filterSubmissions ?s] =>
      pose proof (filterSubmissions_displays s rows R) as D;
      destruct (filterSubmissions s) as [[u | e] st2]
  end; exact D.
Qed.

(** The callback of the code against the predicate of the
    specification: they agree on every submission when the search text
    is not empty, and on the submissions with an identifying field when
    it is; a submission without any identifying field is rejected by the
    code under an empty search text, whatever the specification's
    predicate says. *)
Lemma filterPredicate_vs_spec (search statusF : string) (s : Submission) :
  filterPredicate search statusF s
  = (specFilterPredicate search statusF s
     && (negb (String.eqb search "") || named s))%bool.
Proof.
  assert (St : matchesStatus statusF s
               = (String.eqb statusF "" || strictEqStr (status s) statusF)%bool).
  { unfold matchesStatus. destruct statusF; reflexivity. }
  unfold filterPredicate, specFilterPredicate. rewrite St.
  destruct search as [| c r].
  - cbn [String.eqb negb orb].
    assert (F : forall o : option string,
               fieldMatches o (JsString.toLowerCase "") = truthyStr o).
    { intros [x |]; [| reflexivity]. cbn [fieldMatches truthyStr].
      change (JsString.toLowerCase "") with "".
      rewrite includes_empty. apply andb_true_r. }
    unfold matchesSearch, named. rewrite !F.
    apply andb_comm.
  - cbn [String.eqb negb orb]. rewrite andb_true_r. f_equal.
    assert (F : forall o : option string,
               fieldMatches o (JsString.toLowerCase (String c r))
               = specFieldContains o (String c r)).
    { intros [x |]; [| reflexivity]. cbn [fieldMatches specFieldContains].
      destruct x as [| a x]; [reflexivity |]. reflexivity. }
    unfold matchesSearch. rewrite !F. reflexivity.
Qed.

(** C4.  The code against the specified filter.  For every state, column and column
    type, [sortTable] leaves a rearrangement of the store, and the list it
    hands to the table is the sorted store with the rejected submissions
    left out, in the order of the sort; the table shows its rows when the
    row template does not throw.  But the submissions kept are those that
    satisfy the specification's predicate AND, under an empty search
    text, have an identifying field: on the store [A] with empty search
    text and status filter, [A] satisfies the specification's predicate
    and the table is empty. *)
Theorem sortTable_filter_against_specified_predicate :
  (forall (H : Host) (column : ColumnKey) (type : ColumnType) (st : State),
     let st' := snd (sortTable column type st) in
     let search := searchInput (dom st) in
     let statusF := statusFilter (dom st) in
     let shown := filtered search statusF (submissions st') in
     Permutation (submissions st') (submissions st)
     /\ shown
        = List.filter
            (fun s => (specFilterPredicate search statusF s
                       && (negb (String.eqb search "") || named s))%bool)
            (submissions st')
     /\ Subsequence shown (submissions st')
     /\ (forall rows, renderRows shown = inl rows ->
                      submissionsBody (dom st') = rows))
  /\ (let st' := snd (sortTable (H := asciiHost) K_score T_number showingA) in
      submissions showingA = [submissionA]
      /\ searchInput (dom showingA) = ""
      /\ statusFilter (dom showingA) = ""
      /\ specFilterPredicate "" "" submissionA = true
      /\ List.filter (specFilterPredicate "" "") (submissions st')
         = [submissionA]
      /\ filtered "" "" (submissions st') = []
      /\ submissionsBody (dom st') = []).
Proof.
  split.
  - intros H column type st. cbv zeta.
    destruct (sortTable_store column type st) as [_ [_ Hs]].
    split; [rewrite Hs; apply Array_sort_perm |].
    split; [| split].
    + unfold filtered. apply filter_ext. intros s.
      apply filterPredicate_vs_spec.
    + apply filter_Subsequence.
    + intros rows R. apply (sortTable_displays column type st rows R).
  - cbv zeta. repeat split; reflexivity.
Qed.

(* --------------------------------------------------------------------- *)
(** ** The detail projection *)
(* --------------------------------------------------------------------- *)

(** The projection throws exactly when the status is missing. *)
Lemma generateDetailsHTML_throws_iff {H : Host} (s : Submission) :
  (exists e, generateDetailsHTML s = inr e) <-> status s = None.
Proof.
  unfold generateDetailsHTML. destruct (status s); split.
  - intros [e E]; discriminate.
  - discriminate.
  - reflexivity.
  - intros _. eexists; reflexivity.
Qed.

(** C9.  On a submission whose status is ['evaluated'] and whose
    assessment is absent, [generateDetailsHTML] does not throw: after the
    identity groups it renders the assessment block with the score ['0'],
    the grade placeholder ['-'] (class [grade-f]), an empty breakdown, and
    no strengths, improvements or recommendations section. *)
Theorem generateDetailsHTML_evaluated_without_assessment {H : Host}
    (s : Submission) :
  status s = Some "evaluated" ->
  assessment s = None ->
  generateDetailsHTML s
  = inl (identityGroups s "evaluated"
         ++ [ El "hr"
                [("style", "margin: 25px 0; border: none; border-top: 2px solid #eee;")]
                [];
              El "h3"
                [("style", "color: var(--primary-color); margin-bottom: 20px;")]
                [Text "Assessment Results"];
              div "detail-group"
                [ div "detail-label" [Text "Total Score"];
                  div "detail-value"
                    [ El "span"
                        [("style", "font-size: 1.5rem; font-weight: bold; color: var(--primary-color);")]
                        [Interp (VStr "0"); Text "/100"];
                      El "span"
                        [("class", "grade grade-f");
                         ("style", "margin-left: 15px; font-size: 1.3rem;")]
                        [Interp (VStr "-")] ] ];
              div "score-breakdown"
                [ El "h4" [("style", "margin-bottom: 15px;")]
                    [Text "Score Breakdown"] ] ])%list.
Proof.
  intros Hs Ha. unfold generateDetailsHTML. rewrite Hs, Ha. reflexivity.
Qed.

Lemma generateDetailsHTML_evaluated_without_assessment_witness :
  exists html,
    generateDetailsHTML (H := asciiHost) evaluatedWithoutAssessment = inl html
    /\ List.length html = 9%nat.
Proof.
  eexists. split.
  - apply (generateDetailsHTML_evaluated_without_assessment (H := asciiHost)
             evaluatedWithoutAssessment); reflexivity.
  - reflexivity.
Defined.

(* --------------------------------------------------------------------- *)
(** ** More on the API gateway *)
(* --------------------------------------------------------------------- *)

(** X1.  [apiCall] returns exactly when the request was answered with a
    JSON body that is an object, a status from 200 to 299 and a [success]
    field that is [true]; what it returns is that object. *)
Theorem apiCall_returns_iff (net : Network) (endpoint method : string)
    (st : State) (d : Data) :
  fst (apiCall net endpoint method st) = Normal d
  <-> exists r env,
        net endpoint method = Resolved r
        /\ JsString.includes (orStr (resp_content_type r) "") "application/json"
           = true
        /\ resp_json r = inl (JObject env)
        /\ 200 <= resp_status r <= 299
        /\ env_success env = Some true
        /\ d = JObject env.
Proof.
  rewrite apiCall_fst.
  unfold apiCall_try, bind, ret, throw, readProp. split.
  - destruct (net endpoint method) as [e | r]; simpl; [discriminate |].
    destruct (JsString.includes _ _) eqn:Ct; simpl; [| discriminate].
    destruct (resp_json r) as [d' | e] eqn:J; simpl; [| discriminate].
    destruct (resp_ok r) eqn:Ok; simpl; [| discriminate].
    destruct d' as [| env]; simpl; [discriminate |].
    destruct (env_success env) as [[|] |] eqn:S; simpl; try discriminate.
    intros E; inversion E; subst.
    exists r, env. unfold resp_ok in Ok.
    apply andb_true_iff in Ok. destruct Ok as [Lo Hi].
    apply Z.leb_le in Lo, Hi. repeat split; auto.
  - intros [r [env [Hn [Ct [J [[Lo Hi] [S ->]]]]]]].
    rewrite Hn; simpl. rewrite Ct; simpl. rewrite J; simpl.
    assert (Ok : resp_ok r = true).
    { unfold resp_ok. apply andb_true_iff. split; apply Z.leb_le; assumption. }
    rewrite Ok; simpl. rewrite S; simpl. reflexivity.
Qed.

(** X2.  A response whose content type does not mention
    [application/json] makes [apiCall] throw, whatever its status: the
    message is the body text, or ["Unexpected response format (status N)"]
    when the body is empty; the page gains the matching error
    notification. *)
Theorem apiCall_non_json_response (net : Network) (endpoint method : string)
    (st : State) (r : Response) :
  net endpoint method = Resolved r ->
  JsString.includes (orStr (resp_content_type r) "") "application/json" = false ->
  exists msg,
    apiCall net endpoint method st
    = (Throw {| err_message := msg |}, notifyError {| err_message := msg |} st)
    /\ (resp_text r <> "" -> msg = resp_text r)
    /\ (resp_text r = "" ->
        msg = "Unexpected response format (status "
                ++ natToString (resp_status r) ++ ")").
Proof.
  intros Hn Ct.
  exists (if JsString.truthy (resp_text r) then resp_text r
          else "Unexpected response format (status "
                 ++ natToString (resp_status r) ++ ")").
  split; [| split].
  - rewrite apiCall_run. unfold apiCall_try, bind, throw.
    rewrite Hn; simpl. rewrite Ct; simpl. reflexivity.
  - intros Ne. destruct (resp_text r); [contradiction | reflexivity].
  - intros ->. reflexivity.
Qed.

(** An HTML error page served with status 502. *)
Lemma apiCall_non_json_response_witness :
  fst (apiCall
         (fun _ _ =>
            Resolved {| resp_status := 502;
                        resp_content_type := Some "text/html";
                        resp_text := "<h1>Bad Gateway</h1>";
                        resp_json := inr {| err_message := "Unexpected token" |} |})
         "/api/submissions" "GET" initialState)
  = Throw {| err_message := "<h1>Bad Gateway</h1>" |}.
Proof.
  destruct (apiCall_non_json_response
              (fun _ _ =>
                 Resolved {| resp_status := 502;
                             resp_content_type := Some "text/html";
                             resp_text := "<h1>Bad Gateway</h1>";
                             resp_json := inr {| err_message := "Unexpected token" |} |})
              "/api/submissions" "GET" initialState _ eq_refl eq_refl)
    as [msg [Hrun [Hm _]]].
  rewrite Hrun. simpl. rewrite Hm; [reflexivity | discriminate].
Defined.

(** X3.  A JSON body that is [null] never comes back from [apiCall]: with
    a status outside 200..299 the call fails with the generic message,
    and with a status inside it the test of [data.success] itself throws
    a [TypeError]; both are notified. *)
Theorem apiCall_null_body (net : Network) (endpoint method : string)
    (st : State) (r : Response) :
  net endpoint method = Resolved r ->
  JsString.includes (orStr (resp_content_type r) "") "application/json" = true ->
  resp_json r = inl JNull ->
  let e := if resp_ok r
           then TypeError_read "null" "success"
           else {| err_message :=
                     "Request failed with status " ++ natToString (resp_status r) |} in
  apiCall net endpoint method st = (Throw e, notifyError e st).
Proof.
  intros Hn Ct J. cbv zeta.
  rewrite apiCall_run. unfold apiCall_try, bind, ret, throw, readProp.
  rewrite Hn; simpl. rewrite Ct; simpl. rewrite J; simpl.
  destruct (resp_ok r); reflexivity.
Qed.

Lemma apiCall_null_body_witness :
  fst (apiCall
         (fun _ _ =>
            Resolved {| resp_status := 200;
                        resp_content_type := Some "application/json";
                        resp_text := "null";
                        resp_json := inl JNull |})
         "/api/submissions" "GET" initialState)
  = Throw {| err_message := "Cannot read properties of null (reading 'success')" |}.
Proof.
  rewrite (apiCall_null_body
             (fun _ _ =>
                Resolved {| resp_status := 200;
                            resp_content_type := Some "application/json";
                            resp_text := "null";
                            resp_json := inl JNull |})
             "/api/submissions" "GET" initialState _ eq_refl eq_refl eq_refl).
  reflexivity.
Defined.

(** X4.  Whatever the server does, [apiCall] leaves the page as it was
    when it returns, and when it throws the only change is one appended
    notification of type [error] whose text is ["Error: "] followed by
    the message of the error thrown. *)
Theorem apiCall_page_effect (net : Network) (endpoint method : string)
    (st : State) :
  let st' := snd (apiCall net endpoint method st) in
  match fst (apiCall net endpoint method st) with
  | Normal _ => st' = st
  | Throw e =>
      submissions st' = submissions st
      /\ statistics st' = statistics st
      /\ monitoringActive st' = monitoringActive st
      /\ sortColumn st' = sortColumn st
      /\ sortDirection st' = sortDirection st
      /\ dom st'
         = with_notification
             {| notif_type := "error";
                notif_text := "Error: " ++ err_message e |} (dom st)
  end.
Proof.
  cbv zeta. rewrite apiCall_run.
  destruct (fst (apiCall_try net endpoint method st)); simpl;
    repeat split; reflexivity.
Qed.

(* --------------------------------------------------------------------- *)
(** ** Rendering the table *)
(* --------------------------------------------------------------------- *)

Lemma renderRows_length {H : Host} (l : list Submission) (rows : list Row) :
  renderRows l = inl rows -> List.length rows = List.length l.
Proof.
  revert rows. induction l as [| s l IH]; intros rows R; simpl in R.
  - inversion R; reflexivity.
  - destruct (renderRow s); [| discriminate].
    destruct (renderRows l); [| discriminate].
    inversion R; subst. simpl. f_equal. apply IH. reflexivity.
Qed.

(** A render that does not throw. *)
Lemma renderSubmissions_normal {H : Host} (o : option (list Submission))
    (st : State) (rows : list Row) :
  let dataToRender := match o with Some l => l | None => submissions st end in
  renderRows dataToRender = inl rows ->
  renderSubmissions o st
  = (Normal tt,
     set_dom (renderedDom (List.length dataToRender) (Some rows) (dom st)) st).
Proof.
  cbv zeta. intros R.
  unfold renderSubmissions, gets, modifyDom, modify, throw, bind, renderedDom,
    countText.
  cbn [fst snd].
  destruct (match o with Some l => l | None => submissions st end)
    as [| x l] eqn:D.
  - simpl in R. inversion R; subst. reflexivity.
  - cbn [List.length Nat.eqb]. rewrite R. reflexivity.
Qed.

(** A render in which the row template throws. *)
Lemma renderSubmissions_throw {H : Host} (o : option (list Submission))
    (st : State) (e : Error) :
  let dataToRender := match o with Some l => l | None => submissions st end in
  renderRows dataToRender = inr e ->
  renderSubmissions o st
  = (Throw e,
     set_dom (renderedDom (List.length dataToRender) None (dom st)) st).
Proof.
  cbv zeta. intros R.
  unfold renderSubmissions, gets, modifyDom, modify, throw, bind, renderedDom,
    countText.
  cbn [fst snd].
  destruct (match o with Some l => l | None => submissions st end)
    as [| x l] eqn:D.
  - simpl in R. discriminate.
  - cbn [List.length Nat.eqb]. rewrite R. reflexivity.
Qed.

(** The row template throws exactly on a submission without a status, or
    with an assessment that has no total score. *)
Lemma renderRow_throws_iff {H : Host} (s : Submission) :
  (exists e, renderRow s = inr e)
  <-> status s = None
      \/ exists a, assessment s = Some a /\ total_score a = None.
Proof.
  unfold renderRow. destruct (status s) as [st |].
  - destruct (assessment s) as [a |].
    + destruct (total_score a) eqn:T; split.
      * intros [e E]; discriminate.
      * intros [E | [a' [E T']]]; [discriminate |].
        inversion E; subst. congruence.
      * intros _. right. exists a. auto.
      * intros _. eexists; reflexivity.
    + split.
      * intros [e E]; discriminate.
      * intros [E | [a' [E _]]]; discriminate.
  - split; [intros _; left; reflexivity | intros _; eexists; reflexivity].
Qed.

Lemma renderRows_throws_iff {H : Host} (l : list Submission) :
  (exists e, renderRows l = inr e)
  <-> exists s, In s l /\ exists e, renderRow s = inr e.
Proof.
  induction l as [| s l IH]; simpl.
  - split; [intros [e E]; discriminate | intros [s [[] _]]].
  - destruct (renderRow s) as [r | e] eqn:R.
    + destruct (renderRows l) as [rs | e'] eqn:RS.
      * split; [intros [e E]; discriminate |].
        intros [s' [[<- | I] [e E]]]; [congruence |].
        destruct IH as [_ IH]. destruct IH as [e' E']; [| discriminate].
        exists s'. split; [exact I | exists e; exact E].
      * split; [| intros _; eexists; reflexivity].
        intros _. destruct IH as [IH _].
        destruct IH as [s' [I E]]; [eexists; reflexivity |].
        exists s'. split; [right; exact I | exact E].
    + split; [| intros _; eexists; reflexivity].
      intros _. exists s. split; [left; reflexivity | exists e; exact R].
Qed.

(** X5.  [renderSubmissions] throws exactly when the list to render holds
    a submission without a status, or one whose assessment has no total
    score.  It has then already rewritten the counter and hidden the
    empty-state notice, but the table body keeps its old rows. *)
Theorem renderSubmissions_throws_iff {H : Host}
    (o : option (list Submission)) (st : State) :
  let dataToRender := match o with Some l => l | None => submissions st end in
  let st' := snd (renderSubmissions o st) in
  ((exists e, fst (renderSubmissions o st) = Throw e)
   <-> exists s, In s dataToRender
                 /\ (status s = None
                     \/ exists a, assessment s = Some a /\ total_score a = None))
  /\ ((exists e, fst (renderSubmissions o st) = Throw e) ->
      submissionsBody (dom st') = submissionsBody (dom st)
      /\ submissionCount (dom st') = countText (List.length dataToRender)
      /\ emptyState_display (dom st') = "none").
Proof.
  cbv zeta.
  set (l := match o with Some l => l | None => submissions st end).
  destruct (renderRows l) as [rows | e] eqn:R.
  - rewrite (renderSubmissions_normal o st rows R). simpl. split.
    + split; [intros [e E]; discriminate |].
      intros [s [I T]]. exfalso.
      assert (X : exists e, renderRows l = inr e).
      { apply renderRows_throws_iff. exists s. split; [exact I |].
        apply renderRow_throws_iff. exact T. }
      destruct X as [e E]. congruence.
    + intros [e E]; discriminate.
  - rewrite (renderSubmissions_throw o st e R). simpl.
    assert (N : l <> []) by (intros E; rewrite E in R; discriminate).
    split.
    + split; [| intros _; eexists; reflexivity].
      intros _.
      assert (X : exists e, renderRows l = inr e) by (eexists; exact R).
      apply renderRows_throws_iff in X. destruct X as [s [I T]].
      exists s. split; [exact I | apply renderRow_throws_iff; exact T].
    + intros _. fold l. repeat split.
      destruct l; [contradiction | reflexivity].
Qed.

(** X6.  When no row throws, [renderSubmissions] writes one row per
    submission, in order, each carrying the identifier of its submission
    and a report button exactly for status ['evaluated']; the empty-state
    notice is shown exactly for an empty list. *)
Theorem renderSubmissions_rows {H : Host} (o : option (list Submission))
    (st : State) :
  let dataToRender := match o with Some l => l | None => submissions st end in
  let st' := snd (renderSubmissions o st) in
  fst (renderSubmissions o st) = Normal tt ->
  List.map row_details_id (submissionsBody (dom st'))
  = List.map _id dataToRender
  /\ List.map row_report_id (submissionsBody (dom st'))
     = List.map (fun s => if strictEqStr (status s) "evaluated"
                          then Some (_id s) else None) dataToRender
  /\ (emptyState_display (dom st') = "block" <-> dataToRender = [])
  /\ submissionCount (dom st') = countText (List.length dataToRender).
Proof.
  cbv zeta.
  set (l := match o with Some l => l | None => submissions st end).
  destruct (renderRows l) as [rows | e] eqn:R.
  - rewrite (renderSubmissions_normal o st rows R). simpl. intros _. fold l.
    assert (M : forall l rows,
               renderRows l = inl rows ->
               List.map row_details_id rows = List.map _id l
               /\ List.map row_report_id rows
                  = List.map (fun s => if strictEqStr (status s) "evaluated"
                                       then Some (_id s) else None) l).
    { clear. induction l as [| s l IH]; intros rows R; simpl in R.
      - inversion R; split; reflexivity.
      - destruct (renderRow s) as [r | e] eqn:Rs; [| discriminate].
        destruct (renderRows l) as [rs | e]; [| discriminate].
        inversion R; subst. destruct (IH rs eq_refl) as [I1 I2].
        simpl. rewrite I1, I2.
        unfold renderRow in Rs. destruct (status s) as [stt |]; [| discriminate].
        destruct (assessment s) as [a |].
        + destruct (total_score a); [| discriminate].
          inversion Rs; subst. split; reflexivity.
        + inversion Rs; subst. split; reflexivity. }
    destruct (M l rows R) as [M1 M2].
    repeat split; try assumption.
    + destruct l; [reflexivity | simpl; discriminate].
    + intros ->. reflexivity.
  - rewrite (renderSubmissions_throw o st e R). simpl. discriminate.
Qed.

Lemma renderSubmissions_rows_witness :
  List.map row_details_id
    (submissionsBody
       (dom (snd (renderSubmissions (H := asciiHost)
                    (Some [submissionA; submissionB]) initialState))))
  = ["A"; "B"].
Proof.
  apply (renderSubmissions_rows (H := asciiHost)
           (Some [submissionA; submissionB]) initialState).
  reflexivity.
Defined.

Lemma renderSubmissions_throws_iff_witness :
  exists e,
    fst (renderSubmissions (H := asciiHost)
           (Some [submissionA; submissionNoStatus]) showingA) = Throw e.
Proof.
  apply (renderSubmissions_throws_iff (H := asciiHost)
           (Some [submissionA; submissionNoStatus]) showingA).
  exists submissionNoStatus. split; [right; left; reflexivity | left; reflexivity].
Defined.

(* --------------------------------------------------------------------- *)
(** ** More on the refresh *)
(* --------------------------------------------------------------------- *)

(** The state reached when both requests of a refresh have succeeded and
    the statistics have been written to the page. *)
Lemma loadDashboardData_both_succeed {H : Host} (net : Network) (st : State)
    (e1 e2 : Envelope) :
  fst (apiCall net "/api/submissions" "GET" st) = Normal (JObject e1) ->
  fst (apiCall net "/api/stats/overview" "GET" st) = Normal (JObject e2) ->
  let s3 := snd (updateStatistics
                   (set_statistics (orEmptyStatistics (env_statistics e2))
                      (set_submissions (orList (env_submissions e1))
                         (set_dom (with_loading "block" (dom st)) st)))) in
  loadDashboardData net st
  = match renderSubmissions None s3 with
    | (Normal _, s4) =>
        (Normal tt,
         set_dom
           (with_loading "none"
              (with_notification
                 {| notif_type := "success";
                    notif_text := "Data refreshed successfully" |} (dom s4)))
           s4)
    | (Throw _, s4) => (Normal tt, set_dom (with_loading "none" (dom s4)) s4)
    end.
Proof.
  intros E1 E2. cbv zeta.
  unfold loadDashboardData, tryFinally, tryCatch, bind, showLoading,
    showNotification, modifyDom, modify, updateStatistics.
  rewrite apiCall_run.
  rewrite apiCall_fst in E1, E2.
  rewrite (apiCall_try_indep net _ _ _ st), E1. simpl.
  rewrite apiCall_run.
  rewrite (apiCall_try_indep net _ _ _ st), E2. simpl.
  match goal with
  | |- context [renderSubmissions None ?s] =>
      destruct (renderSubmissions None s) as [[u | e] s4]
  end; reflexivity.
Qed.

(** X7.  A refresh whose two requests succeed and whose rows render
    replaces [submissions] and [statistics] by the fetched values
    (an absent list counts as empty, absent statistics as [{}]), shows
    one row per fetched submission, and adds exactly one notification, of
    type [success]. *)
Theorem loadDashboardData_success {H : Host} (net : Network) (st : State)
    (e1 e2 : Envelope) (rows : list Row) :
  fst (apiCall net "/api/submissions" "GET" st) = Normal (JObject e1) ->
  fst (apiCall net "/api/stats/overview" "GET" st) = Normal (JObject e2) ->
  renderRows (orList (env_submissions e1)) = inl rows ->
  let st' := snd (loadDashboardData net st) in
  submissions st' = orList (env_submissions e1)
  /\ statistics st' = orEmptyStatistics (env_statistics e2)
  /\ submissionsBody (dom st') = rows
  /\ List.length (submissionsBody (dom st'))
     = List.length (orList (env_submissions e1))
  /\ notifications (dom st')
     = (notifications (dom st)
        ++ [ {| notif_type := "success";
                notif_text := "Data refreshed successfully" |} ])%list.
Proof.
  intros E1 E2 R. cbv zeta.
  rewrite (loadDashboardData_both_succeed net st e1 e2 E1 E2).
  rewrite (renderSubmissions_normal None _ rows) by exact R.
  simpl. repeat split; try reflexivity.
  apply renderRows_length in R. exact R.
Qed.

Lemma loadDashboardData_success_witness :
  let net := always (okEnvelope (Some [submissionA; submissionB]) None) in
  let st' := snd (loadDashboardData (H := asciiHost) net showingA) in
  submissions st' = [submissionA; submissionB]
  /\ List.length (submissionsBody (dom st')) = 2%nat.
Proof.
  cbv zeta.
  destruct (loadDashboardData_success (H := asciiHost)
              (always (okEnvelope (Some [submissionA; submissionB]) None))
              showingA _ _ _ eq_refl eq_refl eq_refl)
    as [Hs [_ [_ [Hl _]]]].
  split; [exact Hs | exact Hl].
Defined.

(** X8.  [loadDashboardData] never throws and always ends with the
    loading indicator hidden, whatever the server answers and whatever
    the fetched records look like. *)
Theorem loadDashboardData_always_settles {H : Host} (net : Network)
    (st : State) :
  fst (loadDashboardData net st) = Normal tt
  /\ loadingIndicator_display (dom (snd (loadDashboardData net st))) = "none".
Proof.
  assert (E : exists s,
             loadDashboardData net st
             = (Normal tt, set_dom (with_loading "none" (dom s)) s)).
  { unfold loadDashboardData, tryFinally, tryCatch, showLoading, modifyDom,
      modify.
    unfold bind at 1.
    match goal with
    | |- context [bind ?m ?k ?s] => destruct (bind m k s) as [[u | e] s2]
    end; simpl; [destruct u |]; eexists; reflexivity. }
  destruct E as [s E]. rewrite E. split; reflexivity.
Qed.

(** X9.  When both requests succeed but a fetched record makes the row
    template throw, the refresh fails silently: the store holds the new
    list and statistics, the table body keeps its old rows (under an
    updated counter), and no notification at all is added. *)
Theorem loadDashboardData_render_failure_is_silent {H : Host} (net : Network)
    (st : State) (e1 e2 : Envelope) (e : Error) :
  fst (apiCall net "/api/submissions" "GET" st) = Normal (JObject e1) ->
  fst (apiCall net "/api/stats/overview" "GET" st) = Normal (JObject e2) ->
  renderRows (orList (env_submissions e1)) = inr e ->
  let st' := snd (loadDashboardData net st) in
  submissions st' = orList (env_submissions e1)
  /\ statistics st' = orEmptyStatistics (env_statistics e2)
  /\ submissionsBody (dom st') = submissionsBody (dom st)
  /\ submissionCount (dom st')
     = countText (List.length (orList (env_submissions e1)))
  /\ notifications (dom st') = notifications (dom st).
Proof.
  intros E1 E2 R. cbv zeta.
  rewrite (loadDashboardData_both_succeed net st e1 e2 E1 E2).
  rewrite (renderSubmissions_throw None _ e) by exact R.
  simpl. repeat split; reflexivity.
Qed.

Lemma loadDashboardData_render_failure_is_silent_witness :
  let net := always (okEnvelope (Some [submissionNoStatus]) None) in
  let st' := snd (loadDashboardData (H := asciiHost) net showingA) in
  submissions st' = [submissionNoStatus]
  /\ submissionsBody (dom st') = submissionsBody (dom showingA)
  /\ notifications (dom st') = [].
Proof.
  cbv zeta.
  destruct (loadDashboardData_render_failure_is_silent (H := asciiHost)
              (always (okEnvelope (Some [submissionNoStatus]) None))
              showingA _ _ _ eq_refl eq_refl eq_refl)
    as [Hs [_ [Hb [_ Hn]]]].
  split; [exact Hs |]. split; [exact Hb | exact Hn].
Defined.

(* --------------------------------------------------------------------- *)
(** ** What a piece of script leaves alone *)
(* --------------------------------------------------------------------- *)

Section Preservation.

Context {X : Type} (f : State -> X).

Lemma preserves_ret {A : Type} (a : A) : preserves f (ret a).
Proof. intros st. reflexivity. Qed.

Lemma preserves_throw {A : Type} (e : Error) : preserves f (@throw A e).
Proof. intros st. reflexivity. Qed.

Lemma preserves_gets {A : Type} (g : State -> A) : preserves f (gets g).
Proof. intros st. reflexivity. Qed.

Lemma preserves_modify (g : State -> State) :
  (forall st, f (g st) = f st) -> preserves f (modify g).
Proof. intros G st. apply G. Qed.

Lemma preserves_bind {A B : Type} (m : JS A) (k : A -> JS B) :
  preserves f m -> (forall a, preserves f (k a)) -> preserves f (bind m k).
Proof.
  intros Pm Pk st. unfold bind.
  specialize (Pm st). destruct (m st) as [[a | e] st1]; simpl in *.
  - rewrite (Pk a st1). exact Pm.
  - exact Pm.
Qed.

Lemma preserves_tryCatch {A : Type} (m : JS A) (h : Error -> JS A) :
  preserves f m -> (forall e, preserves f (h e)) -> preserves f (tryCatch m h).
Proof.
  intros Pm Ph st. unfold tryCatch.
  specialize (Pm st). destruct (m st) as [[a | e] st1]; simpl in *.
  - exact Pm.
  - rewrite (Ph e st1). exact Pm.
Qed.

Lemma preserves_tryFinally {A : Type} (m : JS A) (final : JS unit) :
  preserves f m -> preserves f final -> preserves f (tryFinally m final).
Proof.
  intros Pm Pf st. unfold tryFinally.
  specialize (Pm st). destruct (m st) as [c st1]. simpl in Pm.
  specialize (Pf st1). destruct (final st1) as [[u | e] st2]; simpl in *;
    congruence.
Qed.

Lemma preserves_apiCall (net : Network) (endpoint method : string) :
  (forall e st, f (notifyError e st) = f st) ->
  preserves f (apiCall net endpoint method).
Proof.
  intros N st. rewrite apiCall_run.
  destruct (fst (apiCall_try net endpoint method st)); simpl; [reflexivity |].
  apply N.
Qed.

Lemma preserves_readProp {A : Type} (name : string) (g : Envelope -> option A)
    (d : Data) :
  preserves f (readProp name g d).
Proof. intros st. destruct d; reflexivity. Qed.

End Preservation.

(** The table render leaves everything but the table alone. *)
Lemma preserves_renderSubmissions {H : Host} {X : Type} (f : State -> X)
    (o : option (list Submission)) :
  (forall n ro st, f (set_dom (renderedDom n ro (dom st)) st) = f st) ->
  preserves f (renderSubmissions o).
Proof.
  intros F st.
  destruct (renderRows (match o with Some l => l | None => submissions st end))
    as [rows | e] eqn:R.
  - rewrite (renderSubmissions_normal o st rows R). apply F.
  - rewrite (renderSubmissions_throw o st e R). apply F.
Qed.

Lemma preserves_filterSubmissions {H : Host} {X : Type} (f : State -> X) :
  (forall n ro st, f (set_dom (renderedDom n ro (dom st)) st) = f st) ->
  preserves f filterSubmissions.
Proof.
  intros F. unfold filterSubmissions.
  do 3 (apply preserves_bind; [apply preserves_gets | intros ?]).
  apply preserves_renderSubmissions, F.
Qed.

Lemma preserves_loadDashboardData {H : Host} {X : Type} (f : State -> X)
    (net : Network) :
  (forall n ro st, f (set_dom (renderedDom n ro (dom st)) st) = f st) ->
  (forall e st, f (notifyError e st) = f st) ->
  (forall v st, f (set_dom (with_loading v (dom st)) st) = f st) ->
  (forall n st, f (set_dom (with_notification n (dom st)) st) = f st) ->
  (forall v st, f (set_submissions v st) = f st) ->
  (forall v st, f (set_statistics v st) = f st) ->
  (forall st, f (snd (updateStatistics st)) = f st) ->
  preserves f (loadDashboardData net).
Proof.
  intros Fr Fe Fl Fn Fs Ft Fu. unfold loadDashboardData.
  apply preserves_bind; [apply preserves_modify; intros; apply Fl | intros _].
  apply preserves_tryFinally; [| apply preserves_modify; intros; apply Fl].
  apply preserves_tryCatch; [| intros; apply preserves_ret].
  apply preserves_bind; [apply preserves_apiCall, Fe | intros d1].
  apply preserves_bind; [apply preserves_readProp | intros subs].
  apply preserves_bind; [apply preserves_modify; intros; apply Fs | intros _].
  apply preserves_bind; [apply preserves_apiCall, Fe | intros d2].
  apply preserves_bind; [apply preserves_readProp | intros stats].
  apply preserves_bind; [apply preserves_modify; intros; apply Ft | intros _].
  apply preserves_bind; [exact Fu | intros _].
  apply preserves_bind; [apply preserves_renderSubmissions, Fr | intros _].
  apply preserves_modify; intros; apply Fn.
Qed.

Lemma preserves_sortTable {H : Host} {X : Type} (f : State -> X)
    (column : ColumnKey) (type : ColumnType) :
  (forall n ro st, f (set_dom (renderedDom n ro (dom st)) st) = f st) ->
  (forall c d st, f (set_sort c d st) = f st) ->
  (forall v st, f (set_submissions v st) = f st) ->
  (forall v st, f (set_dom (with_sortIndicator v (dom st)) st) = f st) ->
  preserves f (sortTable column type).
Proof.
  intros Fr Fs Fl Fi. unfold sortTable.
  apply preserves_bind; [apply preserves_modify | intros _].
  { intros st. destruct (nextSort _ _ _). apply Fs. }
  apply preserves_bind; [apply preserves_modify; intros; apply Fl | intros _].
  apply preserves_bind; [apply preserves_modify; intros; apply Fi | intros _].
  apply preserves_filterSubmissions, Fr.
Qed.

(** X10.  A refresh neither reads nor changes the view state: the search
    text, the status filter, the sort column and direction and the header
    arrow are after [loadDashboardData] what they were before, whatever
    the outcome. *)
Theorem loadDashboardData_keeps_view_state {H : Host} (net : Network)
    (st : State) :
  let st' := snd (loadDashboardData net st) in
  searchInput (dom st') = searchInput (dom st)
  /\ statusFilter (dom st') = statusFilter (dom st)
  /\ sortColumn st' = sortColumn st
  /\ sortDirection st' = sortDirection st
  /\ sortIndicator (dom st') = sortIndicator (dom st).
Proof.
  cbv zeta.
  assert (P : preserves (fun s => (viewState s, sortIndicator (dom s)))
                (loadDashboardData net)).
  { apply preserves_loadDashboardData; try reflexivity.
    intros n [rows |] s; reflexivity. }
  specialize (P st). unfold viewState in P. inversion P. repeat split; assumption.
Qed.

(* --------------------------------------------------------------------- *)
(** ** More on the monitoring toggle *)
(* --------------------------------------------------------------------- *)

Lemma In_classList_remove (c x : string) (l : list string) :
  In x (classList_remove c l) <-> In x l /\ x <> c.
Proof.
  unfold classList_remove. rewrite filter_In, negb_true_iff, String.eqb_neq.
  reflexivity.
Qed.

Lemma In_classList_add (c x : string) (l : list string) :
  In x (classList_add c l) <-> In x l \/ x = c.
Proof.
  unfold classList_add. destruct (existsb (String.eqb c) l) eqn:E.
  - split; [auto |]. intros [I | ->]; [exact I |].
    apply existsb_exists in E. destruct E as [y [I Ey]].
    apply String.eqb_eq in Ey. subst. exact I.
  - rewrite in_app_iff. simpl. intuition.
Qed.

(** [updateMonitoringUI] makes the display agree with [monitoringActive],
    whatever the display showed before. *)
Lemma updateMonitoringUI_consistent (st : State) :
  monitoringConsistent (snd (updateMonitoringUI st)).
Proof.
  unfold updateMonitoringUI, modify, monitoringConsistent. cbn [snd].
  destruct (monitoringActive st) eqn:A; simpl; rewrite A;
    repeat split; try reflexivity; try discriminate;
    rewrite ?In_classList_add, ?In_classList_remove; intuition congruence.
Qed.

Lemma monitoringConsistent_view (st st' : State) :
  monitoringView st' = monitoringView st ->
  monitoringConsistent st -> monitoringConsistent st'.
Proof.
  unfold monitoringView, monitoringConsistent. intros E. inversion E. congruence.
Qed.

(** The three monitoring handlers, run on any page. *)
Lemma monitoring_handler_consistent (net : Network) (endpoint method : string)
    (onSuccess : Data -> JS unit) (st : State) :
  (forall d s, monitoringConsistent s ->
               monitoringConsistent (snd (onSuccess d s))) ->
  monitoringConsistent st ->
  monitoringConsistent
    (snd (tryCatch (bind (apiCall net endpoint method) onSuccess)
            (fun _ => ret tt) st)).
Proof.
  intros S C. unfold tryCatch, bind. rewrite apiCall_run.
  destruct (fst (apiCall_try net endpoint method st)) as [d | e].
  - specialize (S d st C). destruct (onSuccess d st) as [[u | e] s2]; exact S.
  - simpl. eapply monitoringConsistent_view; [| exact C]. reflexivity.
Qed.

(** X11.  Every handler keeps the monitoring display consistent with
    [monitoringActive]: if exactly one of the start and stop buttons is
    enabled, matching the flag, the status text and the status dot, then
    so it is after [startMonitoring], [stopMonitoring],
    [checkMonitoringStatus], [loadDashboardData], [filterSubmissions] and
    [sortTable], whatever the server answers. *)
Theorem handlers_keep_monitoring_consistent {H : Host} (net : Network)
    (column : ColumnKey) (type : ColumnType) (st : State) :
  monitoringConsistent st ->
  monitoringConsistent (snd (startMonitoring net st))
  /\ monitoringConsistent (snd (stopMonitoring net st))
  /\ monitoringConsistent (snd (checkMonitoringStatus net st))
  /\ monitoringConsistent (snd (loadDashboardData net st))
  /\ monitoringConsistent (snd (filterSubmissions st))
  /\ monitoringConsistent (snd (sortTable column type st)).
Proof.
  intros C.
  assert (Notif : forall n s,
             monitoringConsistent s ->
             monitoringConsistent (set_dom (with_notification n (dom s)) s)).
  { intros n s. apply monitoringConsistent_view. reflexivity. }
  assert (View : forall (m : JS unit),
             preserves monitoringView m -> monitoringConsistent (snd (m st))).
  { intros m P. eapply monitoringConsistent_view; [apply P | exact C]. }
  split; [| split; [| split; [| split; [| split]]]].
  - apply monitoring_handler_consistent; [| exact C]. intros d s _.
    unfold bind, modify, showNotification, modifyDom, modify.
    cbn [fst snd]. apply Notif.
    apply (updateMonitoringUI_consistent (set_monitoringActive true s)).
  - apply monitoring_handler_consistent; [| exact C]. intros d s _.
    unfold bind, modify, showNotification, modifyDom, modify.
    cbn [fst snd]. apply Notif.
    apply (updateMonitoringUI_consistent (set_monitoringActive false s)).
  - apply monitoring_handler_consistent; [| exact C]. intros d s Cs.
    unfold bind, modify, readProp. destruct d as [| env].
    + exact Cs.
    + cbn [fst snd ret].
      apply (updateMonitoringUI_consistent
               (set_monitoringActive
                  (truthyBool (env_monitoring_active env)) s)).
  - apply View. apply preserves_loadDashboardData; try reflexivity.
    intros n [rows |] s; reflexivity.
  - apply View. apply preserves_filterSubmissions.
    intros n [rows |] s; reflexivity.
  - apply View. apply preserves_sortTable; try reflexivity.
    intros n [rows |] s; reflexivity.
Qed.

Lemma handlers_keep_monitoring_consistent_witness :
  monitoringConsistent
    (snd (startMonitoring offline (snd (updateMonitoringUI initialState)))).
Proof.
  apply (handlers_keep_monitoring_consistent (H := asciiHost) offline
           K_score T_number (snd (updateMonitoringUI initialState))).
  apply updateMonitoringUI_consistent.
Defined.

(** X12.  [stopMonitoring] mirrors [startMonitoring]: a failed request
    leaves [monitoringActive] and its display alone and adds one error
    notification; a successful one makes the flag [false], enables the
    start button only, and adds one notification of type [info]. *)
Theorem stopMonitoring_no_optimistic_update (net : Network) (st : State) :
  let st' := snd (stopMonitoring net st) in
  fst (stopMonitoring net st) = Normal tt
  /\ match fst (apiCall net "/api/monitor/stop" "POST" st) with
     | Throw e =>
         monitoringView st' = monitoringView st
         /\ notifications (dom st')
            = (notifications (dom st)
               ++ [ {| notif_type := "error";
                       notif_text := "Error: " ++ err_message e |} ])%list
     | Normal _ =>
         monitoringActive st' = false
         /\ statusText (dom st') = "Inactive"
         /\ startMonitoringBtn_disabled (dom st') = false
         /\ stopMonitoringBtn_disabled (dom st') = true
         /\ notifications (dom st')
            = (notifications (dom st)
               ++ [ {| notif_type := "info";
                       notif_text := "Monitoring stopped" |} ])%list
     end.
Proof.
  cbv zeta. unfold stopMonitoring, tryCatch, bind.
  rewrite apiCall_fst, apiCall_run.
  destruct (fst (apiCall_try net "/api/monitor/stop" "POST" st)) as [d | e];
    simpl; repeat split; reflexivity.
Qed.

(** X13.  [checkMonitoringStatus] copies the server's flag: when the
    request succeeds, [monitoringActive] becomes the truth value of
    [monitoring_active] (a missing field counts as inactive) and the
    display follows, without any notification; when it fails, the flag
    and its display are left alone and one error notification is added. *)
Theorem checkMonitoringStatus_mirrors_server (net : Network) (st : State) :
  let st' := snd (checkMonitoringStatus net st) in
  fst (checkMonitoringStatus net st) = Normal tt
  /\ match fst (apiCall net "/api/monitor/status" "GET" st) with
     | Throw e =>
         monitoringView st' = monitoringView st
         /\ notifications (dom st')
            = (notifications (dom st)
               ++ [ {| notif_type := "error";
                       notif_text := "Error: " ++ err_message e |} ])%list
     | Normal d =>
         monitoringActive st'
         = truthyBool (readPropOpt env_monitoring_active d)
         /\ startMonitoringBtn_disabled (dom st') = monitoringActive st'
         /\ stopMonitoringBtn_disabled (dom st') = negb (monitoringActive st')
         /\ notifications (dom st') = notifications (dom st)
     end.
Proof.
  cbv zeta.
  destruct (fst (apiCall net "/api/monitor/status" "GET" st)) as [d | e] eqn:E.
  - destruct (apiCall_normal_object _ _ _ _ _ E) as [env [-> _]].
    unfold checkMonitoringStatus, tryCatch, bind.
    rewrite (apiCall_normal _ _ _ _ _ E). simpl.
    destruct (truthyBool (env_monitoring_active env)); repeat split; reflexivity.
  - unfold checkMonitoringStatus, tryCatch, bind.
    rewrite (apiCall_throw _ _ _ _ _ E). simpl. repeat split; reflexivity.
Qed.

(* --------------------------------------------------------------------- *)
(** ** More on the filter *)
(* --------------------------------------------------------------------- *)

Lemma string_append_assoc (a b c : string) : (a ++ b) ++ c = a ++ (b ++ c).
Proof.
  induction a as [| x a IH]; simpl; [reflexivity | rewrite IH; reflexivity].
Qed.

Lemma includes_trans (s t u : string) :
  JsString.includes s t = true -> JsString.includes t u = true ->
  JsString.includes s u = true.
Proof.
  rewrite !includes_spec. intros [a [b ->]] [a' [b' ->]].
  exists (a ++ a'), (b' ++ b).
  rewrite !string_append_assoc. reflexivity.
Qed.

(** Extending the search text can only narrow the match. *)
Lemma filterPredicate_narrows (search search' statusF : string)
    (s : Submission) :
  JsString.includes (JsString.toLowerCase search')
    (JsString.toLowerCase search) = true ->
  filterPredicate search' statusF s = true ->
  filterPredicate search statusF s = true.
Proof.
  intros Inc. unfold filterPredicate, matchesSearch, fieldMatches.
  rewrite !andb_true_iff, !orb_true_iff.
  assert (F : forall o : option string,
             match o with
             | Some x =>
                 (JsString.truthy x
                  && JsString.includes (JsString.toLowerCase x)
                       (JsString.toLowerCase search'))%bool
             | None => false
             end = true ->
             match o with
             | Some x =>
                 (JsString.truthy x
                  && JsString.includes (JsString.toLowerCase x)
                       (JsString.toLowerCase search))%bool
             | None => false
             end = true).
  { intros [x |]; [| discriminate]. rewrite !andb_true_iff.
    intros [T I]. split; [exact T |]. eapply includes_trans; eassumption. }
  intros [[[M | M] | M] St]; (split; [| exact St]); auto.
Qed.

(** X15.  Typing more never adds rows: when the new search text contains
    the old one (ignoring case), the newly filtered list is the old
    filtered list with some submissions left out, in the same order. *)
Theorem filtered_narrows (search search' statusF : string)
    (l : list Submission) :
  JsString.includes (JsString.toLowerCase search')
    (JsString.toLowerCase search) = true ->
  Subsequence (filtered search' statusF l) (filtered search statusF l).
Proof.
  intros Inc. unfold filtered.
  induction l as [| s l IH]; simpl; [constructor |].
  destruct (filterPredicate search' statusF s) eqn:P'.
  - rewrite (filterPredicate_narrows search search' statusF s Inc P').
    constructor. exact IH.
  - destruct (filterPredicate search statusF s); [constructor |]; exact IH.
Qed.

Lemma filtered_narrows_witness :
  Subsequence
    (filtered "John S" "" [evaluatedWithoutAssessment; submissionNoStatus])
    (filtered "john" "" [evaluatedWithoutAssessment; submissionNoStatus]).
Proof.
  apply (filtered_narrows "john" "John S" ""). reflexivity.
Defined.

(** X16.  [filterSubmissions] only redraws: the store ([submissions],
    [statistics], [monitoringActive]), the view state, the displayed
    statistics and the notifications are what they were, also when the
    row template throws. *)
Theorem filterSubmissions_only_redraws {H : Host} (st : State) :
  let st' := snd (filterSubmissions st) in
  submissions st' = submissions st
  /\ statistics st' = statistics st
  /\ monitoringActive st' = monitoringActive st
  /\ viewState st' = viewState st
  /\ notifications (dom st') = notifications (dom st)
  /\ (totalSubmissions (dom st'), evaluatedCell (dom st'),
      pendingCell (dom st'), avgScore (dom st'), passRate (dom st'))
     = (totalSubmissions (dom st), evaluatedCell (dom st),
        pendingCell (dom st), avgScore (dom st), passRate (dom st)).
Proof.
  cbv zeta.
  assert (P : preserves
                (fun s => (submissions s, statistics s, monitoringActive s,
                           viewState s, notifications (dom s),
                           (totalSubmissions (dom s), evaluatedCell (dom s),
                            pendingCell (dom s), avgScore (dom s),
                            passRate (dom s))))
                filterSubmissions).
  { apply preserves_filterSubmissions. intros n [rows |] s; reflexivity. }
  specialize (P st). inversion P. repeat split; congruence.
Qed.

(** X17.  With a non-empty status filter, every submission that passes
    has exactly that status; the comparison is the strict one, so a
    missing status or a status in another case does not pass. *)
Theorem filtered_status_exact (search statusF : string)
    (l : list Submission) (x : Submission) :
  statusF <> "" ->
  In x (filtered search statusF l) ->
  status x = Some statusF.
Proof.
  intros Ne I. unfold filtered in I. apply filter_In in I.
  destruct I as [_ P]. apply filterPredicate_spec in P.
  destruct P as [_ [E | E]]; [contradiction | exact E].
Qed.

Lemma filtered_status_exact_witness :
  status evaluatedWithoutAssessment = Some "evaluated"
  /\ filtered "" "Evaluated" [evaluatedWithoutAssessment] = [].
Proof.
  split; [| reflexivity].
  apply (filtered_status_exact "" "evaluated"
           [evaluatedWithoutAssessment; submissionNoStatus]).
  - discriminate.
  - left. reflexivity.
Defined.

(* --------------------------------------------------------------------- *)
(** ** More on sorting *)
(* --------------------------------------------------------------------- *)

Lemma StronglySorted_weaken {A : Type} (R R' : A -> A -> Prop) (l : list A) :
  (forall x y, R x y -> R' x y) -> StronglySorted R l -> StronglySorted R' l.
Proof.
  intros W. induction 1 as [| x l S IH F]; constructor.
  - exact IH.
  - eapply Forall_impl; [| exact F]. intros y. apply W.
Qed.

(** X18.  [sortTable] on the score column leaves [submissions] a
    rearrangement of what it was, in score order: non-decreasing keys
    when the resulting direction is ascending, non-increasing when it is
    descending (the key of a submission without a total score is -1). *)
Theorem sortTable_score_ordered {H : Host} (st : State) :
  let st' := snd (sortTable K_score T_number st) in
  Permutation (submissions st') (submissions st)
  /\ StronglySorted
       (fun a b => match sortDirection st' with
                   | asc => (scoreKey a <= scoreKey b)%Q
                   | desc => (scoreKey b <= scoreKey a)%Q
                   end)
       (submissions st').
Proof.
  cbv zeta. destruct (sortTable_store K_score T_number st) as [_ [Hd Hs]].
  rewrite Hs, Hd. split; [apply Array_sort_perm |].
  set (dir := snd (nextSort (sortColumn st) (sortDirection st) K_score)).
  eapply StronglySorted_weaken;
    [| apply (Array_sort_sorted _ (notAfter_score_total dir)
                (notAfter_score_trans dir))].
  intros x y L. apply (notAfter_score dir) in L. exact L.
Qed.

(** X19.  The score sort is stable in both directions: submissions with
    the same score key as any given one keep the relative order they had
    in the store. *)
Theorem sortTable_score_stable {H : Host} (st : State) (z : Submission) :
  let st' := snd (sortTable K_score T_number st) in
  List.filter (fun u => Qeq_bool (scoreKey u) (scoreKey z)) (submissions st')
  = List.filter (fun u => Qeq_bool (scoreKey u) (scoreKey z)) (submissions st).
Proof.
  cbv zeta. destruct (sortTable_store K_score T_number st) as [_ [_ Hs]].
  rewrite Hs.
  set (dir := snd (nextSort (sortColumn st) (sortDirection st) K_score)).
  assert (E : forall u,
             Qeq_bool (scoreKey u) (scoreKey z)
             = (notAfter (compareFn dir K_score T_number) z u
                && notAfter (compareFn dir K_score T_number) u z)%bool).
  { intros u. apply eq_true_iff_eq.
    rewrite andb_true_iff, !notAfter_score, Qeq_bool_iff.
    destruct dir; split; intros; lra. }
  rewrite (filter_ext _ _ E (Array_sort _ _)), (filter_ext _ _ E (submissions st)).
  apply (Array_sort_stable _ (notAfter_score_trans dir) z).
Qed.

(** The callback of a column of type ['string'] orders by the collation
    of [stringKey]. *)
Lemma notAfter_string {H : Host} (dir : Direction) (column : ColumnKey)
    (x y : Submission) :
  notAfter (compareFn dir column T_string) x y = true
  <-> match dir with
      | asc => localeCompare (stringKey column x) (stringKey column y) <= 0
      | desc => 0 <= localeCompare (stringKey column x) (stringKey column y)
      end.
Proof.
  unfold notAfter, compareFn, comparison, stringKey.
  destruct dir; simpl; rewrite Qle_bool_iff; unfold Qle, Qopp, inject_Z; simpl;
    lia.
Qed.

Section StringOrder.

Context {H : Host} (laws : HostLaws H) (dir : Direction) (column : ColumnKey).

Lemma notAfter_string_total (x y : Submission) :
  notAfter (compareFn dir column T_string) x y = false ->
  notAfter (compareFn dir column T_string) y x = true.
Proof.
  intros E. apply notAfter_string.
  assert (N : ~ notAfter (compareFn dir column T_string) x y = true)
    by congruence.
  rewrite notAfter_string in N.
  pose proof (localeCompare_antisym H laws (stringKey column x)
                (stringKey column y)) as S.
  destruct dir; lia.
Qed.

Lemma notAfter_string_trans (x y z : Submission) :
  notAfter (compareFn dir column T_string) x y = true ->
  notAfter (compareFn dir column T_string) y z = true ->
  notAfter (compareFn dir column T_string) x z = true.
Proof.
  rewrite !notAfter_string. destruct dir.
  - apply (localeCompare_trans H laws).
  - intros Hxy Hyz.
    pose proof (localeCompare_antisym H laws (stringKey column x)
                  (stringKey column y)) as S1.
    pose proof (localeCompare_antisym H laws (stringKey column y)
                  (stringKey column z)) as S2.
    pose proof (localeCompare_antisym H laws (stringKey column x)
                  (stringKey column z)) as S3.
    pose proof (localeCompare_trans H laws (stringKey column z)
                  (stringKey column y) (stringKey column x)) as T.
    lia.
Qed.

End StringOrder.

(** X20.  On a host whose collation is consistent, [sortTable] on a
    column of type ['string'] (student id, student name, file name,
    status, grade) leaves [submissions] in collation order of the
    column's text, a missing text counting as [''] (as ['Z'] for the
    grade): upwards when the resulting direction is ascending, downwards
    when it is descending. *)
Theorem sortTable_string_ordered {H : Host} (column : ColumnKey) (st : State) :
  HostLaws H ->
  let st' := snd (sortTable column T_string st) in
  Permutation (submissions st') (submissions st)
  /\ StronglySorted
       (fun a b => match sortDirection st' with
                   | asc =>
                       localeCompare (stringKey column a) (stringKey column b) <= 0
                   | desc =>
                       localeCompare (stringKey column b) (stringKey column a) <= 0
                   end)
       (submissions st').
Proof.
  intros laws. cbv zeta.
  destruct (sortTable_store column T_string st) as [_ [Hd Hs]].
  rewrite Hs, Hd. split; [apply Array_sort_perm |].
  set (dir := snd (nextSort (sortColumn st) (sortDirection st) column)).
  eapply StronglySorted_weaken;
    [| apply (Array_sort_sorted _ (notAfter_string_total laws dir column)
                (notAfter_string_trans laws dir column))].
  intros x y L. apply (notAfter_string dir) in L.
  pose proof (localeCompare_antisym H laws (stringKey column x)
                (stringKey column y)) as S.
  destruct dir; lia.
Qed.

Lemma sortTable_string_ordered_witness :
  submissions
    (snd (sortTable (H := asciiHost) K_student_name T_string
            (set_submissions [submissionNoStatus; evaluatedWithoutAssessment;
                              submissionA] initialState)))
  = [submissionA; submissionNoStatus; evaluatedWithoutAssessment]
  /\ Permutation
       (submissions
          (snd (sortTable (H := asciiHost) K_student_name T_string
                  (set_submissions [submissionNoStatus;
                                    evaluatedWithoutAssessment;
                                    submissionA] initialState))))
       [submissionNoStatus; evaluatedWithoutAssessment; submissionA].
Proof.
  split; [reflexivity |].
  apply (sortTable_string_ordered (H := asciiHost) K_student_name
           (set_submissions [submissionNoStatus; evaluatedWithoutAssessment;
                             submissionA] initialState) asciiHost_laws).
Defined.

(** The sort only consults the comparator on the elements of the array. *)
Lemma sortInsert_ext_in {A : Type} (c c' : A -> A -> option Q) (x : A)
    (l : list A) :
  (forall y, In y l -> c x y = c' x y) ->
  sortInsert c x l = sortInsert c' x l.
Proof.
  induction l as [| y l IH]; intros E; simpl; [reflexivity |].
  unfold notAfter. rewrite (E y (or_introl eq_refl)).
  destruct (match c' x y with Some v => Qle_bool v 0 | None => true end);
    [reflexivity |].
  rewrite IH; [reflexivity |]. intros z I. apply E. right; exact I.
Qed.

Lemma Array_sort_ext_in {A : Type} (c c' : A -> A -> option Q) (l : list A) :
  (forall x y, In x l -> In y l -> c x y = c' x y) ->
  Array_sort c l = Array_sort c' l.
Proof.
  induction l as [| x l IH]; intros E; simpl; [reflexivity |].
  rewrite IH by (intros; apply E; right; assumption).
  apply sortInsert_ext_in. intros y I. apply E; [left; reflexivity |].
  right. eapply Permutation_in; [apply Array_sort_perm | exact I].
Qed.

(** The date callback on two submissions whose dates parse. *)
Lemma compareFn_date {H : Host} (dir : Direction) (x y : Submission) (tx ty : Z) :
  submittedTime x = Some tx -> submittedTime y = Some ty ->
  compareFn dir K_submitted_at T_date x y
  = match dir with
    | asc => Some (inject_Z (tx - ty))
    | desc => Some (- inject_Z (tx - ty))%Q
    end.
Proof.
  unfold submittedTime, compareFn, comparison. intros -> ->.
  destruct dir; reflexivity.
Qed.

(** X21.  When the date of every submission in the store parses,
    [sortTable] on the date column leaves [submissions] in chronological
    order: earliest first when the resulting direction is ascending,
    latest first when it is descending. *)
Theorem sortTable_date_ordered {H : Host} (st : State) :
  (forall s, In s (submissions st) -> submittedTime s <> None) ->
  let st' := snd (sortTable K_submitted_at T_date st) in
  Permutation (submissions st') (submissions st)
  /\ StronglySorted
       (fun a b =>
          forall ta tb, submittedTime a = Some ta -> submittedTime b = Some tb ->
                        match sortDirection st' with
                        | asc => ta <= tb
                        | desc => tb <= ta
                        end)
       (submissions st').
Proof.
  intros Valid. cbv zeta.
  destruct (sortTable_store K_submitted_at T_date st) as [_ [Hd Hs]].
  rewrite Hs, Hd. split; [apply Array_sort_perm |].
  set (dir := snd (nextSort (sortColumn st) (sortDirection st) K_submitted_at)).
  set (key := fun a : Submission =>
                match submittedTime a with Some t => t | None => 0 end).
  set (c' := fun a b : Submission =>
               match dir with
               | asc => Some (inject_Z (key a - key b))
               | desc => Some (- inject_Z (key a - key b))%Q
               end).
  assert (E : Array_sort (compareFn dir K_submitted_at T_date) (submissions st)
              = Array_sort c' (submissions st)).
  { apply Array_sort_ext_in. intros x y Ix Iy.
    pose proof (Valid x Ix) as Vx. pose proof (Valid y Iy) as Vy.
    destruct (submittedTime x) as [tx |] eqn:Tx; [| contradiction].
    destruct (submittedTime y) as [ty |] eqn:Ty; [| contradiction].
    rewrite (compareFn_date dir x y tx ty Tx Ty).
    unfold c', key. rewrite Tx, Ty. reflexivity. }
  rewrite E.
  assert (N : forall x y,
             notAfter c' x y = true
             <-> match dir with
                 | asc => key x <= key y
                 | desc => key y <= key x
                 end).
  { intros x y. unfold notAfter, c'.
    destruct dir; rewrite Qle_bool_iff; unfold Qle, Qopp, inject_Z; simpl; lia. }
  assert (Tot : forall x y, notAfter c' x y = false -> notAfter c' y x = true).
  { intros x y F. apply N.
    assert (NF : ~ notAfter c' x y = true) by congruence.
    rewrite N in NF. destruct dir; lia. }
  assert (Tr : forall x y z, notAfter c' x y = true -> notAfter c' y z = true ->
                             notAfter c' x z = true).
  { intros x y z. rewrite !N. destruct dir; lia. }
  eapply StronglySorted_weaken; [| apply (Array_sort_sorted c' Tot Tr)].
  intros a b L ta tb Ta Tb. apply N in L. unfold key in L.
  rewrite Ta, Tb in L. exact L.
Qed.

Lemma sortTable_date_ordered_witness :
  let dated (i t : string) :=
    {| _id := i; student_id := None; student_name := None; file_name := None;
       submitted_at := Some t; status := Some "pending"; assessment := None |} in
  Permutation
    (submissions
       (snd (sortTable (H := asciiHost) K_submitted_at T_date
               (set_submissions [dated "late" "2000"; dated "early" "1000"]
                  initialState))))
    [dated "late" "2000"; dated "early" "1000"].
Proof.
  cbv zeta.
  apply (sortTable_date_ordered (H := asciiHost)
           (set_submissions
              [ {| _id := "late"; student_id := None; student_name := None;
                   file_name := None; submitted_at := Some "2000";
                   status := Some "pending"; assessment := None |};
                {| _id := "early"; student_id := None; student_name := None;
                   file_name := None; submitted_at := Some "1000";
                   status := Some "pending"; assessment := None |} ]
              initialState)).
  intros s [<- | [<- | []]]; discriminate.
Defined.

(** X22.  A submission whose date is missing or does not parse compares
    as equal to every submission under the date callback, in both
    directions and on both sides. *)
Theorem compareFn_date_unparsable_ties {H : Host} (dir : Direction)
    (x y : Submission) :
  submittedTime x = None ->
  notAfter (compareFn dir K_submitted_at T_date) x y = true
  /\ notAfter (compareFn dir K_submitted_at T_date) y x = true.
Proof.
  unfold submittedTime, notAfter, compareFn, comparison. intros ->.
  destruct (dateValue (sortValue K_submitted_at y)); destruct dir; split;
    reflexivity.
Qed.

(** With such a submission the callback is not transitive: it ties with
    an earlier and with a later submission, which do not tie. *)
Lemma compareFn_date_unparsable_ties_witness :
  let dated (t : option string) :=
    {| _id := "d"; student_id := None; student_name := None; file_name := None;
       submitted_at := t; status := Some "pending"; assessment := None |} in
  notAfter (compareFn (H := asciiHost) asc K_submitted_at T_date)
    (dated (Some "2000")) (dated None) = true
  /\ notAfter (compareFn (H := asciiHost) asc K_submitted_at T_date)
       (dated None) (dated (Some "1000")) = true
  /\ notAfter (compareFn (H := asciiHost) asc K_submitted_at T_date)
       (dated (Some "2000")) (dated (Some "1000")) = false.
Proof.
  cbv zeta. split; [| split].
  - apply (compareFn_date_unparsable_ties (H := asciiHost) asc
             {| _id := "d"; student_id := None; student_name := None;
                file_name := None; submitted_at := None;
                status := Some "pending"; assessment := None |}).
    reflexivity.
  - apply (compareFn_date_unparsable_ties (H := asciiHost) asc
             {| _id := "d"; student_id := None; student_name := None;
                file_name := None; submitted_at := None;
                status := Some "pending"; assessment := None |}).
    reflexivity.
  - reflexivity.
Defined.

(** X23.  For every column and column type, [sortTable] keeps the records:
    the new [submissions] is a rearrangement of the old one, and the
    statistics, the monitoring state, the search text, the status filter,
    the displayed statistics and the notifications are untouched, also
    when the row template throws. *)
Theorem sortTable_only_reorders {H : Host} (column : ColumnKey)
    (type : ColumnType) (st : State) :
  let st' := snd (sortTable column type st) in
  Permutation (submissions st') (submissions st)
  /\ statistics st' = statistics st
  /\ monitoringView st' = monitoringView st
  /\ searchInput (dom st') = searchInput (dom st)
  /\ statusFilter (dom st') = statusFilter (dom st)
  /\ notifications (dom st') = notifications (dom st).
Proof.
  cbv zeta. destruct (sortTable_store column type st) as [_ [_ Hs]].
  split; [rewrite Hs; apply Array_sort_perm |].
  assert (P : preserves
                (fun s => (statistics s, monitoringView s, searchInput (dom s),
                           statusFilter (dom s), notifications (dom s)))
                (sortTable column type)).
  { apply preserves_sortTable; try reflexivity.
    intros n [rows |] s; reflexivity. }
  specialize (P st). inversion P. repeat split; congruence.
Qed.

Lemma nextSort_column (current : option ColumnKey) (direction : Direction)
    (column : ColumnKey) :
  fst (nextSort current direction column) = Some column.
Proof.
  unfold nextSort, sameColumn. destruct current as [c |]; [| reflexivity].
  destruct (ColumnKey_eqb c column) eqn:E; [| reflexivity].
  destruct c, column; try discriminate; reflexivity.
Qed.

(** X24.  After [sortTable] the header arrow is on the column just
    clicked and points the way of [sortDirection], also when the row
    template throws. *)
Theorem sortTable_indicator {H : Host} (column : ColumnKey)
    (type : ColumnType) (st : State) :
  let st' := snd (sortTable column type st) in
  sortIndicator (dom st') = Some (column, sortDirection st').
Proof.
  cbv zeta.
  assert (P : preserves
                (fun s => (sortIndicator (dom s), sortDirection s))
                filterSubmissions).
  { apply preserves_filterSubmissions. intros n [rows |] s; reflexivity. }
  pose proof (nextSort_column (sortColumn st) (sortDirection st) column) as C.
  unfold sortTable, updateSortIndicators, bind, modify.
  destruct (nextSort (sortColumn st) (sortDirection st) column) as [c d].
  cbn [fst snd] in *. cbv beta iota. subst c.
  match goal with
  | |- context [filterSubmissions ?s] =>
      specialize (P s); destruct (filterSubmissions s) as [[u | e] s2]
  end; cbn [fst snd] in *; inversion P as [[I Dd]]; rewrite I, Dd;
    reflexivity.
Qed.

(* --------------------------------------------------------------------- *)
(** ** The detail modal *)
(* --------------------------------------------------------------------- *)

(** X25.  [generateDetailsHTML] shows the assessment only for status
    ['evaluated']: any other status gives the five identity groups and
    nothing else, even when an assessment is attached; for
    ['evaluated'] four more blocks follow, plus one feedback section for
    each of strengths, improvements and recommendations that is present
    and non-empty. *)
Theorem generateDetailsHTML_sections {H : Host} (s : Submission) (st : string) :
  status s = Some st ->
  exists html,
    generateDetailsHTML s = inl html
    /\ (st <> "evaluated" -> html = identityGroups s st)
    /\ List.length html
       = if String.eqb st "evaluated"
         then match assessment s with
              | Some a =>
                  (9 + hasItems (strengths a) + hasItems (improvements a)
                   + hasItems (recommendations a))%nat
              | None => 9%nat
              end
         else 5%nat.
Proof.
  intros Hs. unfold generateDetailsHTML. rewrite Hs.
  eexists. split; [reflexivity |]. split.
  - intros Ne. apply String.eqb_neq in Ne. rewrite Ne. reflexivity.
  - destruct (String.eqb st "evaluated"); [| reflexivity].
    rewrite length_app. unfold assessmentResults.
    rewrite !length_app. cbn [identityGroups List.length].
    assert (F : forall items color title,
               List.length (feedbackSection items color title) = hasItems items).
    { intros [[| i l] |] color title; reflexivity. }
    rewrite !F.
    destruct (assessment s) as [a |]; simpl; lia.
Qed.

Lemma generateDetailsHTML_sections_witness :
  exists html,
    generateDetailsHTML (H := asciiHost)
      {| _id := "P"; student_id := None; student_name := None;
         file_name := None; submitted_at := None; status := Some "pending";
         assessment := assessment submissionB |} = inl html
    /\ List.length html = 5%nat.
Proof.
  destruct (generateDetailsHTML_sections (H := asciiHost)
              {| _id := "P"; student_id := None; student_name := None;
                 file_name := None; submitted_at := None;
                 status := Some "pending";
                 assessment := assessment submissionB |} "pending" eq_refl)
    as [html [E [_ L]]].
  exists html. split; [exact E | exact L].
Defined.

Lemma liftJS_apiCall_run (net : Network) (endpoint method : string) (p : Page) :
  liftJS (apiCall net endpoint method) p
  = match fst (apiCall net endpoint method (page_state p)) with
    | Normal d => (Normal d, set_page_state (page_state p) p)
    | Throw e => (Throw e, set_page_state (notifyError e (page_state p)) p)
    end.
Proof.
  unfold liftJS. rewrite apiCall_fst, apiCall_run.
  destruct (fst (apiCall_try net endpoint method (page_state p))); reflexivity.
Qed.

(** [viewDetails] in one equation. *)
Lemma viewDetails_run {H : Host} (net : Network) (submissionId : string)
    (p : Page) :
  viewDetails net submissionId p
  = (Normal tt,
     match fst (apiCall net ("/api/submissions/" ++ submissionId) "GET"
                  (page_state p)) with
     | Throw e => set_page_state (notifyError e (page_state p)) p
     | Normal d =>
         match readPropOpt env_submission d with
         | Some submission =>
             match generateDetailsHTML submission with
             | inl html =>
                 set_detailsModal_classList
                   (classList_add "active" (detailsModal_classList p))
                   (set_modalBody html (set_page_state (page_state p) p))
             | inr _ => set_page_state (page_state p) p
             end
         | None => set_page_state (page_state p) p
         end
     end).
Proof.
  unfold viewDetails, tryCatchP. unfold bindP at 1.
  rewrite liftJS_apiCall_run.
  destruct (fst (apiCall net ("/api/submissions/" ++ submissionId) "GET"
                   (page_state p))) as [d | e]; [| reflexivity].
  unfold bindP, liftJS, readProp, ret, retP, throwP, modifyP.
  destruct d as [| env]; [reflexivity |]. cbn [fst snd readPropOpt].
  destruct (env_submission env) as [sub |]; [| reflexivity].
  destruct (generateDetailsHTML sub) as [html | err]; reflexivity.
Qed.

(** X26.  [viewDetails] opens the modal only when everything worked: the
    request succeeded, the envelope carries a submission, and the
    projection did not throw; the modal then holds that projection and
    has the class [active].  A failed request leaves the modal alone and
    adds one error notification; a missing submission or a throwing
    projection leaves the modal alone and adds no notification.  The
    handler itself never throws. *)
Theorem viewDetails_opens_only_on_success {H : Host} (net : Network)
    (submissionId : string) (p : Page) :
  let p' := snd (viewDetails net submissionId p) in
  let unopened :=
    modalBody p' = modalBody p
    /\ detailsModal_classList p' = detailsModal_classList p in
  fst (viewDetails net submissionId p) = Normal tt
  /\ match fst (apiCall net ("/api/submissions/" ++ submissionId) "GET"
                  (page_state p)) with
     | Throw e =>
         unopened
         /\ pageNotifications p'
            = (pageNotifications p
               ++ [ {| notif_type := "error";
                       notif_text := "Error: " ++ err_message e |} ])%list
     | Normal d =>
         pageNotifications p' = pageNotifications p
         /\ match readPropOpt env_submission d with
            | Some submission =>
                match generateDetailsHTML submission with
                | inl html =>
                    modalBody p' = html
                    /\ In "active" (detailsModal_classList p')
                | inr _ => unopened
                end
            | None => unopened
            end
     end.
Proof.
  cbv zeta. unfold pageNotifications. rewrite viewDetails_run.
  destruct (fst (apiCall net ("/api/submissions/" ++ submissionId) "GET"
                   (page_state p))) as [d | e].
  - destruct (readPropOpt env_submission d) as [sub |]; cbn.
    + destruct (generateDetailsHTML sub) as [html | err]; cbn.
      * repeat split. apply In_classList_add. right; reflexivity.
      * repeat split.
    + repeat split.
  - cbn. repeat split.
Qed.

(** X27.  Closing after a successful [viewDetails] takes the class
    [active] off the modal, keeps its other classes, and leaves the
    rendered details in place. *)
Theorem closeModal_after_viewDetails {H : Host} (net : Network)
    (submissionId : string) (p : Page) (env : Envelope)
    (submission : Submission) (html : list Html) :
  fst (apiCall net ("/api/submissions/" ++ submissionId) "GET" (page_state p))
  = Normal (JObject env) ->
  env_submission env = Some submission ->
  generateDetailsHTML submission = inl html ->
  let p1 := snd (viewDetails net submissionId p) in
  let p2 := snd (closeModal p1) in
  In "active" (detailsModal_classList p1)
  /\ ~ In "active" (detailsModal_classList p2)
  /\ (forall c, c <> "active" ->
        (In c (detailsModal_classList p2) <-> In c (detailsModal_classList p)))
  /\ modalBody p2 = html.
Proof.
  intros E S G. cbv zeta.
  rewrite viewDetails_run, E. cbn [readPropOpt]. rewrite S, G.
  unfold closeModal, modifyP.
  cbn [fst snd detailsModal_classList modalBody set_detailsModal_classList
       set_modalBody set_page_state].
  repeat split.
  - apply In_classList_add. right; reflexivity.
  - rewrite In_classList_remove. intros [_ N]. apply N; reflexivity.
  - rewrite In_classList_remove, In_classList_add. intros [[I | I] _];
      [exact I | contradiction].
  - intros I. rewrite In_classList_remove, In_classList_add. auto.
Qed.

Lemma closeModal_after_viewDetails_witness :
  let net := always {| env_success := Some true; env_error := None;
                       env_message := None; env_submissions := None;
                       env_statistics := None;
                       env_submission := Some submissionB;
                       env_monitoring_active := None;
                       env_download_url := None |} in
  detailsModal_classList
    (snd (closeModal (snd (viewDetails (H := asciiHost) net "B" initialPage))))
  = ["modal"]
  /\ ~ In "active"
       (detailsModal_classList
          (snd (closeModal
                  (snd (viewDetails (H := asciiHost) net "B" initialPage))))).
Proof.
  cbv zeta. split; [reflexivity |].
  eapply (closeModal_after_viewDetails (H := asciiHost)
            (always {| env_success := Some true; env_error := None;
                       env_message := None; env_submissions := None;
                       env_statistics := None;
                       env_submission := Some submissionB;
                       env_monitoring_active := None;
                       env_download_url := None |})
            "B" initialPage _ submissionB _ eq_refl eq_refl eq_refl).
Defined.

(* --------------------------------------------------------------------- *)
(** ** Downloads *)
(* --------------------------------------------------------------------- *)

Lemma liftJS_apiCall_run_at (net : Network) (endpoint method : string)
    (p : Page) (st0 : State) :
  liftJS (apiCall net endpoint method) p
  = match fst (apiCall net endpoint method st0) with
    | Normal d => (Normal d, set_page_state (page_state p) p)
    | Throw e => (Throw e, set_page_state (notifyError e (page_state p)) p)
    end.
Proof.
  rewrite liftJS_apiCall_run.
  rewrite (apiCall_fst_indep net endpoint method (page_state p) st0).
  reflexivity.
Qed.

Ltac download_cases net endpoint p R :=
  unfold tryCatchP in R;
  unfold bindP at 1 in R;
  unfold liftJS at 1, showNotification, modifyDom, modify in R;
  cbn [fst snd] in R;
  unfold bindP at 1 in R;
  rewrite (liftJS_apiCall_run_at net endpoint "GET" _ (page_state p)) in R;
  unfold pageNotifications;
  destruct (fst (apiCall net endpoint "GET" (page_state p))) as [d | e];
  [ unfold bindP, liftJS, readProp, ret, retP, throwP, modifyP,
      showNotification, modifyDom, modify in R;
    destruct d as [| env]; cbn [fst snd readPropOpt] in *;
    [ | destruct (env_download_url env) as [[| ch u] |] ]
  | ];
  cbn in R; inversion R; subst; cbn; rewrite <- ?app_assoc;
  repeat split; reflexivity.

(** X28.  [downloadReport] always announces the generation first.  Then:
    a failed request adds one error notification and opens nothing; a
    successful answer with a non-empty [download_url] opens exactly one
    window, at the base URL followed by that path, and adds the success
    notification; a successful answer without a [download_url] opens
    nothing and says nothing more.  The handler never throws. *)
Theorem downloadReport_outcomes (base : string) (net : Network)
    (submissionId format : string) (p : Page) :
  let p' := snd (downloadReport base net submissionId format p) in
  let announce :=
    {| notif_type := "info";
       notif_text := "Generating " ++ JsString.toUpperCase format ++ " report..." |} in
  fst (downloadReport base net submissionId format p) = Normal tt
  /\ match fst (apiCall net
                  ("/api/reports/individual/" ++ submissionId
                     ++ "?format=" ++ format) "GET" (page_state p)) with
     | Throw e =>
         openedWindows p' = openedWindows p
         /\ pageNotifications p'
            = (pageNotifications p
               ++ [ announce;
                    {| notif_type := "error";
                       notif_text := "Error: " ++ err_message e |} ])%list
     | Normal d =>
         if truthyStr (readPropOpt env_download_url d)
         then
           openedWindows p'
           = (openedWindows p
              ++ [ ((base ++ orStr (readPropOpt env_download_url d) "")%string,
                    "_blank") ])%list
           /\ pageNotifications p'
              = (pageNotifications p
                 ++ [ announce;
                      {| notif_type := "success";
                         notif_text :=
                           JsString.toUpperCase format
                             ++ " report downloaded successfully" |} ])%list
         else
           openedWindows p' = openedWindows p
           /\ pageNotifications p' = (pageNotifications p ++ [announce])%list
     end.
Proof.
  cbv zeta.
  destruct (downloadReport base net submissionId format p) as [c q] eqn:R.
  unfold downloadReport in R.
  download_cases net ("/api/reports/individual/" ++ submissionId
                        ++ "?format=" ++ format) p R.
Qed.

(** X29.  [downloadSpreadsheet] behaves the same way for the spreadsheet
    endpoint: the announcement always comes first; a failure adds one
    error notification and opens nothing; a non-empty [download_url]
    opens one window at the base URL followed by the path and adds the
    success notification; no [download_url] means nothing opens and
    nothing more is said. *)
Theorem downloadSpreadsheet_outcomes (base : string) (net : Network)
    (p : Page) :
  let p' := snd (downloadSpreadsheet base net p) in
  let announce :=
    {| notif_type := "info"; notif_text := "Generating spreadsheet..." |} in
  fst (downloadSpreadsheet base net p) = Normal tt
  /\ match fst (apiCall net "/api/reports/spreadsheet" "GET" (page_state p)) with
     | Throw e =>
         openedWindows p' = openedWindows p
         /\ pageNotifications p'
            = (pageNotifications p
               ++ [ announce;
                    {| notif_type := "error";
                       notif_text := "Error: " ++ err_message e |} ])%list
     | Normal d =>
         if truthyStr (readPropOpt env_download_url d)
         then
           openedWindows p'
           = (openedWindows p
              ++ [ ((base ++ orStr (readPropOpt env_download_url d) "")%string,
                    "_blank") ])%list
           /\ pageNotifications p'
              = (pageNotifications p
                 ++ [ announce;
                      {| notif_type := "success";
                         notif_text := "Spreadsheet downloaded successfully" |} ])%list
         else
           openedWindows p' = openedWindows p
           /\ pageNotifications p' = (pageNotifications p ++ [announce])%list
     end.
Proof.
  cbv zeta.
  destruct (downloadSpreadsheet base net p) as [c q] eqn:R.
  unfold downloadSpreadsheet in R.
  download_cases net "/api/reports/spreadsheet" p R.
Qed.

(* --------------------------------------------------------------------- *)
(** ** Configuration *)
(* --------------------------------------------------------------------- *)

Lemma trimStart_length (s : string) :
  (String.length (trimStart s) <= String.length s)%nat.
Proof.
  induction s as [| c s IH]; simpl; [lia |].
  destruct (isWhiteSpace c); simpl; lia.
Qed.

Lemma trimStart_fixed (c : ascii) (r : string) :
  trimStart (String c r) = String c r -> isWhiteSpace c = false.
Proof.
  simpl. destruct (isWhiteSpace c); [| reflexivity].
  intros E. pose proof (trimStart_length r) as L. rewrite E in L.
  simpl in L. lia.
Qed.

Lemma trimEnd_append_slash (s : string) : trimEnd (s ++ "/") = s ++ "/".
Proof.
  induction s as [| c s IH]; [reflexivity |].
  cbn [append trimEnd]. rewrite IH.
  destruct (s ++ "/") eqn:E; [| reflexivity].
  destruct s; discriminate.
Qed.

Lemma sanitize_append_slash (s : string) : sanitize (s ++ "/") = s.
Proof.
  induction s as [| c s IH]; [reflexivity |].
  cbn [append sanitize]. rewrite IH.
  destruct (s ++ "/") eqn:E; [destruct s; discriminate | reflexivity].
Qed.

(** X30.  A base URL configured in the meta tag wins over the global
    override and the page location, and one trailing slash makes no
    difference: for a non-empty URL without surrounding white space and
    without a trailing slash, configuring it as it is or with one slash
    appended gives that URL as [API_BASE_URL]. *)
Theorem API_BASE_URL_trailing_slash (url : string) (g : option JsValue)
    (origin protocol : string) :
  url <> "" ->
  trimStart url = url ->
  trimEnd url = url ->
  sanitize url = url ->
  API_BASE_URL {| metaTag := Some url; globalOverride := g;
                  location_origin := origin; location_protocol := protocol |}
  = url
  /\ API_BASE_URL {| metaTag := Some (url ++ "/"); globalOverride := g;
                     location_origin := origin; location_protocol := protocol |}
     = url.
Proof.
  intros Ne Ts Te Sa. unfold API_BASE_URL. cbn [metaTag].
  assert (T1 : trim url = url) by (unfold trim; rewrite Ts; exact Te).
  assert (T2 : trim (url ++ "/") = url ++ "/").
  { unfold trim. destruct url as [| c r]; [contradiction |].
    pose proof (trimStart_fixed c r Ts) as W.
    cbn [append trimStart]. rewrite W.
    apply (trimEnd_append_slash (String c r)). }
  rewrite T1, T2, Sa, sanitize_append_slash.
  destruct url as [| c r]; [contradiction |]. split; reflexivity.
Qed.

Lemma API_BASE_URL_trailing_slash_witness :
  API_BASE_URL {| metaTag := Some "https://assess.example.org/";
                  globalOverride := Some (VStr "http://other:8080");
                  location_origin := "null"; location_protocol := "file:" |}
  = "https://assess.example.org".
Proof.
  apply (API_BASE_URL_trailing_slash "https://assess.example.org"
           (Some (VStr "http://other:8080")) "null" "file:");
    [discriminate | reflexivity | reflexivity | reflexivity].
Defined.

(** Without a usable meta tag or override, the base is the page origin,
    or the local fallback when there is no origin, the origin is
    ['null'], or the page is a file. *)
Lemma API_BASE_URL_from_location (origin protocol : string) :
  let base := API_BASE_URL {| metaTag := None; globalOverride := None;
                              location_origin := origin;
                              location_protocol := protocol |} in
  base <> "" /\ base <> "null"
  /\ (protocol = "file:" -> base = "http://localhost:5000")
  /\ (base = origin \/ base = "http://localhost:5000").
Proof.
  cbv zeta. unfold API_BASE_URL.
  cbn [metaTag globalOverride location_origin location_protocol].
  destruct (negb (JsString.truthy origin) || String.eqb origin "null"
            || String.eqb protocol "file:")%bool eqn:E.
  - repeat split; try discriminate; auto.
  - apply orb_false_iff in E. destruct E as [E F].
    apply orb_false_iff in E. destruct E as [T N].
    apply String.eqb_neq in N, F. repeat split; auto.
    + intros ->. discriminate.
    + intros ->. contradiction.
Qed.
